(** * dnsd: the mini DNS server of busybox (networking/dnsd.c)

    A shallow embedding of [undot], [parse_conf_file], [table_lookup] and
    [process_packet], and the properties of the packet engine proved on it.

    Conventions of the embedding.
    - A byte is a [Z] in [0, 256); memory (the packet buffer, the answer
      array, the character arrays of a table entry) is a [list Z]; offsets
      into memory are [nat].
    - A C string argument is passed as the list of its characters up to, and
      without, the terminating NUL.
    - Target: a little-endian machine, as the Android targets this tree is
      built for are.  So [htons]/[htonl]/[ntohl] swap bytes and a 16- or
      32-bit load or store is little-endian.
    - The size of a pointer is not fixed: [process_packet] adds
      sizeof(unaligned_qprop), the size of a pointer, to a length, and takes
      it here as its first argument [sizeof_ptr]: 4 on a 32-bit build, 8 on a
      64-bit build.  What depends on it says so in its statement.
    - An access outside an array has no defined result in C; here it is the
      outcome [Fault]. *)

From Stdlib Require Import ZArith List Bool Lia.
Import ListNotations.
Open Scope Z_scope.

(** ** Results of fallible steps *)

Inductive result (A : Type) : Type :=
| Ok (a : A)
| Fault.
Arguments Ok {A} a.
Arguments Fault {A}.

Definition bind {A B : Type} (r : result A) (k : A -> result B) : result B :=
  match r with
  | Ok a => k a
  | Fault => Fault
  end.

Notation "x <- e ;; k" := (bind e (fun x => k))
  (at level 61, e at next level, right associativity).

(** ** Constants of the source *)

Definition DEFAULT_TTL : Z := 120.
Definition MAX_PACK_LEN : nat := 512.
(* sizeof(".xxx.xxx.xxx.xxx") *)
Definition IP_STRING_LEN : nat := 17.
(* IP_STRING_LEN - 1 + sizeof(".in-addr.arpa") *)
Definition MAX_NAME_LEN : nat := (IP_STRING_LEN - 1 + 14)%nat.
Definition REQ_A : Z := 1.
Definition REQ_PTR : Z := 12.
(* uint8_t buf[MAX_PACK_LEN * 2 + 4 + 2 + (MAX_NAME_LEN+1)] in dnsd_main *)
Definition BUF_SIZE : nat := (MAX_PACK_LEN * 2 + 4 + 2 + (MAX_NAME_LEN + 1))%nat.
(* sizeof(struct dns_head), sizeof(struct dns_prop) *)
Definition sizeof_dns_head : nat := 12.
Definition sizeof_dns_prop : nat := 4.

(** ** Bytes and byte order *)

Definition is_byte (z : Z) : Prop := 0 <= z < 256.

Definition is_byteb (z : Z) : bool := (0 <=? z) && (z <? 256).

(* htons, htonl and ntohl of libc on a little-endian host *)
Definition htons (x : Z) : Z := (x mod 256) * 256 + (x / 256) mod 256.

Definition htonl (x : Z) : Z :=
  (x mod 256) * 16777216 + ((x / 256) mod 256) * 65536
  + ((x / 65536) mod 256) * 256 + (x / 16777216) mod 256.

Definition ntohl (x : Z) : Z := htonl x.

(* the bytes of a uint16_t and of a uint32_t as they lie in memory *)
Definition le16 (v : Z) : list Z := [v mod 256; (v / 256) mod 256].

Definition le32 (v : Z) : list Z :=
  [v mod 256; (v / 256) mod 256; (v / 65536) mod 256; (v / 16777216) mod 256].

(** ** Memory *)

Definition load_bytes (m : list Z) (i n : nat) : result (list Z) :=
  if (i + n <=? length m)%nat then Ok (firstn n (skipn i m)) else Fault.

Definition store (m : list Z) (i : nat) (bs : list Z) : result (list Z) :=
  if (i + length bs <=? length m)%nat
  then Ok (firstn i m ++ bs ++ skipn (i + length bs) m)
  else Fault.

Definition load16 (m : list Z) (i : nat) : result Z :=
  bs <- load_bytes m i 2 ;;
  Ok (nth 0 bs 0 + 256 * nth 1 bs 0).

Definition store16 (m : list Z) (i : nat) (v : Z) : result (list Z) :=
  store m i (le16 v).

(** Modelled from the spec: the macros move_from_unaligned16 and
    move_to_unaligned32 come from include/platform.h, which is not part of
    the source file.  The spec has every field of header, question and
    record in network byte order; the macros are taken as a load of two
    bytes and a store of four bytes in the byte order of the host. *)
Definition move_from_unaligned16 (m : list Z) (i : nat) : result Z :=
  load16 m i.

Definition move_to_unaligned32 (m : list Z) (i : nat) (v : Z)
  : result (list Z) :=
  store m i (le32 v).

(** ** C strings *)

(* the characters before the first NUL *)
Fixpoint cstr (l : list Z) : list Z :=
  match l with
  | [] => []
  | c :: tl => if c =? 0 then [] else c :: cstr tl
  end.

Fixpoint strlen_from (l : list Z) : result nat :=
  match l with
  | [] => Fault
  | c :: tl => if c =? 0 then Ok 0%nat else n <- strlen_from tl ;; Ok (S n)
  end.

(* strlen(m + i) *)
Definition strlen (m : list Z) (i : nat) : result nat :=
  if (i <=? length m)%nat then strlen_from (skipn i m) else Fault.

Definition tolower (c : Z) : Z :=
  if (65 <=? c) && (c <=? 90) then c + 32 else c.

Fixpoint strcasecmp (s1 s2 : list Z) : Z :=
  match s1, s2 with
  | [], [] => 0
  | [], c2 :: _ => 0 - tolower c2
  | c1 :: _, [] => tolower c1
  | c1 :: t1, c2 :: t2 =>
      if tolower c1 =? tolower c2 then strcasecmp t1 t2
      else tolower c1 - tolower c2
  end.

Fixpoint strncmp (s1 s2 : list Z) (n : nat) : Z :=
  match n with
  | O => 0
  | S n' =>
      match s1, s2 with
      | [], [] => 0
      | [], c2 :: _ => 0 - c2
      | c1 :: _, [] => c1
      | c1 :: t1, c2 :: t2 =>
          if c1 =? c2 then strncmp t1 t2 n' else c1 - c2
      end
  end.

(* "%u" of sprintf *)
Fixpoint utoa_aux (fuel : nat) (v : Z) (acc : list Z) : list Z :=
  match fuel with
  | O => acc
  | S fuel' =>
      let acc' := (48 + v mod 10) :: acc in
      if v / 10 =? 0 then acc' else utoa_aux fuel' (v / 10) acc'
  end.

Definition utoa (v : Z) : list Z := utoa_aux 10 v [].

(** ** The name codec *)

(* One backward pass over the characters; the second component is [s], the
   number of characters seen since the last dot. *)
Fixpoint undot_aux (l : list Z) : list Z * Z :=
  match l with
  | [] => ([], 0)
  | c :: tl =>
      let (tl', s) := undot_aux tl in
      if c =? 46 then (s mod 256 :: tl', 0) else (c :: tl', s + 1)
  end.

Definition undot (rip : list Z) : list Z := fst (undot_aux rip).

(** ** The record table *)

Record dns_entry : Type := mk_dns_entry {
  ip : Z;            (* uint32_t, as inet_aton left it: network order *)
  rip : list Z;      (* length+decimal reversed IP, up to the final NUL *)
  name : list Z      (* label-encoded name, up to the final NUL *)
}.

(* d->name[i], inside the zeroed allocation *)
Definition name_at (d : dns_entry) (i : nat) : Z := nth i (name d) 0.

(* the body of the loop of parse_conf_file for one accepted line *)
Definition conf_entry (token0 : list Z) (s_addr : Z) : dns_entry :=
  let v32 := ntohl s_addr in
  {| ip := s_addr;
     rip := undot ([46] ++ utoa (v32 mod 256)
                   ++ [46] ++ utoa ((v32 / 256) mod 256)
                   ++ [46] ++ utoa ((v32 / 65536) mod 256)
                   ++ [46] ++ utoa (v32 / 16777216));
     name := undot (46 :: cstr token0) |}.

Section ParseConf.

(* inet_aton of libc: the address as a uint32_t in network order, or
   failure *)
Variable inet_aton : list Z -> option Z.

(* [lines]: the lines config_read delivers, each with its two tokens; the
   list built through [nextp] is the list of entries in the order of the
   lines *)
Fixpoint parse_conf_file (lines : list (list Z * list Z)) : list dns_entry :=
  match lines with
  | [] => []
  | (token0, token1) :: rest =>
      match inet_aton token1 with
      | None => parse_conf_file rest
      | Some s_addr => conf_entry token0 s_addr :: parse_conf_file rest
      end
  end.

End ParseConf.

(* The bytes written through [as] when the function returns 0, or [None]
   when it returns -1.  The forward branch stores the four bytes of d->ip,
   the reverse branch copies d->name with its NUL. *)
Fixpoint table_lookup (d : list dns_entry) (type : Z) (qs : list Z)
  : option (list Z) :=
  match d with
  | [] => None
  | e :: next =>
      let len := name_at e 0 in
      if type =? htons REQ_A then
        if (negb (len =? 1) || negb (name_at e 1 =? 42))
           && negb (strcasecmp (cstr (name e)) qs =? 0)
        then table_lookup next type qs
        else Some (le32 (ip e))
      else
        if (negb (len =? 1) || negb (name_at e 1 =? 42))
           && (strncmp (cstr (rip e)) qs (length (cstr (rip e))) =? 0)
        then Some (cstr (name e) ++ [0])
        else table_lookup next type qs
  end.

(** ** The packet processor *)

(* the code from the label empty_packet to the end *)
Definition empty_packet (buf : list Z) (outr_flags : Z) (answb : nat)
  : result (list Z * Z) :=
  (* head->flags |= outr_flags *)
  flags <- load16 buf 2 ;;
  buf <- store16 buf 2 (Z.lor flags outr_flags) ;;
  (* head->nauth = head->nadd = 0 *)
  buf <- store16 buf 10 0 ;;
  buf <- store16 buf 8 0 ;;
  (* head->nquer = htons(1) *)
  buf <- store16 buf 4 (htons 1) ;;
  (* return answb - buf *)
  Ok (buf, Z.of_nat answb).

(* The result is the buffer as process_packet leaves it and the value it
   returns.  Of the array answstr the source sets answstr[0] only; its other
   bytes are not read before table_lookup has written them, and are zero
   here.
   [sizeof_ptr] is sizeof(unaligned_qprop): unaligned_qprop is a pointer to
   a struct dns_prop, so this is the size of a pointer on the target and not
   the 4 bytes of the struct.  With a pointer of more than 4 bytes the two
   areas of the first memcpy overlap; the copy is taken from the bytes as
   they were before it. *)
Definition process_packet (sizeof_ptr : nat) (conf_data : list dns_entry)
    (conf_ttl : Z) (buf : list Z) : result (list Z * Z) :=
  let answstr := 0 :: repeat 0 MAX_NAME_LEN in
  (* if (head->nquer == 0) return -1 *)
  nquer <- load16 buf 4 ;;
  if nquer =? 0 then Ok (buf, -1) else
  (* if (head->flags & htons(0x8000)) return -1 *)
  flags <- load16 buf 2 ;;
  if negb (Z.land flags (htons 0x8000) =? 0) then Ok (buf, -1) else
  (* from = (void * )(head + 1); querystr_len = strlen(from) + 1 *)
  let from := sizeof_dns_head in
  n <- strlen buf from ;;
  let querystr_len := (n + 1)%nat in
  (* unaligned_qprop = from + querystr_len; answb = unaligned_qprop + 1 *)
  let unaligned_qprop := (from + querystr_len)%nat in
  let answb := (unaligned_qprop + sizeof_dns_prop)%nat in
  (* outr_flags = htons(0x8000 | 4), until the lookup *)
  type <- move_from_unaligned16 buf unaligned_qprop ;;
  if negb (type =? htons REQ_A) && negb (type =? htons REQ_PTR)
  then empty_packet buf (htons (Z.lor 0x8000 4)) answb else
  class <- move_from_unaligned16 buf (unaligned_qprop + 2) ;;
  if negb (class =? htons 1)
  then empty_packet buf (htons (Z.lor 0x8000 4)) answb else
  (* if ((head->flags & htons(0x7800)) != 0) goto empty_packet *)
  if negb (Z.land flags (htons 0x7800) =? 0)
  then empty_packet buf (htons (Z.lor 0x8000 4)) answb else
  qs <- load_bytes buf from n ;;
  match table_lookup conf_data type qs with
  | None =>
      (* outr_flags = htons(0x8000 | 0x0400 | 3); goto empty_packet *)
      empty_packet buf (htons (Z.lor (Z.lor 0x8000 0x0400) 3)) answb
  | Some written =>
      answstr <- store answstr 0 written ;;
      (* outr_rlen = 4, or strlen(answstr) + 1 for REQ_PTR; a uint16_t *)
      outr_rlen <-
        (if type =? htons REQ_PTR
         then l <- strlen answstr 0 ;; Ok (Z.of_nat (l + 1) mod 65536)
         else Ok 4) ;;
      (* head->nansw = htons(1) *)
      buf <- store16 buf 6 (htons 1) ;;
      (* querystr_len += sizeof(unaligned_qprop), the size of a pointer *)
      let querystr_len := (querystr_len + sizeof_ptr)%nat in
      (* memcpy(answb, from, querystr_len); answb += querystr_len *)
      q <- load_bytes buf from querystr_len ;;
      buf <- store buf answb q ;;
      let answb := (answb + querystr_len)%nat in
      (* move_to_unaligned32(answb, htonl(conf_ttl)); answb += 4 *)
      buf <- move_to_unaligned32 buf answb (htonl conf_ttl) ;;
      let answb := (answb + 4)%nat in
      (* move_to_unaligned32(answb, htons(outr_rlen)), a store of four
         bytes; answb += 2 *)
      buf <- move_to_unaligned32 buf answb (htons outr_rlen) ;;
      let answb := (answb + 2)%nat in
      (* memcpy(answb, answstr, outr_rlen); answb += outr_rlen *)
      r <- load_bytes answstr 0 (Z.to_nat outr_rlen) ;;
      buf <- store buf answb r ;;
      let answb := (answb + Z.to_nat outr_rlen)%nat in
      (* outr_flags = htons(0x8000 | 0x0400 | 0) *)
      empty_packet buf (htons (Z.lor (Z.lor 0x8000 0x0400) 0)) answb
  end.

(** ** One turn of the loop of dnsd_main *)

(* recv_from_to with room for MAX_PACK_LEN + 1 bytes, the size test, the
   "paranoia" NUL and the call of process_packet; the second component is
   the packet handed to send_to_from, if any *)
Definition dnsd_step (sizeof_ptr : nat) (conf_data : list dns_entry)
    (conf_ttl : Z) (buf datagram : list Z)
  : result (list Z * option (list Z)) :=
  let received := firstn (MAX_PACK_LEN + 1) datagram in
  let r := length received in
  buf <- store buf 0 received ;;
  if (r <? 12)%nat || (MAX_PACK_LEN <? r)%nat then Ok (buf, None) else
  buf <- store buf r [0] ;;
  p <- process_packet sizeof_ptr conf_data conf_ttl buf ;;
  if snd p <=? 0 then Ok (fst p, None)
  else Ok (fst p, Some (firstn (Z.to_nat (snd p)) (fst p))).

(** ** The wire view of a buffer

    The layout of RFC 1035 quoted in the source: a 12-byte header of six
    16-bit fields, then the question (name, type, class), all numbers in
    network byte order. *)

Definition is_u16 (v : Z) : Prop := 0 <= v < 65536.

(* a 16-bit and a 32-bit number as they go over the wire *)
Definition be16 (v : Z) : list Z := [(v / 256) mod 256; v mod 256].

Definition be32 (v : Z) : list Z :=
  [(v / 16777216) mod 256; (v / 65536) mod 256; (v / 256) mod 256; v mod 256].

(* the 16-bit number at offset [i], read in network byte order *)
Definition net16 (m : list Z) (i : nat) : Z := 256 * nth i m 0 + nth (S i) m 0.

(* struct dns_head, each field holding the value ntohs gives *)
Record dns_head : Type := mk_dns_head {
  id : Z;
  flags : Z;
  nquer : Z;
  nansw : Z;
  nauth : Z;
  nadd : Z
}.

Definition head_of (m : list Z) : dns_head :=
  {| id := net16 m 0; flags := net16 m 2; nquer := net16 m 4;
     nansw := net16 m 6; nauth := net16 m 8; nadd := net16 m 10 |}.

Definition head_bytes (h : dns_head) : list Z :=
  be16 (id h) ++ be16 (flags h) ++ be16 (nquer h)
  ++ be16 (nansw h) ++ be16 (nauth h) ++ be16 (nadd h).

(* the fields of the flags word *)
Definition QR (f : Z) : bool := Z.testbit f 15.
Definition OPCODE (f : Z) : Z := Z.land (Z.shiftr f 11) 15.
Definition AA (f : Z) : bool := Z.testbit f 10.
Definition RCODE (f : Z) : Z := Z.land f 15.

(* length of the query string: strlen(from) *)
Definition qlen (m : list Z) : nat :=
  match strlen m sizeof_dns_head with
  | Ok n => n
  | Fault => O
  end.

Definition qname (m : list Z) : list Z :=
  firstn (qlen m) (skipn sizeof_dns_head m).

Definition qtype (m : list Z) : Z := net16 m (sizeof_dns_head + qlen m + 1).

Definition qclass (m : list Z) : Z := net16 m (sizeof_dns_head + qlen m + 3).

(* name with its NUL, type and class *)
Definition question (m : list Z) : list Z :=
  firstn (qlen m + 1 + sizeof_dns_prop) (skipn sizeof_dns_head m).


(* What dnsd_main guarantees of the buffer it hands to process_packet: it is
   the array [buf], it holds bytes, and for the received size r, 12 <= r <=
   MAX_PACK_LEN, buf[r] is NUL. *)
Definition wf_bufb (buf : list Z) : bool :=
  (length buf =? BUF_SIZE)%nat
  && forallb is_byteb buf
  && existsb (fun r => nth r buf 1 =? 0)
       (seq sizeof_dns_head (MAX_PACK_LEN - sizeof_dns_head + 1)).

Definition wf_buf (buf : list Z) : Prop := wf_bufb buf = true.

(* Every name of the table, with its NUL, fits the array answstr. *)
Definition names_fitb (d : list dns_entry) : bool :=
  forallb (fun e => (length (cstr (name e)) <=? MAX_NAME_LEN)%nat) d.

Definition names_fit (d : list dns_entry) : Prop := names_fitb d = true.

(* the bytes dnsd_main sends: the first [n] bytes of the buffer *)
Definition reply_bytes (p : list Z * Z) : list Z :=
  firstn (Z.to_nat (snd p)) (fst p).

(** ** The layout of a query buffer *)

Definition head_ok (h : dns_head) : Prop :=
  is_u16 (id h) /\ is_u16 (flags h) /\ is_u16 (nquer h)
  /\ is_u16 (nansw h) /\ is_u16 (nauth h) /\ is_u16 (nadd h).

(* header, query string [Q] and its NUL, type, class, and what follows *)
Definition layout (h : dns_head) (Q : list Z) (ty cl : Z) (R : list Z)
  : list Z :=
  head_bytes h ++ Q ++ 0 :: be16 ty ++ be16 cl ++ R.

Definition nonzero_byte (c : Z) : Prop := is_byte c /\ c <> 0.

Definition layout_ok (h : dns_head) (Q : list Z) (ty cl : Z) (R : list Z)
  : Prop :=
  head_ok h /\ Forall nonzero_byte Q /\ is_u16 ty /\ is_u16 cl
  /\ Forall is_byte R
  /\ (length Q <= MAX_PACK_LEN - sizeof_dns_head)%nat
  /\ (length (layout h Q ty cl R) = BUF_SIZE)%nat.

(* the header process_packet leaves at the label empty_packet *)
Definition reply_head (h : dns_head) (c : Z) : dns_head :=
  {| id := id h; flags := Z.lor (flags h) c; nquer := 1;
     nansw := nansw h; nauth := 0; nadd := 0 |}.

Definition set_nansw (h : dns_head) (v : Z) : dns_head :=
  {| id := id h; flags := flags h; nquer := nquer h;
     nansw := v; nauth := nauth h; nadd := nadd h |}.

(** ** Matching, as table_lookup tests it *)

(* len == 1 && d->name[1] == '*' *)
Definition is_wildcard (e : dns_entry) : bool :=
  (name_at e 0 =? 1) && (name_at e 1 =? 42).

Definition fwd_match (e : dns_entry) (qs : list Z) : bool :=
  is_wildcard e || (strcasecmp (cstr (name e)) qs =? 0).

Definition rev_match (e : dns_entry) (qs : list Z) : bool :=
  negb (is_wildcard e)
  && (strncmp (cstr (rip e)) qs (length (cstr (rip e))) =? 0).

(* equal up to the case of the letters A-Z *)
Definition ci_equal (s1 s2 : list Z) : Prop := map tolower s1 = map tolower s2.

(* [p] is a byte-exact prefix of [s] *)
Definition is_prefix (p s : list Z) : Prop := firstn (length p) s = p.

(** ** Replies *)

(* the query is one process_packet does not ignore *)
Definition not_ignored (buf : list Z) : Prop :=
  nquer (head_of buf) <> 0 /\ QR (flags (head_of buf)) = false.

(* type A or PTR, class IN, opcode QUERY *)
Definition supported (buf : list Z) : Prop :=
  (qtype buf = REQ_A \/ qtype buf = REQ_PTR) /\ qclass buf = 1
  /\ OPCODE (flags (head_of buf)) = 0.

Definition valid_query (buf : list Z) : Prop :=
  not_ignored buf /\ supported buf.

(* process_packet leaves the header [hr] and then [body] at the start of the
   buffer and returns their length: the packet that dnsd_main sends is
   [head_bytes hr ++ body] *)
Definition replies (sizeof_ptr : nat) (conf_data : list dns_entry)
    (conf_ttl : Z) (buf : list Z) (hr : dns_head) (body : list Z) : Prop :=
  head_ok hr
  /\ exists rest,
       process_packet sizeof_ptr conf_data conf_ttl buf
       = Ok (head_bytes hr ++ body ++ rest,
             Z.of_nat (length (head_bytes hr ++ body))).

(* one resource record as process_packet lays it out with a pointer of 4
   bytes: the question once more, the TTL, the length of the resource data
   and the resource data *)
Definition answer_record (buf : list Z) (ttl : Z) (rdata : list Z) : list Z :=
  question buf ++ be32 ttl ++ be16 (Z.of_nat (length rdata)) ++ rdata.

(* the tests of process_packet that lead to "not implemented" *)
Definition supportedb (buf : list Z) : bool :=
  ((qtype buf =? REQ_A) || (qtype buf =? REQ_PTR))
  && (qclass buf =? 1)
  && (OPCODE (flags (head_of buf)) =? 0).

(* the header of a reply that carries a record *)
Definition answer_header (h : dns_head) : dns_head :=
  {| id := id h; flags := Z.lor (flags h) (Z.lor 0x8000 0x0400);
     nquer := 1; nansw := 1; nauth := 0; nadd := 0 |}.

(* the header of a reply to a query that matched no entry *)
Definition name_error_header (h : dns_head) : dns_head :=
  {| id := id h; flags := Z.lor (flags h) (Z.lor (Z.lor 0x8000 0x0400) 3);
     nquer := 1; nansw := nansw h; nauth := 0; nadd := 0 |}.

(* the tests of process_packet that lead to "return -1", negated *)
Definition not_ignoredb (buf : list Z) : bool :=
  negb (nquer (head_of buf) =? 0) && negb (QR (flags (head_of buf))).

Definition valid_queryb (buf : list Z) : bool :=
  not_ignoredb buf && supportedb buf.

(* the call table_lookup(answstr, conf_data, type, from) *)
Definition lookup (conf_data : list dns_entry) (buf : list Z)
  : option (list Z) :=
  table_lookup conf_data (htons (qtype buf)) (qname buf).

(* outr_flags at the label empty_packet, as ntohs gives it *)
Definition outr_flags (conf_data : list dns_entry) (buf : list Z) : Z :=
  if supportedb buf then
    match lookup conf_data buf with
    | Some _ => Z.lor (Z.lor 0x8000 0x0400) 0
    | None => Z.lor (Z.lor 0x8000 0x0400) 3
    end
  else Z.lor 0x8000 4.

(* the header of the reply *)
Definition reply_header (conf_data : list dns_entry) (buf : list Z)
  : dns_head :=
  let h := head_of buf in
  {| id := id h;
     flags := Z.lor (flags h) (outr_flags conf_data buf);
     nquer := 1;
     nansw := if supportedb buf then
                match lookup conf_data buf with
                | Some _ => 1
                | None => nansw h
                end
              else nansw h;
     nauth := 0;
     nadd := 0 |}.

(* what follows the header in the reply, with a pointer of 4 bytes *)
Definition reply_body (conf_data : list dns_entry) (conf_ttl : Z)
    (buf : list Z) : list Z :=
  question buf
  ++ (if supportedb buf then
        match lookup conf_data buf with
        | Some rdata => answer_record buf conf_ttl rdata
        | None => []
        end
      else []).

(* the data table_lookup writes fits the array answstr *)
Definition answer_fits (conf_data : list dns_entry) (buf : list Z) : Prop :=
  forall rdata, supportedb buf = true -> lookup conf_data buf = Some rdata ->
                (length rdata <= MAX_NAME_LEN + 1)%nat.

(** ** Dotted names and their wire form *)

(* the labels joined by dots *)
Definition dotted (l : list Z) (ls : list (list Z)) : list Z :=
  l ++ concat (map (cons 46) ls).

(* QNAME of RFC 1035: each label after its length octet, then the zero
   octet of the root *)
Definition wire_name (labels : list (list Z)) : list Z :=
  concat (map (fun l => Z.of_nat (length l) :: l) labels) ++ [0].

(* a label of a host name in the configuration file: characters of a C
   string, no dot, and a length that a length octet can hold *)
Definition label_ok (lab : list Z) : Prop :=
  Forall (fun c => c <> 0 /\ c <> 46) lab /\ (length lab < 256)%nat.

(** ** Test vectors *)

(* a buffer as dnsd_main hands it over: the datagram, then zeros *)
Definition datagram (h : dns_head) (qn : list Z) (ty cl : Z) : list Z :=
  layout h qn ty cl (repeat 0 (BUF_SIZE - 17 - length qn)).

Definition query_head (f nq na : Z) : dns_head :=
  {| id := 4660; flags := f; nquer := nq; nansw := na; nauth := 0; nadd := 0 |}.

(* "foo.example.com", "bar.example.com" and "*" as the configuration file
   has them *)
Definition foo_example_com : list Z :=
  [102;111;111;46;101;120;97;109;112;108;101;46;99;111;109].

Definition bar_example_com : list Z :=
  [98;97;114;46;101;120;97;109;112;108;101;46;99;111;109].

Definition star : list Z := [42].

(* the same names as a resolver sends them, without the final zero *)
Definition qn_foo : list Z :=
  [3;102;111;111; 7;101;120;97;109;112;108;101; 3;99;111;109].

Definition qn_bar : list Z :=
  [3;98;97;114; 7;101;120;97;109;112;108;101; 3;99;111;109].

(* 1.0.0.10.in-addr.arpa *)
Definition qn_ptr : list Z :=
  [1;49; 1;48; 1;48; 2;49;48; 7;105;110;45;97;100;100;114; 4;97;114;112;97].

(* 10.0.0.1 and 10.0.0.2 as inet_aton leaves them in a little-endian
   uint32_t *)
Definition addr_10_0_0_1 : Z := 16777226.
Definition addr_10_0_0_2 : Z := 33554442.

Definition table1 : list dns_entry := [conf_entry foo_example_com addr_10_0_0_1].

Definition table_star : list dns_entry := [conf_entry star addr_10_0_0_1].

Definition table_foo_star : list dns_entry :=
  [conf_entry foo_example_com addr_10_0_0_1; conf_entry star addr_10_0_0_2].

(* the same name twice, and the same address twice *)
Definition table_foo_foo : list dns_entry :=
  [conf_entry foo_example_com addr_10_0_0_1;
   conf_entry foo_example_com addr_10_0_0_2].

Definition table_foo_bar : list dns_entry :=
  [conf_entry foo_example_com addr_10_0_0_1;
   conf_entry bar_example_com addr_10_0_0_1].

(* an entry that does not match a query for foo.example.com or for
   1.0.0.10.in-addr.arpa, then one that does *)
Definition table_bar_foo : list dns_entry :=
  [conf_entry bar_example_com addr_10_0_0_2;
   conf_entry foo_example_com addr_10_0_0_1].

Definition table_bar_star : list dns_entry :=
  [conf_entry bar_example_com addr_10_0_0_2;
   conf_entry star addr_10_0_0_1].

(* RD set, one question *)
Definition query_foo_A : list Z := datagram (query_head 256 1 0) qn_foo 1 1.
Definition query_bar_A : list Z := datagram (query_head 256 1 0) qn_bar 1 1.
Definition query_foo_MX : list Z := datagram (query_head 256 1 0) qn_foo 15 1.
Definition query_ptr : list Z := datagram (query_head 256 1 0) qn_ptr 12 1.

(* the same with bits set in RCODE and a nonzero answer count *)
Definition query_foo_A_rcode5 : list Z :=
  datagram (query_head (256 + 5) 1 0) qn_foo 1 1.
Definition query_bar_A_rcode4_an1 : list Z :=
  datagram (query_head (256 + 4) 1 1) qn_bar 1 1.
Definition query_foo_MX_rcode1_an1 : list Z :=
  datagram (query_head (256 + 1) 1 1) qn_foo 15 1.

(* a reverse query whose name fills the datagram: 500 characters, the NUL
   is the one dnsd_main puts behind the 512 bytes received *)
Definition qn_ptr_500 : list Z := qn_ptr ++ repeat 97 478.
Definition query_ptr_500 : list Z :=
  datagram (query_head 256 1 0) qn_ptr_500 12 1.

(* a host name of 29 letters a, for the address 10.0.0.1: with its length
   octet and its NUL it fills the answer array *)
Definition table_name_29 : list dns_entry :=
  [conf_entry (repeat 97 29) addr_10_0_0_1].

(* no question; and a response *)
Definition query_no_question : list Z := datagram (query_head 256 0 0) qn_foo 1 1.
Definition query_response : list Z :=
  datagram (query_head (0x8000 + 256) 1 0) qn_foo 1 1.

(* What one turn of the loop sends, with a pointer of 4 bytes, for the
   buffer as process_packet gets it, read off the query: nothing for an
   ignored packet, the reply otherwise; [None] when the data of the lookup
   does not fit answstr. *)
Definition turn_outcome (conf_data : list dns_entry) (conf_ttl : Z)
    (buf : list Z) : option (option (list Z)) :=
  if not_ignoredb buf then
    if match (if supportedb buf then lookup conf_data buf else None) with
       | Some rdata => (length rdata <=? MAX_NAME_LEN + 1)%nat
       | None => true
       end
    then Some (Some (head_bytes (reply_header conf_data buf)
                     ++ reply_body conf_data conf_ttl buf))
    else None
  else Some None.

(* [m'] has the length of [m], and holds bytes if [m] does *)
Definition same_shape (m m' : list Z) : Prop :=
  length m' = length m /\ (Forall is_byte m -> Forall is_byte m').

(* a host name of 31 letters a, for the address 10.0.0.1 *)
Definition table_long_name : list dns_entry :=
  [conf_entry (repeat 97 31) addr_10_0_0_1].

(* a stand-in for inet_aton in examples: it accepts the address texts "1"
   and "2" only *)
Definition inet_aton_example (t : list Z) : option Z :=
  match t with
  | [49] => Some addr_10_0_0_1
  | [50] => Some addr_10_0_0_2
  | _ => None
  end.

(** ** The loop of dnsd_main, and readings of names and addresses *)

(* the number a string of decimal digits denotes *)
Definition atou (digits : list Z) : Z :=
  fold_left (fun acc c => 10 * acc + (c - 48)) digits 0.

(* a label after its length octet *)
Definition label (l : list Z) : list Z := Z.of_nat (length l) :: l.

(* the characters of every name of the table are bytes *)
Definition table_bytes (d : list dns_entry) : Prop :=
  Forall (fun e => Forall is_byte (name e)) d.

(* what a turn of the loop hands to send_to_from; [None] when the turn has
   no defined result *)
Definition sent (r : result (list Z * option (list Z)))
  : option (option (list Z)) :=
  match r with
  | Ok (_, p) => Some p
  | Fault => None
  end.

(* the loop of dnsd_main over the datagrams that arrive, in their order, on
   the one buffer; the second component lists what each turn sent *)
Fixpoint dnsd_run (sizeof_ptr : nat) (conf_data : list dns_entry)
    (conf_ttl : Z) (buf : list Z) (datagrams : list (list Z))
  : result (list Z * list (option (list Z))) :=
  match datagrams with
  | [] => Ok (buf, [])
  | datagram :: rest =>
      p <- dnsd_step sizeof_ptr conf_data conf_ttl buf datagram ;;
      q <- dnsd_run sizeof_ptr conf_data conf_ttl (fst p) rest ;;
      Ok (fst q, snd p :: snd q)
  end.

(** * Properties *)

(** ** Bytes, pairs of bytes and byte order *)

(* side conditions on constants and on lengths *)
Ltac u16_const :=
  unfold is_u16;
  first [ lia
        | split; [apply Z.leb_le | apply Z.ltb_lt]; vm_compute; reflexivity ].

Lemma is_byteb_spec z : is_byteb z = true <-> is_byte z.
Proof. unfold is_byteb, is_byte. rewrite andb_true_iff. lia. Qed.

Lemma testbit_pair a0 a1 n :
  is_byte a0 -> 0 <= n ->
  Z.testbit (a0 + 256 * a1) n
  = if n <? 8 then Z.testbit a0 n else Z.testbit a1 (n - 8).
Proof.
  intros Ha Hn. unfold is_byte in Ha. destruct (n <? 8) eqn:E.
  - apply Z.ltb_lt in E.
    rewrite <- (Z.mod_pow2_bits_low (a0 + 256 * a1) 8 n) by lia.
    f_equal. change (2 ^ 8) with 256. Z.div_mod_to_equations. lia.
  - apply Z.ltb_ge in E.
    replace n with ((n - 8) + 8) at 1 by lia.
    rewrite <- Z.div_pow2_bits by lia.
    f_equal. change (2 ^ 8) with 256. Z.div_mod_to_equations. lia.
Qed.

Lemma byte_high_bits a n : is_byte a -> 8 <= n -> Z.testbit a n = false.
Proof.
  intros Ha Hn. replace n with ((n - 8) + 8) by lia.
  rewrite <- Z.div_pow2_bits by lia.
  change (2 ^ 8) with 256. rewrite Z.div_small by exact Ha. apply Z.bits_0.
Qed.

Lemma is_byte_bits a :
  0 <= a -> (forall n, 8 <= n -> Z.testbit a n = false) -> is_byte a.
Proof.
  intros H0 H. split; [assumption|].
  destruct (Z.ltb_spec a 256) as [|Hge]; [assumption|exfalso].
  assert (Hp : 0 < a) by lia.
  pose proof (Z.bit_log2 a Hp) as Hb.
  assert (8 <= Z.log2 a).
  { change 8 with (Z.log2 256). apply Z.log2_le_mono. lia. }
  rewrite H in Hb by assumption. discriminate.
Qed.

Lemma is_byte_lor a b : is_byte a -> is_byte b -> is_byte (Z.lor a b).
Proof.
  intros Ha Hb. apply is_byte_bits.
  - apply Z.lor_nonneg. unfold is_byte in *. lia.
  - intros n Hn. rewrite Z.lor_spec, !byte_high_bits by assumption.
    reflexivity.
Qed.

Lemma is_byte_land a b : is_byte a -> is_byte b -> is_byte (Z.land a b).
Proof.
  intros Ha Hb. apply is_byte_bits.
  - apply Z.land_nonneg. unfold is_byte in *. lia.
  - intros n Hn. rewrite Z.land_spec, !byte_high_bits by assumption.
    reflexivity.
Qed.

Lemma lor_pair a0 a1 b0 b1 :
  is_byte a0 -> is_byte b0 ->
  Z.lor (a0 + 256 * a1) (b0 + 256 * b1) = Z.lor a0 b0 + 256 * Z.lor a1 b1.
Proof.
  intros Ha Hb. apply Z.bits_inj'. intros n Hn.
  rewrite Z.lor_spec, !testbit_pair by (auto using is_byte_lor).
  destruct (n <? 8); rewrite Z.lor_spec; reflexivity.
Qed.

Lemma land_pair a0 a1 b0 b1 :
  is_byte a0 -> is_byte b0 ->
  Z.land (a0 + 256 * a1) (b0 + 256 * b1) = Z.land a0 b0 + 256 * Z.land a1 b1.
Proof.
  intros Ha Hb. apply Z.bits_inj'. intros n Hn.
  rewrite Z.land_spec, !testbit_pair by (auto using is_byte_land).
  destruct (n <? 8); rewrite Z.land_spec; reflexivity.
Qed.

Lemma u16_split v :
  is_u16 v ->
  exists v0 v1, is_byte v0 /\ is_byte v1 /\ v = v0 + 256 * v1.
Proof.
  intros Hv. exists (v mod 256), (v / 256).
  unfold is_u16 in Hv. unfold is_byte. Z.div_mod_to_equations. lia.
Qed.

Lemma u16_pair v0 v1 : is_byte v0 -> is_byte v1 -> is_u16 (v0 + 256 * v1).
Proof. unfold is_byte, is_u16. lia. Qed.

Lemma htons_pair v0 v1 :
  is_byte v0 -> is_byte v1 -> htons (v0 + 256 * v1) = v1 + 256 * v0.
Proof.
  unfold is_byte, htons. intros H0 H1. Z.div_mod_to_equations. lia.
Qed.

Lemma htons_u16 v : is_u16 v -> is_u16 (htons v).
Proof.
  intros Hv. destruct (u16_split v Hv) as (v0 & v1 & H0 & H1 & ->).
  rewrite htons_pair by assumption. apply u16_pair; assumption.
Qed.

Lemma is_u16_lor a b : is_u16 a -> is_u16 b -> is_u16 (Z.lor a b).
Proof.
  intros Ha Hb.
  destruct (u16_split a Ha) as (a0 & a1 & Ha0 & Ha1 & ->).
  destruct (u16_split b Hb) as (b0 & b1 & Hb0 & Hb1 & ->).
  rewrite lor_pair by assumption. apply u16_pair; apply is_byte_lor; assumption.
Qed.

Lemma htons_lor a b :
  is_u16 a -> is_u16 b -> Z.lor (htons a) (htons b) = htons (Z.lor a b).
Proof.
  intros Ha Hb.
  destruct (u16_split a Ha) as (a0 & a1 & Ha0 & Ha1 & ->).
  destruct (u16_split b Hb) as (b0 & b1 & Hb0 & Hb1 & ->).
  rewrite (lor_pair a0 a1 b0 b1), !htons_pair, lor_pair
    by (auto using is_byte_lor).
  reflexivity.
Qed.

Lemma htons_land a b :
  is_u16 a -> is_u16 b -> Z.land (htons a) (htons b) = htons (Z.land a b).
Proof.
  intros Ha Hb.
  destruct (u16_split a Ha) as (a0 & a1 & Ha0 & Ha1 & ->).
  destruct (u16_split b Hb) as (b0 & b1 & Hb0 & Hb1 & ->).
  rewrite (land_pair a0 a1 b0 b1), !htons_pair, land_pair
    by (auto using is_byte_land).
  reflexivity.
Qed.

Lemma htons_inj a b : is_u16 a -> is_u16 b -> htons a = htons b -> a = b.
Proof.
  intros Ha Hb.
  destruct (u16_split a Ha) as (a0 & a1 & Ha0 & Ha1 & ->).
  destruct (u16_split b Hb) as (b0 & b1 & Hb0 & Hb1 & ->).
  rewrite !htons_pair by assumption. unfold is_byte in *. lia.
Qed.

Lemma htons_eqb a b :
  is_u16 a -> is_u16 b -> (htons a =? htons b) = (a =? b).
Proof.
  intros Ha Hb. destruct (Z.eqb_spec a b) as [->|Hne].
  - apply Z.eqb_refl.
  - apply Z.eqb_neq. intros H. apply Hne. apply htons_inj; assumption.
Qed.

Lemma le16_htons v : is_u16 v -> le16 (htons v) = be16 v.
Proof.
  unfold is_u16, le16, be16, htons. intros Hv.
  f_equal; [|f_equal]; Z.div_mod_to_equations; lia.
Qed.

Lemma le32_htonl v : 0 <= v < 4294967296 -> le32 (htonl v) = be32 v.
Proof.
  unfold le32, be32, htonl. intros Hv.
  f_equal; [|f_equal; [|f_equal; [|f_equal]]]; Z.div_mod_to_equations; lia.
Qed.

Lemma be16_pair b0 b1 : is_byte b0 -> is_byte b1 -> be16 (256 * b0 + b1) = [b0; b1].
Proof.
  unfold is_byte, be16. intros H0 H1.
  f_equal; [|f_equal]; Z.div_mod_to_equations; lia.
Qed.

Lemma be16_bytes v : Forall is_byte (be16 v).
Proof.
  unfold be16, is_byte. repeat constructor; Z.div_mod_to_equations; lia.
Qed.

(** ** Memory *)

Lemma load_bytes_at m A B C i n :
  m = A ++ B ++ C -> i = length A -> n = length B ->
  load_bytes m i n = Ok B.
Proof.
  intros -> -> ->. unfold load_bytes.
  replace (length A + length B <=? length (A ++ B ++ C))%nat with true
    by (symmetry; apply Nat.leb_le; rewrite !length_app; lia).
  rewrite skipn_app, skipn_all, Nat.sub_diag. cbn [skipn app].
  rewrite firstn_app, firstn_all, Nat.sub_diag. cbn [firstn].
  rewrite app_nil_r. reflexivity.
Qed.

Lemma store_at m A B C i bs :
  m = A ++ B ++ C -> i = length A -> length bs = length B ->
  store m i bs = Ok (A ++ bs ++ C).
Proof.
  intros -> -> Hl. unfold store.
  replace (length A + length bs <=? length (A ++ B ++ C))%nat with true
    by (symmetry; apply Nat.leb_le; rewrite !length_app; lia).
  rewrite firstn_app, firstn_all, Nat.sub_diag. cbn [firstn].
  rewrite app_nil_r.
  rewrite skipn_app, (skipn_all2 A) by lia. cbn [app].
  replace (length A + length bs - length A)%nat with (length B) by lia.
  rewrite skipn_app, skipn_all, Nat.sub_diag. reflexivity.
Qed.

Lemma strlen_from_app Q C :
  Forall (fun c => c <> 0) Q -> strlen_from (Q ++ 0 :: C) = Ok (length Q).
Proof.
  induction 1 as [|c Q Hc _ IH]; [reflexivity|].
  cbn [app strlen_from length].
  destruct (Z.eqb_spec c 0); [contradiction|]. rewrite IH. reflexivity.
Qed.

Lemma strlen_at m A Q C i :
  m = A ++ Q ++ 0 :: C -> i = length A -> Forall (fun c => c <> 0) Q ->
  strlen m i = Ok (length Q).
Proof.
  intros -> -> HQ. unfold strlen.
  replace (length A <=? length (A ++ Q ++ 0%Z :: C))%nat with true
    by (symmetry; apply Nat.leb_le; rewrite !length_app; lia).
  rewrite skipn_app, skipn_all, Nat.sub_diag. cbn [skipn app].
  apply strlen_from_app. assumption.
Qed.

Lemma cstr_app Q C : Forall (fun c => c <> 0) Q -> cstr (Q ++ 0 :: C) = Q.
Proof.
  induction 1 as [|c Q Hc _ IH]; [reflexivity|].
  cbn [app cstr]. destruct (Z.eqb_spec c 0); [contradiction|].
  rewrite IH. reflexivity.
Qed.

Lemma cstr_nonzero l : Forall (fun c => c <> 0) (cstr l).
Proof.
  induction l as [|c l IH]; cbn [cstr]; [constructor|].
  destruct (Z.eqb_spec c 0); constructor; assumption.
Qed.

Lemma nonzero_byte_nonzero Q :
  Forall nonzero_byte Q -> Forall (fun c => c <> 0) Q.
Proof. apply Forall_impl. intros c [_ H]. exact H. Qed.

Lemma cstr_length l : (length (cstr l) <= length l)%nat.
Proof.
  induction l as [|c l IH]; cbn [cstr length]; [lia|].
  destruct (c =? 0); cbn [length]; lia.
Qed.

(** ** The header *)

Lemma head_bytes_length h : length (head_bytes h) = 12%nat.
Proof. reflexivity. Qed.

Ltac mem_simpl :=
  cbn [app length Nat.add Nat.leb skipn firstn nth bind].

Ltac head_simpl :=
  unfold load16, load_bytes, store16, store, head_bytes, be16;
  cbn [id flags nquer nansw nauth nadd set_nansw reply_head];
  mem_simpl.

Lemma head_load_nquer h X : load16 (head_bytes h ++ X) 4 = Ok (htons (nquer h)).
Proof. head_simpl. unfold htons. f_equal. lia. Qed.

Lemma head_load_flags h X : load16 (head_bytes h ++ X) 2 = Ok (htons (flags h)).
Proof. head_simpl. unfold htons. f_equal. lia. Qed.

Lemma head_store_nansw h X v :
  is_u16 v ->
  store16 (head_bytes h ++ X) 6 (htons v) = Ok (head_bytes (set_nansw h v) ++ X).
Proof.
  intros Hv. unfold store16. rewrite le16_htons by assumption.
  head_simpl. reflexivity.
Qed.

Lemma be16_0 : be16 0 = [0; 0].
Proof. reflexivity. Qed.

Lemma empty_packet_head h X c answb :
  head_ok h -> is_u16 c ->
  empty_packet (head_bytes h ++ X) (htons c) answb
  = Ok (head_bytes (reply_head h c) ++ X, Z.of_nat answb).
Proof.
  intros (_ & Hf & _) Hc. unfold empty_packet.
  rewrite head_load_flags. cbn [bind].
  rewrite htons_lor by assumption.
  unfold store16 at 1. rewrite le16_htons by (apply is_u16_lor; assumption).
  unfold store16. rewrite (le16_htons 1) by (u16_const).
  change (le16 0) with (be16 0).
  head_simpl. reflexivity.
Qed.

(** ** The tests of the validator, read on the wire values *)

Lemma htons_0 : htons 0 = 0.
Proof. reflexivity. Qed.

Lemma htons_eqb_0 v : is_u16 v -> (htons v =? 0) = (v =? 0).
Proof.
  intros Hv. rewrite <- htons_0 at 1.
  apply htons_eqb; [assumption|u16_const].
Qed.

Lemma land_pow2 f n :
  0 <= n -> Z.land f (2 ^ n) = if Z.testbit f n then 2 ^ n else 0.
Proof.
  intros Hn. apply Z.bits_inj'. intros m Hm.
  rewrite Z.land_spec, Z.pow2_bits_eqb by assumption.
  destruct (Z.eqb_spec n m) as [->|Hne].
  - destruct (Z.testbit f m); cbn [andb].
    + rewrite Z.pow2_bits_true by assumption. reflexivity.
    + rewrite Z.bits_0. reflexivity.
  - rewrite andb_false_r. destruct (Z.testbit f n).
    + rewrite Z.pow2_bits_false by assumption. reflexivity.
    + rewrite Z.bits_0. reflexivity.
Qed.

Lemma test_QR f :
  is_u16 f -> negb (Z.land (htons f) (htons 0x8000) =? 0) = QR f.
Proof.
  intros Hf.
  rewrite htons_land by (assumption || (u16_const)).
  assert (Hl : is_u16 (Z.land f 0x8000)).
  { change 0x8000 with (2 ^ 15). rewrite land_pow2 by lia.
    destruct (Z.testbit f 15); unfold is_u16; cbn; lia. }
  rewrite htons_eqb_0 by assumption.
  change 0x8000 with (2 ^ 15). rewrite land_pow2 by lia. unfold QR.
  destruct (Z.testbit f 15); reflexivity.
Qed.

Lemma land_opcode_mask f :
  Z.land f 0x7800 = Z.shiftl (OPCODE f) 11.
Proof.
  unfold OPCODE. change 0x7800 with (Z.shiftl 15 11).
  apply Z.bits_inj'. intros m Hm.
  rewrite Z.land_spec, !Z.shiftl_spec by assumption.
  destruct (Z.ltb_spec m 11) as [Hlt|Hge].
  - rewrite !(Z.testbit_neg_r _ (m - 11)) by lia. apply andb_false_r.
  - rewrite Z.land_spec, Z.shiftr_spec by lia.
    replace (m - 11 + 11) with m by lia. reflexivity.
Qed.

Lemma OPCODE_range f : is_u16 f -> 0 <= OPCODE f < 16.
Proof.
  intros Hf. unfold OPCODE. change 15 with (Z.ones 4).
  rewrite Z.land_ones by lia. apply Z.mod_pos_bound. reflexivity.
Qed.

Lemma test_OPCODE f :
  is_u16 f -> (Z.land (htons f) (htons 0x7800) =? 0) = (OPCODE f =? 0).
Proof.
  intros Hf.
  rewrite htons_land by (assumption || (u16_const)).
  pose proof (OPCODE_range f Hf) as Ho.
  rewrite land_opcode_mask, Z.shiftl_mul_pow2 by lia.
  rewrite htons_eqb_0 by (unfold is_u16; change (2 ^ 11) with 2048; lia).
  change (2 ^ 11) with 2048.
  destruct (Z.eqb_spec (OPCODE f) 0) as [->|Hne]; [reflexivity|].
  apply Z.eqb_neq. lia.
Qed.

Lemma test_type ty c :
  is_u16 ty -> is_u16 c -> (htons ty =? htons c) = (ty =? c).
Proof. apply htons_eqb. Qed.

(** ** Loads from a query buffer *)

Lemma load16_at m A b0 b1 C i :
  m = A ++ [b0; b1] ++ C -> i = length A ->
  load16 m i = Ok (b0 + 256 * b1).
Proof.
  intros Hm Hi. unfold load16.
  rewrite (load_bytes_at m A [b0; b1] C i 2 Hm Hi eq_refl). reflexivity.
Qed.

Lemma load16_be16 m A v C i :
  m = A ++ be16 v ++ C -> i = length A -> is_u16 v ->
  load16 m i = Ok (htons v).
Proof.
  intros Hm Hi Hv. unfold be16 in Hm.
  rewrite (load16_at m A _ _ C i Hm Hi). f_equal.
  unfold htons, is_u16 in *. Z.div_mod_to_equations. lia.
Qed.

Section Layout.

Variables (h : dns_head) (Q : list Z) (ty cl : Z) (R : list Z).
Hypothesis HQ : Forall nonzero_byte Q.
Hypothesis Hty : is_u16 ty.
Hypothesis Hcl : is_u16 cl.

Lemma layout_strlen : strlen (layout h Q ty cl R) sizeof_dns_head = Ok (length Q).
Proof.
  apply (strlen_at _ (head_bytes h) Q (be16 ty ++ be16 cl ++ R));
    [reflexivity|reflexivity|].
  apply nonzero_byte_nonzero. assumption.
Qed.

Lemma layout_load_type :
  load16 (layout h Q ty cl R) (sizeof_dns_head + (length Q + 1)) = Ok (htons ty).
Proof.
  apply (load16_be16 _ (head_bytes h ++ Q ++ [0]) ty (be16 cl ++ R)).
  - unfold layout. rewrite <- !app_assoc. reflexivity.
  - rewrite !length_app. reflexivity.
  - assumption.
Qed.

Lemma layout_load_class :
  load16 (layout h Q ty cl R) (sizeof_dns_head + (length Q + 1) + 2)
  = Ok (htons cl).
Proof.
  apply (load16_be16 _ (head_bytes h ++ Q ++ 0 :: be16 ty) cl R).
  - unfold layout. rewrite <- !app_assoc. reflexivity.
  - rewrite !length_app, head_bytes_length.
    unfold sizeof_dns_head, be16. cbn [length]. lia.
  - assumption.
Qed.

Lemma layout_load_qs :
  load_bytes (layout h Q ty cl R) sizeof_dns_head (length Q) = Ok Q.
Proof.
  apply (load_bytes_at _ (head_bytes h) Q (0 :: be16 ty ++ be16 cl ++ R));
    reflexivity.
Qed.

Lemma layout_load_question :
  load_bytes (layout h Q ty cl R) sizeof_dns_head (length Q + 1 + sizeof_dns_prop)
  = Ok (Q ++ 0 :: be16 ty ++ be16 cl).
Proof.
  apply (load_bytes_at _ (head_bytes h) (Q ++ 0 :: be16 ty ++ be16 cl) R).
  - unfold layout. rewrite <- !app_assoc. reflexivity.
  - reflexivity.
  - rewrite length_app. unfold sizeof_dns_prop, be16. cbn [length app]. lia.
Qed.

End Layout.

Lemma store_tail m A X i bs :
  m = A ++ X -> i = length A -> (length bs <= length X)%nat ->
  store m i bs = Ok (A ++ bs ++ skipn (length bs) X).
Proof.
  intros Hm Hi Hl.
  apply (store_at m A (firstn (length bs) X) (skipn (length bs) X) i bs).
  - rewrite firstn_skipn. assumption.
  - assumption.
  - rewrite length_firstn. lia.
Qed.

Lemma store_app_r A X j bs X' :
  store X j bs = Ok X' -> store (A ++ X) (length A + j) bs = Ok (A ++ X').
Proof.
  unfold store. intros H.
  destruct (Nat.leb_spec (j + length bs) (length X)) as [Hle|]; [|discriminate].
  injection H as <-.
  replace (length A + j + length bs <=? length (A ++ X))%nat with true
    by (symmetry; apply Nat.leb_le; rewrite length_app; lia).
  rewrite firstn_app, firstn_all2 by lia.
  rewrite skipn_app, skipn_all2 by lia. cbn [app].
  replace (length A + j - length A)%nat with j by lia.
  replace (length A + j + length bs - length A)%nat with (j + length bs)%nat
    by lia.
  rewrite <- app_assoc. reflexivity.
Qed.

Section LayoutStores.

Variables (h : dns_head) (Q : list Z) (ty cl : Z).

Lemma layout_load_nquer X :
  load16 (layout h Q ty cl X) 4 = Ok (htons (nquer h)).
Proof. apply head_load_nquer. Qed.

Lemma layout_load_flags X :
  load16 (layout h Q ty cl X) 2 = Ok (htons (flags h)).
Proof. apply head_load_flags. Qed.

Lemma layout_store_nansw X v :
  is_u16 v ->
  store16 (layout h Q ty cl X) 6 (htons v) = Ok (layout (set_nansw h v) Q ty cl X).
Proof. apply head_store_nansw. Qed.

Lemma layout_empty_packet X c answb :
  head_ok h -> is_u16 c ->
  empty_packet (layout h Q ty cl X) (htons c) answb
  = Ok (layout (reply_head h c) Q ty cl X, Z.of_nat answb).
Proof. apply empty_packet_head. Qed.

Lemma layout_store_tail X i j bs X' :
  i = (sizeof_dns_head + (length Q + 1) + sizeof_dns_prop + j)%nat ->
  store X j bs = Ok X' ->
  store (layout h Q ty cl X) i bs = Ok (layout h Q ty cl X').
Proof.
  intros -> HX.
  assert (Hs : forall Y, layout h Q ty cl Y
               = (head_bytes h ++ Q ++ 0 :: be16 ty ++ be16 cl) ++ Y).
  { intros Y. unfold layout. rewrite <- !app_assoc. reflexivity. }
  rewrite !Hs.
  replace (sizeof_dns_head + (length Q + 1) + sizeof_dns_prop)%nat
    with (length (head_bytes h ++ Q ++ 0 :: be16 ty ++ be16 cl)).
  - apply store_app_r. assumption.
  - rewrite !length_app, head_bytes_length.
    unfold sizeof_dns_head, sizeof_dns_prop, be16. cbn [length app]. lia.
Qed.

End LayoutStores.

Lemma layout_length h Q ty cl X :
  length (layout h Q ty cl X) = (17 + length Q + length X)%nat.
Proof.
  unfold layout. rewrite !length_app, head_bytes_length. cbn [length].
  rewrite !length_app. unfold be16. cbn [length]. lia.
Qed.

(** ** process_packet on a query buffer, case by case *)

Section Process.

Variable sizeof_ptr : nat.
Variables (conf_data : list dns_entry) (conf_ttl : Z).
Variables (h : dns_head) (Q : list Z) (ty cl : Z) (R : list Z).
Hypothesis Hok : layout_ok h Q ty cl R.

Lemma pp_drop :
  nquer h = 0 \/ QR (flags h) = true ->
  process_packet sizeof_ptr conf_data conf_ttl (layout h Q ty cl R)
  = Ok (layout h Q ty cl R, -1).
Proof.
  destruct Hok as ((_ & Hf & Hn & _) & _).
  intros Hd. unfold process_packet.
  rewrite layout_load_nquer. cbn [bind]. rewrite htons_eqb_0 by assumption.
  destruct (Z.eqb_spec (nquer h) 0) as [|Hne]; [reflexivity|].
  rewrite layout_load_flags. cbn [bind]. rewrite test_QR by assumption.
  destruct Hd as [Hz|Hq]; [contradiction|rewrite Hq; reflexivity].
Qed.

Hypothesis Hnquer : nquer h <> 0.
Hypothesis HQR : QR (flags h) = false.

Lemma pp_not_implemented :
  (ty <> REQ_A /\ ty <> REQ_PTR) \/ cl <> 1 \/ OPCODE (flags h) <> 0 ->
  process_packet sizeof_ptr conf_data conf_ttl (layout h Q ty cl R)
  = Ok (layout (reply_head h (Z.lor 0x8000 4)) Q ty cl R,
        Z.of_nat (sizeof_dns_head + (length Q + 1) + sizeof_dns_prop)).
Proof.
  destruct Hok as (Hh & HQ & Hty & Hcl & _).
  pose proof Hh as (_ & Hf & Hn & _).
  intros Hv. unfold process_packet, move_from_unaligned16.
  rewrite layout_load_nquer. cbn [bind]. rewrite htons_eqb_0 by assumption.
  destruct (Z.eqb_spec (nquer h) 0) as [|_]; [contradiction|].
  rewrite layout_load_flags. cbn [bind]. rewrite test_QR, HQR by assumption.
  cbn [negb]. rewrite layout_strlen by assumption. cbn [bind].
  rewrite layout_load_type by assumption. cbn [bind].
  rewrite !test_type by (assumption || (unfold is_u16, REQ_A, REQ_PTR; lia)).
  assert (He : forall a,
    empty_packet (layout h Q ty cl R) (htons (Z.lor 0x8000 4)) a
    = Ok (layout (reply_head h (Z.lor 0x8000 4)) Q ty cl R, Z.of_nat a)).
  { intros a. apply layout_empty_packet; [assumption|u16_const]. }
  destruct (Z.eqb_spec ty REQ_A) as [Ha|Ha];
    destruct (Z.eqb_spec ty REQ_PTR) as [Hp|Hp]; cbn [negb andb];
    try apply He.
  all: rewrite layout_load_class by assumption; cbn [bind].
  all: rewrite test_type by (assumption || (u16_const)).
  all: destruct (Z.eqb_spec cl 1) as [Hc|Hc]; cbn [negb]; try apply He.
  all: rewrite test_OPCODE by assumption.
  all: destruct (Z.eqb_spec (OPCODE (flags h)) 0) as [Ho|Ho]; cbn [negb];
    try apply He.
  all: exfalso; destruct Hv as [[? ?]|[?|?]]; contradiction.
Qed.

Hypothesis Htype : ty = REQ_A \/ ty = REQ_PTR.
Hypothesis Hclass : cl = 1.
Hypothesis Hopcode : OPCODE (flags h) = 0.

(* up to the call of table_lookup *)
Lemma pp_validated :
  process_packet sizeof_ptr conf_data conf_ttl (layout h Q ty cl R)
  = let buf := layout h Q ty cl R in
    let answb := (sizeof_dns_head + (length Q + 1) + sizeof_dns_prop)%nat in
    match table_lookup conf_data (htons ty) Q with
    | None => empty_packet buf (htons (Z.lor (Z.lor 0x8000 0x0400) 3)) answb
    | Some written =>
        answstr <- store (0 :: repeat 0 MAX_NAME_LEN) 0 written ;;
        outr_rlen <-
          (if ty =? REQ_PTR
           then l <- strlen answstr 0 ;; Ok (Z.of_nat (l + 1) mod 65536)
           else Ok 4) ;;
        buf <- store16 buf 6 (htons 1) ;;
        let querystr_len := (length Q + 1 + sizeof_ptr)%nat in
        q <- load_bytes buf sizeof_dns_head querystr_len ;;
        buf <- store buf answb q ;;
        let answb := (answb + querystr_len)%nat in
        buf <- move_to_unaligned32 buf answb (htonl conf_ttl) ;;
        let answb := (answb + 4)%nat in
        buf <- move_to_unaligned32 buf answb (htons outr_rlen) ;;
        let answb := (answb + 2)%nat in
        r <- load_bytes answstr 0 (Z.to_nat outr_rlen) ;;
        buf <- store buf answb r ;;
        let answb := (answb + Z.to_nat outr_rlen)%nat in
        empty_packet buf (htons (Z.lor (Z.lor 0x8000 0x0400) 0)) answb
    end.
Proof.
  destruct Hok as (Hh & HQ & Hty & Hcl & _).
  pose proof Hh as (_ & Hf & Hn & _).
  unfold process_packet, move_from_unaligned16.
  rewrite layout_load_nquer. cbn [bind]. rewrite htons_eqb_0 by assumption.
  destruct (Z.eqb_spec (nquer h) 0) as [|_]; [contradiction|].
  rewrite layout_load_flags. cbn [bind]. rewrite test_QR, HQR by assumption.
  cbn [negb]. rewrite layout_strlen by assumption. cbn [bind].
  rewrite layout_load_type by assumption. cbn [bind].
  rewrite !test_type by (assumption || (unfold is_u16, REQ_A, REQ_PTR; lia)).
  replace (negb (ty =? REQ_A) && negb (ty =? REQ_PTR)) with false
    by (destruct Htype as [-> | ->]; reflexivity).
  rewrite layout_load_class by assumption. cbn [bind].
  rewrite test_type by (assumption || (u16_const)).
  rewrite Hclass, Z.eqb_refl. cbn [negb].
  rewrite test_OPCODE, Hopcode by assumption. cbn [negb Z.eqb].
  rewrite layout_load_qs. cbn [bind].
  reflexivity.
Qed.

Lemma pp_name_error :
  table_lookup conf_data (htons ty) Q = None ->
  process_packet sizeof_ptr conf_data conf_ttl (layout h Q ty cl R)
  = Ok (layout (reply_head h (Z.lor (Z.lor 0x8000 0x0400) 3)) Q ty cl R,
        Z.of_nat (sizeof_dns_head + (length Q + 1) + sizeof_dns_prop)).
Proof.
  intros Hl. rewrite pp_validated. cbv zeta. rewrite Hl.
  apply layout_empty_packet; [apply Hok|u16_const].
Qed.

End Process.

Lemma le32_htons v : is_u16 v -> le32 (htons v) = be16 v ++ [0; 0].
Proof.
  unfold is_u16, le32, be16, htons. intros Hv. cbn [app].
  f_equal; [|f_equal; [|f_equal; [|f_equal]]]; Z.div_mod_to_equations; lia.
Qed.

Lemma strlen_0 Q C :
  Forall (fun c => c <> 0) Q -> strlen (Q ++ 0 :: C) 0 = Ok (length Q).
Proof. intros HQ. apply (strlen_at _ [] Q C); auto. Qed.

Lemma store_0 X bs :
  (length bs <= length X)%nat -> store X 0 bs = Ok (bs ++ skipn (length bs) X).
Proof. intros Hl. apply (store_tail X [] X); auto. Qed.

Lemma load_bytes_0 B C : load_bytes (B ++ C) 0 (length B) = Ok B.
Proof. apply (load_bytes_at _ [] B C); auto. Qed.

Lemma layout_ok_lengths h Q ty cl R :
  layout_ok h Q ty cl R ->
  (length Q <= 500)%nat /\ length R = (1044 - length Q)%nat.
Proof.
  intros (_ & _ & _ & _ & _ & HlQ & Hl). rewrite layout_length in Hl.
  change BUF_SIZE with 1061%nat in Hl.
  change (MAX_PACK_LEN - sizeof_dns_head)%nat with 500%nat in HlQ. lia.
Qed.

Lemma table_lookup_written d ty qs w :
  table_lookup d ty qs = Some w ->
  exists e, In e d
    /\ w = if ty =? htons REQ_A then le32 (ip e) else cstr (name e) ++ [0].
Proof.
  induction d as [|e d IH]; cbn [table_lookup]; [discriminate|].
  destruct (ty =? htons REQ_A).
  - destruct (_ && _).
    + intros H. destruct (IH H) as (e' & Hin & He). exists e'. split; [right|]; assumption.
    + intros [= <-]. exists e. split; [left|]; reflexivity.
  - destruct (_ && _).
    + intros [= <-]. exists e. split; [left|]; reflexivity.
    + intros H. destruct (IH H) as (e' & Hin & He). exists e'. split; [right|]; assumption.
Qed.

Section Answer.

Variables (conf_data : list dns_entry) (conf_ttl : Z).
Variables (h : dns_head) (Q : list Z) (ty cl : Z) (R : list Z).
Hypothesis Hok : layout_ok h Q ty cl R.
Hypothesis Hnquer : nquer h <> 0.
Hypothesis HQR : QR (flags h) = false.
Hypothesis Htype : ty = REQ_A \/ ty = REQ_PTR.
Hypothesis Hclass : cl = 1.
Hypothesis Hopcode : OPCODE (flags h) = 0.
Hypothesis Httl : 0 <= conf_ttl < 4294967296.

(* the answer path with a pointer of 4 bytes: the bytes copied are the
   question, and the reply always fits the buffer *)
Lemma pp_answer w :
  table_lookup conf_data (htons ty) Q = Some w ->
  (length w <= MAX_NAME_LEN + 1)%nat ->
  exists R',
    process_packet 4 conf_data conf_ttl (layout h Q ty cl R)
    = Ok (layout (reply_head (set_nansw h 1) (Z.lor (Z.lor 0x8000 0x0400) 0)) Q ty cl
            ((Q ++ 0 :: be16 ty ++ be16 cl) ++ be32 conf_ttl
             ++ be16 (Z.of_nat (length w)) ++ w ++ R'),
          Z.of_nat (sizeof_dns_head + (length Q + 1) + sizeof_dns_prop
                    + (length Q + 1 + sizeof_dns_prop) + 4 + 2 + length w)).
Proof.
  intros Hl Hw.
  destruct (layout_ok_lengths _ _ _ _ _ Hok) as (HlQ & HlR).
  destruct Hok as (Hh & HQ & Hty & Hcl & _).
  change (MAX_NAME_LEN + 1)%nat with 31%nat in Hw.
  rewrite pp_validated by assumption. cbv zeta. rewrite Hl.
  (* the answer array *)
  set (answstr0 := 0 :: repeat 0 MAX_NAME_LEN).
  assert (Ha0 : length answstr0 = 31%nat) by reflexivity.
  rewrite store_0 by lia. cbn [bind].
  set (answstr := w ++ skipn (length w) answstr0).
  assert (Hrl : (if ty =? REQ_PTR
                 then l <- strlen answstr 0 ;; Ok (Z.of_nat (l + 1) mod 65536)
                 else Ok 4) = Ok (Z.of_nat (length w))).
  { destruct (table_lookup_written _ _ _ _ Hl) as (e & _ & He).
    rewrite test_type in He
      by (assumption || (unfold is_u16, REQ_A; lia)).
    destruct Htype as [-> | ->]; cbn [Z.eqb REQ_A REQ_PTR Pos.eqb] in *.
    - rewrite He. reflexivity.
    - unfold answstr. rewrite He, <- app_assoc. cbn [app].
      rewrite strlen_0 by apply cstr_nonzero.
      cbn [bind]. rewrite length_app. cbn [length].
      rewrite Z.mod_small; [reflexivity|].
      rewrite He, length_app in Hw. cbn [length] in Hw. lia. }
  rewrite Hrl. cbn [bind]. rewrite Nat2Z.id.
  rewrite layout_store_nansw by (u16_const). cbn [bind].
  rewrite layout_load_question. cbn [bind].
  set (qn := Q ++ 0 :: be16 ty ++ be16 cl).
  assert (Hqn : length qn = (length Q + 5)%nat).
  { unfold qn. rewrite length_app. unfold be16. cbn [length app]. lia. }
  set (base := (sizeof_dns_head + (length Q + 1) + sizeof_dns_prop)%nat).
  set (h1 := set_nansw h 1).
  (* the copy of the question *)
  set (R1 := skipn (length qn) R).
  assert (HR1 : length R1 = (1039 - 2 * length Q)%nat)
    by (unfold R1; rewrite length_skipn; lia).
  rewrite (layout_store_tail h1 Q ty cl R base 0 qn (qn ++ R1))
    by (unfold base; try lia; apply store_0; lia).
  cbn [bind].
  (* the TTL *)
  set (R2 := skipn 4 R1).
  assert (HR2 : length R2 = (1035 - 2 * length Q)%nat)
    by (unfold R2; rewrite length_skipn; lia).
  unfold move_to_unaligned32.
  rewrite le32_htonl by assumption.
  rewrite (layout_store_tail h1 Q ty cl (qn ++ R1) _ (length qn)
             (be32 conf_ttl) (qn ++ be32 conf_ttl ++ R2))
    by (unfold base, sizeof_dns_prop; try lia;
        apply (store_tail _ qn R1 _ (be32 conf_ttl) eq_refl eq_refl);
        unfold be32; cbn [length]; lia).
  cbn [bind].
  (* the length of the resource data, stored as 32 bits *)
  assert (Hlw : is_u16 (Z.of_nat (length w))) by (u16_const).
  rewrite le32_htons by assumption.
  set (rl := be16 (Z.of_nat (length w))).
  set (R3 := skipn 4 R2).
  assert (HR3 : length R3 = (1031 - 2 * length Q)%nat)
    by (unfold R3; rewrite length_skipn; lia).
  rewrite (layout_store_tail h1 Q ty cl (qn ++ be32 conf_ttl ++ R2) _
             (length (qn ++ be32 conf_ttl)) (rl ++ [0; 0])
             ((qn ++ be32 conf_ttl) ++ (rl ++ [0; 0]) ++ R3)).
  2:{ rewrite length_app. unfold base, sizeof_dns_prop, be32. cbn [length]. lia. }
  2:{ apply (store_tail _ (qn ++ be32 conf_ttl) R2 _ (rl ++ [0; 0]));
        [rewrite <- app_assoc; reflexivity|reflexivity|].
      unfold rl, be16. cbn [length app]. lia. }
  cbn [bind].
  (* the resource data *)
  unfold answstr. rewrite load_bytes_0. cbn [bind].
  set (R4 := skipn (length w) ([0; 0] ++ R3)).
  rewrite (layout_store_tail h1 Q ty cl
             ((qn ++ be32 conf_ttl) ++ (rl ++ [0; 0]) ++ R3) _
             (length ((qn ++ be32 conf_ttl) ++ rl)) w
             (((qn ++ be32 conf_ttl) ++ rl) ++ w ++ R4)).
  2:{ rewrite !length_app. unfold base, sizeof_dns_prop, be32, rl, be16.
      cbn [length]. lia. }
  2:{ apply (store_tail _ ((qn ++ be32 conf_ttl) ++ rl) ([0; 0] ++ R3) _ w);
        [rewrite <- !app_assoc; reflexivity|reflexivity|].
      cbn [length app]. lia. }
  cbn [bind].
  rewrite layout_empty_packet
    by ((u16_const) || (unfold h1, head_ok, set_nansw, is_u16 in *;
                                 cbn [id flags nquer nansw nauth nadd]; lia)).
  exists R4. rewrite <- !app_assoc. reflexivity.
Qed.

End Answer.

(** ** The answer path for any size of a pointer

    Whatever sizeof(unaligned_qprop) is, the stores of the answer path lie
    behind the question: a result has the header of the request with the
    answer count set, and then the header fields set at empty_packet. *)

Lemma store_keeps_prefix A X i bs m' :
  store (A ++ X) i bs = Ok m' -> (length A <= i)%nat ->
  exists X', m' = A ++ X' /\ length X' = length X.
Proof.
  unfold store.
  destruct (Nat.leb_spec (i + length bs) (length (A ++ X))) as [Hle|];
    [|discriminate].
  intros [= <-] Hi. rewrite length_app in Hle.
  exists (firstn (i - length A) X ++ bs ++ skipn (i + length bs - length A) X).
  split.
  - rewrite firstn_app, firstn_all2 by lia.
    rewrite skipn_app, skipn_all2 by lia. cbn [app].
    rewrite <- app_assoc. reflexivity.
  - rewrite !length_app, length_firstn, length_skipn. lia.
Qed.

Lemma layout_store_inv h Q ty cl X i bs m' :
  store (layout h Q ty cl X) i bs = Ok m' ->
  (sizeof_dns_head + (length Q + 1) + sizeof_dns_prop <= i)%nat ->
  exists X',
    m' = layout h Q ty cl X' /\ length X' = length X
    /\ (i + length bs
        <= sizeof_dns_head + (length Q + 1) + sizeof_dns_prop + length X)%nat.
Proof.
  assert (Hs : forall Y, layout h Q ty cl Y
               = (head_bytes h ++ Q ++ 0 :: be16 ty ++ be16 cl) ++ Y).
  { intros Y. unfold layout. rewrite <- !app_assoc. reflexivity. }
  assert (Hp : length (head_bytes h ++ Q ++ 0 :: be16 ty ++ be16 cl)
               = (sizeof_dns_head + (length Q + 1) + sizeof_dns_prop)%nat).
  { rewrite !length_app, head_bytes_length.
    unfold sizeof_dns_head, sizeof_dns_prop, be16. cbn [length app]. lia. }
  rewrite Hs. intros Hst Hi.
  set (A := head_bytes h ++ Q ++ 0 :: be16 ty ++ be16 cl) in *.
  assert (Hb : (i + length bs <= length (A ++ X))%nat).
  { revert Hst. unfold store.
    destruct (Nat.leb_spec (i + length bs) (length (A ++ X)));
      [trivial|discriminate]. }
  rewrite length_app, Hp in Hb.
  destruct (store_keeps_prefix _ _ _ _ _ Hst) as (X' & -> & HX'); [lia|].
  exists X'. rewrite Hs. auto.
Qed.


(* one step of a chain of fallible steps that has a result *)
Ltac bind_ok E :=
  match goal with
  | |- bind ?e _ = Ok _ -> _ => destruct e eqn:E; [cbn [bind]|discriminate]
  end.

Section AnswerAnySize.

Variable sizeof_ptr : nat.
Variables (conf_data : list dns_entry) (conf_ttl : Z).
Variables (h : dns_head) (Q : list Z) (ty cl : Z) (R : list Z).
Hypothesis Hok : layout_ok h Q ty cl R.
Hypothesis Hnquer : nquer h <> 0.
Hypothesis HQR : QR (flags h) = false.
Hypothesis Htype : ty = REQ_A \/ ty = REQ_PTR.
Hypothesis Hclass : cl = 1.
Hypothesis Hopcode : OPCODE (flags h) = 0.

Lemma pp_answer_head w buf' n :
  table_lookup conf_data (htons ty) Q = Some w ->
  process_packet sizeof_ptr conf_data conf_ttl (layout h Q ty cl R)
  = Ok (buf', n) ->
  (exists X,
      buf' = layout (reply_head (set_nansw h 1) (Z.lor (Z.lor 0x8000 0x0400) 0))
               Q ty cl X)
  /\ 0 < n.
Proof.
  intros Hl. destruct Hok as (Hh & HQ & Hty & Hcl & _).
  rewrite pp_validated by assumption. cbv zeta. rewrite Hl.
  bind_ok E0. bind_ok E1.
  rewrite layout_store_nansw by (u16_const). cbn [bind].
  bind_ok E2. bind_ok E3.
  apply layout_store_inv in E3 as (X1 & -> & _); [|lia].
  unfold move_to_unaligned32.
  bind_ok E4. apply layout_store_inv in E4 as (X2 & -> & _); [|lia].
  bind_ok E5. apply layout_store_inv in E5 as (X3 & -> & _); [|lia].
  bind_ok E6. bind_ok E7.
  apply layout_store_inv in E7 as (X4 & -> & _); [|lia].
  rewrite layout_empty_packet
    by ((u16_const) || (unfold head_ok, set_nansw, is_u16 in *;
                        cbn [id flags nquer nansw nauth nadd]; lia)).
  intros [= <- <-]. split; [exists X4; reflexivity|].
  unfold sizeof_dns_head. lia.
Qed.

Hypothesis Httl : 0 <= conf_ttl < 4294967296.



End AnswerAnySize.

(** ** Every buffer process_packet is given is a query buffer *)

Lemma first_zero l k :
  nth k l 1 = 0 ->
  exists Q C, l = Q ++ 0 :: C /\ Forall (fun c => c <> 0) Q
              /\ (length Q <= k)%nat.
Proof.
  revert k. induction l as [|c l IH]; intros k Hk.
  - destruct k; discriminate Hk.
  - destruct (Z.eq_dec c 0) as [->|Hc].
    + exists [], l. repeat split; [constructor|cbn [length]; lia].
    + destruct k as [|k]; [contradiction|].
      destruct (IH k Hk) as (Q & C & -> & HQ & Hl).
      exists (c :: Q), C. repeat split; [constructor; assumption|].
      cbn [length]. lia.
Qed.

Lemma wf_buf_layout buf :
  wf_buf buf ->
  exists h Q ty cl R, buf = layout h Q ty cl R /\ layout_ok h Q ty cl R.
Proof.
  unfold wf_buf, wf_bufb. rewrite !andb_true_iff.
  intros [[Hlen Hbytes] Hex].
  apply Nat.eqb_eq in Hlen.
  rewrite forallb_forall in Hbytes.
  assert (Hb : Forall is_byte buf).
  { apply Forall_forall. intros x Hx. apply is_byteb_spec. auto. }
  clear Hbytes.
  apply existsb_exists in Hex. destruct Hex as (r & Hr & Hz).
  apply in_seq in Hr. apply Z.eqb_eq in Hz.
  change (sizeof_dns_head + (MAX_PACK_LEN - sizeof_dns_head + 1))%nat
    with 513%nat in Hr.
  change sizeof_dns_head with 12%nat in Hr.
  change BUF_SIZE with 1061%nat in Hlen.
  do 12 (destruct buf as [|? buf]; [discriminate Hlen|]).
  replace r with (12 + (r - 12))%nat in Hz by lia.
  cbn [nth Nat.add] in Hz.
  destruct (first_zero _ _ Hz) as (Q & C & -> & HQ & HlQ).
  cbn [length] in Hlen. rewrite length_app in Hlen. cbn [length] in Hlen.
  do 4 (destruct C as [|? C]; [cbn [length] in Hlen; lia|]).
  cbn [length] in Hlen.
  repeat match goal with
         | H : Forall _ (_ :: _) |- _ => inversion H; subst; clear H
         end.
  match goal with
  | H : Forall _ (Q ++ _) |- _ =>
      apply Forall_app in H; destruct H as [HbQ HbC]
  end.
  repeat match goal with
         | H : Forall _ (_ :: _) |- _ => inversion H; subst; clear H
         end.
  match goal with
  | |- exists _ _ _ _ _, ?a :: ?b :: ?c :: ?d :: ?e :: ?f :: ?g :: ?i
         :: ?j :: ?k :: ?l :: ?m :: Q ++ 0 :: ?t0 :: ?t1 :: ?c0 :: ?c1 :: C = _ /\ _ =>
      exists {| id := 256 * a + b; flags := 256 * c + d; nquer := 256 * e + f;
                nansw := 256 * g + i; nauth := 256 * j + k;
                nadd := 256 * l + m |},
        Q, (256 * t0 + t1), (256 * c0 + c1), C
  end.
  assert (Hu : forall a b, is_byte a -> is_byte b -> is_u16 (256 * a + b))
    by (unfold is_byte, is_u16; lia).
  split.
  - unfold layout, head_bytes. cbn [id flags nquer nansw nauth nadd].
    rewrite !be16_pair by assumption. reflexivity.
  - unfold layout_ok, head_ok. cbn [id flags nquer nansw nauth nadd].
    repeat split; try (apply Hu; assumption); try assumption.
    + clear - HQ HbQ. induction HQ; inversion HbQ; subst; constructor;
        [split; assumption|auto].
    + change (MAX_PACK_LEN - sizeof_dns_head)%nat with 500%nat. lia.
    + rewrite layout_length. change BUF_SIZE with 1061%nat. lia.
Qed.

(** ** The wire view of a query buffer *)

Lemma net16_at A v C : is_u16 v -> net16 (A ++ be16 v ++ C) (length A) = v.
Proof.
  intros Hv. unfold net16.
  rewrite (app_nth2 A _ 0 (n:=length A)), (app_nth2 A _ 0 (n:=S (length A)))
    by lia.
  replace (length A - length A)%nat with 0%nat by lia.
  replace (S (length A) - length A)%nat with 1%nat by lia.
  unfold be16, is_u16 in *. cbn [app nth]. Z.div_mod_to_equations. lia.
Qed.

Section View.

Variables (h : dns_head) (Q : list Z) (ty cl : Z) (X : list Z).
Hypothesis Hh : head_ok h.
Hypothesis HQ : Forall nonzero_byte Q.
Hypothesis Hty : is_u16 ty.
Hypothesis Hcl : is_u16 cl.

Lemma head_of_layout : head_of (layout h Q ty cl X) = h.
Proof.
  destruct Hh as (H1 & H2 & H3 & H4 & H5 & H6).
  destruct h as [i f q a u d]. cbn [id flags nquer nansw nauth nadd] in *.
  unfold head_of, layout, head_bytes, net16, be16.
  cbn [id flags nquer nansw nauth nadd app nth].
  unfold is_u16 in *.
  f_equal; Z.div_mod_to_equations; lia.
Qed.

Lemma qlen_layout : qlen (layout h Q ty cl X) = length Q.
Proof. unfold qlen. rewrite layout_strlen by assumption. reflexivity. Qed.

Lemma qname_layout : qname (layout h Q ty cl X) = Q.
Proof.
  unfold qname. rewrite qlen_layout.
  pose proof (layout_load_qs h Q ty cl X) as H. unfold load_bytes in H.
  destruct (_ <=? _)%nat; [|discriminate]. injection H as H. exact H.
Qed.

Lemma question_layout :
  question (layout h Q ty cl X) = Q ++ 0 :: be16 ty ++ be16 cl.
Proof.
  unfold question. rewrite qlen_layout.
  pose proof (layout_load_question h Q ty cl X) as H. unfold load_bytes in H.
  destruct (_ <=? _)%nat; [|discriminate]. injection H as H. exact H.
Qed.

Lemma qtype_layout : qtype (layout h Q ty cl X) = ty.
Proof.
  unfold qtype. rewrite qlen_layout.
  replace (layout h Q ty cl X)
    with ((head_bytes h ++ Q ++ [0]) ++ be16 ty ++ (be16 cl ++ X))
    by (unfold layout; rewrite <- !app_assoc; reflexivity).
  replace (sizeof_dns_head + length Q + 1)%nat
    with (length (head_bytes h ++ Q ++ [0]))
    by (rewrite !length_app, head_bytes_length; reflexivity).
  apply net16_at. assumption.
Qed.

Lemma qclass_layout : qclass (layout h Q ty cl X) = cl.
Proof.
  unfold qclass. rewrite qlen_layout.
  replace (layout h Q ty cl X)
    with ((head_bytes h ++ Q ++ 0 :: be16 ty) ++ be16 cl ++ X)
    by (unfold layout; rewrite <- !app_assoc; reflexivity).
  replace (sizeof_dns_head + length Q + 3)%nat
    with (length (head_bytes h ++ Q ++ 0 :: be16 ty))
    by (rewrite !length_app, head_bytes_length; unfold be16, sizeof_dns_head;
        cbn [length]; lia).
  apply net16_at. assumption.
Qed.

End View.

(** ** C strings *)

Lemma tolower_0 c : tolower c = 0 -> c = 0.
Proof.
  unfold tolower. destruct (Z.leb_spec 65 c), (Z.leb_spec c 90); cbn [andb]; lia.
Qed.

Lemma strcasecmp_refl s : strcasecmp s s = 0.
Proof.
  induction s as [|c s IH]; cbn [strcasecmp]; [reflexivity|].
  rewrite Z.eqb_refl. assumption.
Qed.

Lemma strcasecmp_ci s1 s2 :
  Forall (fun c => c <> 0) s1 -> Forall (fun c => c <> 0) s2 ->
  strcasecmp s1 s2 = 0 <-> ci_equal s1 s2.
Proof.
  unfold ci_equal. intros H1. revert s2.
  induction H1 as [|c1 s1 Hc1 _ IH]; intros s2 H2;
    destruct H2 as [|c2 s2 Hc2 H2]; cbn [strcasecmp map].
  - tauto.
  - split; [|discriminate]. intros H. exfalso. apply Hc2, tolower_0. lia.
  - split; [|discriminate]. intros H. exfalso. apply Hc1, tolower_0. lia.
  - destruct (Z.eqb_spec (tolower c1) (tolower c2)) as [He|Hne].
    + rewrite (IH s2 H2). split; [intros ->; rewrite He; reflexivity|].
      intros [= _ H]. exact H.
    + split; [lia|]. intros [= H _]. contradiction.
Qed.

Lemma strncmp_prefix p s :
  Forall (fun c => c <> 0) p ->
  strncmp p s (length p) = 0 <-> is_prefix p s.
Proof.
  unfold is_prefix. intros Hp. revert s.
  induction Hp as [|c p Hc _ IH]; intros s; cbn [length strncmp firstn].
  - tauto.
  - destruct s as [|c' s].
    + split; [contradiction|discriminate].
    + destruct (Z.eqb_spec c c') as [<-|Hne].
      * rewrite IH. split; [intros ->; reflexivity|]. intros [= H]. exact H.
      * split; [lia|]. intros [= H _]. congruence.
Qed.

(** ** table_lookup *)

Lemma table_lookup_A e d qs :
  table_lookup (e :: d) (htons REQ_A) qs
  = if fwd_match e qs then Some (le32 (ip e))
    else table_lookup d (htons REQ_A) qs.
Proof.
  cbn [table_lookup]. rewrite Z.eqb_refl. unfold fwd_match, is_wildcard.
  destruct (name_at e 0 =? 1), (name_at e 1 =? 42),
    (strcasecmp (cstr (name e)) qs =? 0); reflexivity.
Qed.

Lemma table_lookup_PTR e d qs :
  table_lookup (e :: d) (htons REQ_PTR) qs
  = if rev_match e qs then Some (cstr (name e) ++ [0])
    else table_lookup d (htons REQ_PTR) qs.
Proof.
  cbn [table_lookup]. change (htons REQ_PTR =? htons REQ_A) with false.
  unfold rev_match, is_wildcard.
  destruct (name_at e 0 =? 1), (name_at e 1 =? 42),
    (strncmp (cstr (rip e)) qs (length (cstr (rip e))) =? 0); reflexivity.
Qed.

Lemma table_lookup_A_first l1 e l2 qs :
  (forall x, In x l1 -> fwd_match x qs = false) ->
  fwd_match e qs = true ->
  table_lookup (l1 ++ e :: l2) (htons REQ_A) qs = Some (le32 (ip e)).
Proof.
  intros H1 He. induction l1 as [|x l1 IH]; cbn [app];
    rewrite table_lookup_A.
  - rewrite He. reflexivity.
  - rewrite (H1 x) by (left; reflexivity).
    apply IH. intros y Hy. apply H1. right. assumption.
Qed.

Lemma table_lookup_PTR_first l1 e l2 qs :
  (forall x, In x l1 -> rev_match x qs = false) ->
  rev_match e qs = true ->
  table_lookup (l1 ++ e :: l2) (htons REQ_PTR) qs = Some (cstr (name e) ++ [0]).
Proof.
  intros H1 He. induction l1 as [|x l1 IH]; cbn [app];
    rewrite table_lookup_PTR.
  - rewrite He. reflexivity.
  - rewrite (H1 x) by (left; reflexivity).
    apply IH. intros y Hy. apply H1. right. assumption.
Qed.

Lemma table_lookup_A_none d qs :
  (forall x, In x d -> fwd_match x qs = false) ->
  table_lookup d (htons REQ_A) qs = None.
Proof.
  induction d as [|x d IH]; intros H; [reflexivity|].
  rewrite table_lookup_A, (H x) by (left; reflexivity).
  apply IH. intros y Hy. apply H. right. assumption.
Qed.

Lemma table_lookup_PTR_none d qs :
  (forall x, In x d -> rev_match x qs = false) ->
  table_lookup d (htons REQ_PTR) qs = None.
Proof.
  induction d as [|x d IH]; intros H; [reflexivity|].
  rewrite table_lookup_PTR, (H x) by (left; reflexivity).
  apply IH. intros y Hy. apply H. right. assumption.
Qed.

Lemma table_lookup_fits d ty qs w :
  names_fit d -> table_lookup d ty qs = Some w ->
  (length w <= MAX_NAME_LEN + 1)%nat.
Proof.
  unfold names_fit, names_fitb. rewrite forallb_forall. intros Hf Hl.
  destruct (table_lookup_written _ _ _ _ Hl) as (e & Hin & ->).
  destruct (ty =? htons REQ_A).
  - cbn. lia.
  - specialize (Hf e Hin). apply Nat.leb_le in Hf.
    rewrite length_app. cbn [length]. lia.
Qed.

(** ** The outcomes of process_packet *)

Lemma replies_intro sizeof_ptr conf_data conf_ttl buf hr body rest n :
  head_ok hr ->
  process_packet sizeof_ptr conf_data conf_ttl buf
  = Ok (head_bytes hr ++ body ++ rest, Z.of_nat n) ->
  n = length (head_bytes hr ++ body) ->
  replies sizeof_ptr conf_data conf_ttl buf hr body.
Proof.
  intros Hh Hp ->. split; [assumption|]. exists rest. assumption.
Qed.

Lemma reply_head_ok h c : head_ok h -> is_u16 c -> head_ok (reply_head h c).
Proof.
  intros (H1 & H2 & H3 & H4 & H5 & H6) Hc.
  unfold head_ok, reply_head. cbn [id flags nquer nansw nauth nadd].
  refine (conj H1 (conj _ (conj _ (conj H4 (conj _ _)))));
    try (apply is_u16_lor; assumption); u16_const.
Qed.

Lemma set_nansw_ok h v : head_ok h -> is_u16 v -> head_ok (set_nansw h v).
Proof.
  intros (H1 & H2 & H3 & H4 & H5 & H6) Hc.
  unfold head_ok, set_nansw. cbn [id flags nquer nansw nauth nadd].
  exact (conj H1 (conj H2 (conj H3 (conj Hc (conj H5 H6))))).
Qed.

Section Outcomes.

Variable sizeof_ptr : nat.
Variables (conf_data : list dns_entry) (conf_ttl : Z) (buf : list Z).
Hypothesis Hwf : wf_buf buf.

Lemma pp_ignored :
  nquer (head_of buf) = 0 \/ QR (flags (head_of buf)) = true ->
  process_packet sizeof_ptr conf_data conf_ttl buf = Ok (buf, -1).
Proof.
  destruct (wf_buf_layout buf Hwf) as (h & Q & ty & cl & R & -> & Hok).
  pose proof Hok as (Hh & HQ & Hty & Hcl & _).
  rewrite head_of_layout by assumption.
  apply pp_drop. assumption.
Qed.

Lemma pp_unsupported :
  not_ignored buf -> ~ supported buf ->
  replies sizeof_ptr conf_data conf_ttl buf (reply_head (head_of buf) (Z.lor 0x8000 4))
    (question buf).
Proof.
  destruct (wf_buf_layout buf Hwf) as (h & Q & ty & cl & R & -> & Hok).
  pose proof Hok as (Hh & HQ & Hty & Hcl & _).
  unfold not_ignored, supported.
  rewrite head_of_layout, qtype_layout, qclass_layout, question_layout
    by assumption.
  intros [Hn Hq] Hs.
  apply (replies_intro _ _ _ _ _ _ R
           (sizeof_dns_head + (length Q + 1) + sizeof_dns_prop)).
  - apply reply_head_ok; [assumption|u16_const].
  - rewrite pp_not_implemented; try assumption.
    + unfold layout. rewrite <- !app_assoc. reflexivity.
    + destruct (Z.eq_dec ty REQ_A); destruct (Z.eq_dec ty REQ_PTR);
        destruct (Z.eq_dec cl 1); destruct (Z.eq_dec (OPCODE (flags h)) 0);
        tauto.
  - rewrite !length_app, head_bytes_length.
    unfold sizeof_dns_head, sizeof_dns_prop, be16. cbn [length app]. lia.
Qed.

Lemma pp_no_record :
  valid_query buf ->
  table_lookup conf_data (htons (qtype buf)) (qname buf) = None ->
  replies sizeof_ptr conf_data conf_ttl buf
    (reply_head (head_of buf) (Z.lor (Z.lor 0x8000 0x0400) 3)) (question buf).
Proof.
  destruct (wf_buf_layout buf Hwf) as (h & Q & ty & cl & R & -> & Hok).
  pose proof Hok as (Hh & HQ & Hty & Hcl & _).
  unfold valid_query, not_ignored, supported.
  rewrite head_of_layout, qtype_layout, qclass_layout, question_layout,
    qname_layout by assumption.
  intros [[Hn Hq] (Ht & Hc & Ho)] Hl.
  apply (replies_intro _ _ _ _ _ _ R
           (sizeof_dns_head + (length Q + 1) + sizeof_dns_prop)).
  - apply reply_head_ok; [assumption|u16_const].
  - rewrite pp_name_error; try assumption.
    unfold layout. rewrite <- !app_assoc. reflexivity.
  - rewrite !length_app, head_bytes_length.
    unfold sizeof_dns_head, sizeof_dns_prop, be16. cbn [length app]. lia.
Qed.

Hypothesis Httl : 0 <= conf_ttl < 4294967296.

Lemma pp_record rdata :
  valid_query buf ->
  table_lookup conf_data (htons (qtype buf)) (qname buf) = Some rdata ->
  (length rdata <= MAX_NAME_LEN + 1)%nat ->
  replies 4 conf_data conf_ttl buf
    (reply_head (set_nansw (head_of buf) 1) (Z.lor (Z.lor 0x8000 0x0400) 0))
    (question buf ++ answer_record buf conf_ttl rdata).
Proof.
  destruct (wf_buf_layout buf Hwf) as (h & Q & ty & cl & R & -> & Hok).
  pose proof Hok as (Hh & HQ & Hty & Hcl & _).
  unfold valid_query, not_ignored, supported, answer_record.
  rewrite head_of_layout, qtype_layout, qclass_layout, question_layout,
    qname_layout by assumption.
  intros [[Hn Hq] (Ht & Hc & Ho)] Hl Hw.
  destruct (pp_answer conf_data conf_ttl h Q ty cl R Hok Hn Hq Ht Hc Ho Httl
              rdata Hl Hw) as (R' & HR').
  apply (replies_intro _ _ _ _ _ _ R'
           (sizeof_dns_head + (length Q + 1) + sizeof_dns_prop
            + (length Q + 1 + sizeof_dns_prop) + 4 + 2 + length rdata)).
  - apply reply_head_ok; [|u16_const].
    apply set_nansw_ok; [assumption|u16_const].
  - rewrite HR'. unfold layout. rewrite <- !app_assoc. cbn [app].
    rewrite <- !app_assoc. reflexivity.
  - unfold sizeof_dns_head, sizeof_dns_prop, be16, be32.
    repeat (first [rewrite length_app | rewrite head_bytes_length
                  | progress cbn [length]]).
    lia.
Qed.

Lemma pp_overrun rdata :
  valid_query buf ->
  table_lookup conf_data (htons (qtype buf)) (qname buf) = Some rdata ->
  (MAX_NAME_LEN + 1 < length rdata)%nat ->
  process_packet sizeof_ptr conf_data conf_ttl buf = Fault.
Proof.
  destruct (wf_buf_layout buf Hwf) as (h & Q & ty & cl & R & -> & Hok).
  pose proof Hok as (Hh & HQ & Hty & Hcl & _).
  unfold valid_query, not_ignored, supported.
  rewrite head_of_layout, qtype_layout, qclass_layout, qname_layout
    by assumption.
  intros [[Hn Hq] (Ht & Hc & Ho)] Hl Hw.
  rewrite pp_validated by assumption. cbv zeta. rewrite Hl.
  unfold store at 1.
  destruct (Nat.leb_spec (0 + length rdata)
              (length (0 :: repeat 0 MAX_NAME_LEN))) as [Hle|_];
    [|reflexivity].
  cbn [length] in Hle. rewrite repeat_length in Hle. lia.
Qed.

(* a result on the answer path, whatever the size of a pointer *)
Lemma pp_record_head rdata buf' n :
  valid_query buf ->
  table_lookup conf_data (htons (qtype buf)) (qname buf) = Some rdata ->
  process_packet sizeof_ptr conf_data conf_ttl buf = Ok (buf', n) ->
  let hr := reply_head (set_nansw (head_of buf) 1)
              (Z.lor (Z.lor 0x8000 0x0400) 0) in
  head_ok hr /\ (exists X, buf' = head_bytes hr ++ X) /\ 0 < n.
Proof.
  destruct (wf_buf_layout buf Hwf) as (h & Q & ty & cl & R & -> & Hok).
  pose proof Hok as (Hh & HQ & Hty & Hcl & _).
  unfold valid_query, not_ignored, supported.
  rewrite head_of_layout, qtype_layout, qclass_layout, qname_layout
    by assumption.
  intros [[Hn Hq] (Ht & Hc & Ho)] Hl Hp.
  destruct (pp_answer_head sizeof_ptr conf_data conf_ttl h Q ty cl R Hok Hn Hq
              Ht Hc Ho rdata buf' n Hl Hp) as ((X & ->) & Hpos).
  cbv zeta. split; [|split; [|assumption]].
  - apply reply_head_ok; [|u16_const].
    apply set_nansw_ok; [assumption|u16_const].
  - eexists. unfold layout. reflexivity.
Qed.

End Outcomes.

(** ** The reply as a function of the query

    With a pointer of 4 bytes every buffer that is not ignored has the
    reply [reply_header], [reply_body], unless the data of the lookup
    overruns answstr. *)

Lemma supportedb_spec buf : supportedb buf = true <-> supported buf.
Proof.
  unfold supportedb, supported.
  rewrite !andb_true_iff, orb_true_iff, !Z.eqb_eq. tauto.
Qed.

Lemma names_fit_answer_fits conf_data buf :
  names_fit conf_data -> answer_fits conf_data buf.
Proof.
  intros Hf rdata _ Hl. apply (table_lookup_fits _ _ _ _ Hf Hl).
Qed.

Lemma process_packet_reply conf_data conf_ttl buf :
  wf_buf buf -> 0 <= conf_ttl < 4294967296 ->
  not_ignored buf -> answer_fits conf_data buf ->
  replies 4 conf_data conf_ttl buf
    (reply_header conf_data buf) (reply_body conf_data conf_ttl buf).
Proof.
  intros Hwf Httl Hn Hfit.
  unfold reply_header, reply_body, outr_flags, answer_fits in *.
  destruct (supportedb buf) eqn:Es.
  - assert (Hv : valid_query buf)
      by (split; [assumption|apply supportedb_spec; assumption]).
    destruct (lookup conf_data buf) as [rdata|] eqn:El.
    + apply (pp_record conf_data conf_ttl buf Hwf Httl rdata Hv El).
      apply Hfit; reflexivity.
    + rewrite app_nil_r. apply (pp_no_record _ conf_data conf_ttl buf Hwf Hv El).
  - rewrite app_nil_r. apply pp_unsupported; try assumption.
    intros Hs. apply supportedb_spec in Hs. congruence.
Qed.

(* every result on a buffer that is not ignored, whatever the size of a
   pointer: the header of the reply, and a positive length *)
Lemma pp_ok_head sizeof_ptr conf_data conf_ttl buf buf' n :
  wf_buf buf -> not_ignored buf ->
  process_packet sizeof_ptr conf_data conf_ttl buf = Ok (buf', n) ->
  head_ok (reply_header conf_data buf)
  /\ (exists X, buf' = head_bytes (reply_header conf_data buf) ++ X)
  /\ 0 < n.
Proof.
  intros Hwf Hn Hp.
  assert (Hr : forall hr body,
             replies sizeof_ptr conf_data conf_ttl buf hr body ->
             head_ok hr /\ (exists X, buf' = head_bytes hr ++ X) /\ 0 < n).
  { intros hr body (Hh & rest & Hr). rewrite Hr in Hp.
    assert (Hb : buf' = head_bytes hr ++ body ++ rest) by congruence.
    assert (Hl : n = Z.of_nat (length (head_bytes hr ++ body))) by congruence.
    split; [assumption|]. split; [eauto|].
    rewrite Hl, length_app, head_bytes_length. lia. }
  unfold reply_header, outr_flags.
  destruct (supportedb buf) eqn:Es.
  - assert (Hv : valid_query buf)
      by (split; [assumption|apply supportedb_spec; assumption]).
    destruct (lookup conf_data buf) as [rdata|] eqn:El.
    + apply (pp_record_head sizeof_ptr conf_data conf_ttl buf Hwf rdata buf' n
               Hv El Hp).
    + apply (Hr _ _ (pp_no_record sizeof_ptr conf_data conf_ttl buf Hwf Hv El)).
  - apply (Hr _ (question buf)). apply pp_unsupported; try assumption.
    intros Hs. apply supportedb_spec in Hs. congruence.
Qed.

Lemma head_of_head_bytes hr X : head_ok hr -> head_of (head_bytes hr ++ X) = hr.
Proof.
  intros (H1 & H2 & H3 & H4 & H5 & H6).
  destruct hr as [i f q a u d]. cbn [id flags nquer nansw nauth nadd] in *.
  unfold head_of, head_bytes, net16, be16.
  cbn [id flags nquer nansw nauth nadd app nth].
  unfold is_u16 in *.
  f_equal; Z.div_mod_to_equations; lia.
Qed.

(* what the caller sees of a reply *)
Lemma replies_elim sizeof_ptr conf_data conf_ttl buf hr body :
  replies sizeof_ptr conf_data conf_ttl buf hr body ->
  exists buf' n,
    process_packet sizeof_ptr conf_data conf_ttl buf = Ok (buf', n)
    /\ head_of buf' = hr
    /\ n = Z.of_nat (sizeof_dns_head + length body)
    /\ reply_bytes (buf', n) = head_bytes hr ++ body.
Proof.
  intros (Hh & rest & Hp).
  exists (head_bytes hr ++ body ++ rest),
    (Z.of_nat (length (head_bytes hr ++ body))).
  split; [assumption|]. split; [apply head_of_head_bytes; assumption|].
  split; [rewrite length_app, head_bytes_length; reflexivity|].
  unfold reply_bytes. cbn [fst snd]. rewrite Nat2Z.id, app_assoc.
  rewrite firstn_app, Nat.sub_diag, firstn_all. cbn [firstn].
  apply app_nil_r.
Qed.

(** ** The bits of the flags word *)

Lemma QR_lor f c : QR (Z.lor f c) = QR f || QR c.
Proof. apply Z.lor_spec. Qed.

Lemma AA_lor f c : AA (Z.lor f c) = AA f || AA c.
Proof. apply Z.lor_spec. Qed.

Lemma RCODE_lor f c : RCODE (Z.lor f c) = Z.lor (RCODE f) (RCODE c).
Proof. apply Z.land_lor_distr_l. Qed.

Lemma lor_keeps_bits f c i :
  Z.testbit f i = true -> Z.testbit (Z.lor f c) i = true.
Proof. intros H. rewrite Z.lor_spec, H. reflexivity. Qed.

(** ** Inverting a result of process_packet *)

Section Inversion.

Variables (conf_data : list dns_entry) (conf_ttl : Z) (buf : list Z).
Hypothesis Hwf : wf_buf buf.
Hypothesis Httl : 0 <= conf_ttl < 4294967296.
Hypothesis Hn : not_ignored buf.

Lemma pp_reply_or_fault :
  replies 4 conf_data conf_ttl buf
    (reply_header conf_data buf) (reply_body conf_data conf_ttl buf)
  \/ process_packet 4 conf_data conf_ttl buf = Fault.
Proof.
  destruct (supportedb buf) eqn:Es.
  - destruct (lookup conf_data buf) as [rdata|] eqn:El.
    + destruct (le_lt_dec (length rdata) (MAX_NAME_LEN + 1)) as [Hle|Hgt].
      * left. apply process_packet_reply; try assumption.
        intros r _ Hr. rewrite El in Hr. injection Hr as <-. assumption.
      * right. apply (pp_overrun _ conf_data conf_ttl buf Hwf rdata);
          [|exact El|exact Hgt].
        split; [assumption|apply supportedb_spec; assumption].
    + left. apply process_packet_reply; try assumption.
      intros r _ Hr. rewrite El in Hr. discriminate.
  - left. apply process_packet_reply; try assumption.
    intros r Hs. congruence.
Qed.

Lemma pp_ok_inv buf' n :
  process_packet 4 conf_data conf_ttl buf = Ok (buf', n) ->
  head_of buf' = reply_header conf_data buf
  /\ n = Z.of_nat (sizeof_dns_head
                   + length (reply_body conf_data conf_ttl buf))
  /\ reply_bytes (buf', n)
     = head_bytes (reply_header conf_data buf)
       ++ reply_body conf_data conf_ttl buf.
Proof.
  intros Hp. destruct pp_reply_or_fault as [Hr|Hf]; [|congruence].
  destruct (replies_elim _ _ _ _ _ _ Hr) as (b & m & Hb & H1 & H2 & H3).
  rewrite Hp in Hb. injection Hb as <- <-. auto.
Qed.

Lemma pp_defined :
  names_fit conf_data ->
  exists buf' n,
    process_packet 4 conf_data conf_ttl buf = Ok (buf', n) /\ 0 < n.
Proof.
  intros Hf.
  pose proof (process_packet_reply conf_data conf_ttl buf Hwf Httl Hn
                (names_fit_answer_fits _ _ Hf)) as Hr.
  destruct (replies_elim _ _ _ _ _ _ Hr) as (b & m & Hb & _ & H2 & _).
  exists b, m. split; [assumption|]. unfold sizeof_dns_head in H2. lia.
Qed.

End Inversion.

Lemma pp_unsupported_any_table sizeof_ptr conf_ttl buf d1 d2 :
  wf_buf buf -> not_ignored buf -> ~ supported buf ->
  process_packet sizeof_ptr d1 conf_ttl buf
  = process_packet sizeof_ptr d2 conf_ttl buf.
Proof.
  intros Hwf.
  destruct (wf_buf_layout buf Hwf) as (h & Q & ty & cl & R & -> & Hok).
  pose proof Hok as (Hh & HQ & Hty & Hcl & _).
  unfold not_ignored, supported.
  rewrite head_of_layout, qtype_layout, qclass_layout by assumption.
  intros [Hn Hq] Hs.
  assert (Hu : (ty <> REQ_A /\ ty <> REQ_PTR) \/ cl <> 1
               \/ OPCODE (flags h) <> 0).
  { destruct (Z.eq_dec ty REQ_A); destruct (Z.eq_dec ty REQ_PTR);
      destruct (Z.eq_dec cl 1); destruct (Z.eq_dec (OPCODE (flags h)) 0);
      tauto. }
  rewrite !pp_not_implemented by assumption. reflexivity.
Qed.

Lemma replies_explicit sizeof_ptr conf_data conf_ttl buf hr body :
  replies sizeof_ptr conf_data conf_ttl buf hr body ->
  exists rest,
    process_packet sizeof_ptr conf_data conf_ttl buf
    = Ok (head_bytes hr ++ body ++ rest,
          Z.of_nat (sizeof_dns_head + length body)).
Proof.
  intros (_ & rest & Hp). exists rest. rewrite Hp.
  rewrite length_app, head_bytes_length. reflexivity.
Qed.

Lemma not_ignoredb_spec buf : not_ignoredb buf = true <-> not_ignored buf.
Proof.
  unfold not_ignoredb, not_ignored.
  rewrite andb_true_iff, !negb_true_iff, Z.eqb_neq. tauto.
Qed.

Lemma valid_queryb_spec buf : valid_queryb buf = true <-> valid_query buf.
Proof.
  unfold valid_queryb, valid_query.
  rewrite andb_true_iff, not_ignoredb_spec, supportedb_spec. tauto.
Qed.

Ltac by_compute :=
  lazymatch goal with
  | |- _ = _ => vm_compute; reflexivity
  | |- wf_buf _ => vm_compute; reflexivity
  | |- names_fit _ => vm_compute; reflexivity
  | |- ci_equal _ _ => vm_compute; reflexivity
  | |- is_prefix _ _ => vm_compute; reflexivity
  | |- valid_query _ => apply valid_queryb_spec; vm_compute; reflexivity
  | |- not_ignored _ => apply not_ignoredb_spec; vm_compute; reflexivity
  | |- forall _, _ =>
      let H := fresh in
      intros ? H;
      repeat (destruct H as [<-|H]; [vm_compute; reflexivity|]);
      destruct H
  | |- (_ <= _)%nat => apply Nat.leb_le; vm_compute; reflexivity
  | |- _ => unfold DEFAULT_TTL, MAX_NAME_LEN, IP_STRING_LEN; cbn [length]; lia
  end.

(** ** The claims *)

(** C2, as amended.  On a target where a pointer has the 4 bytes of struct
    dns_prop, so that sizeof(unaligned_qprop) is the size of type and class
    together, a query that passes validation, whose lookup succeeds with
    data that fits the answer array, is answered by: the header with
    the id of the request, the flags of the request or-ed with QR and AA (so
    QR = 1, AA = 1 and RCODE is the RCODE of the request, 0 for a request
    with RCODE 0), question count 1, answer count 1, the other counts 0;
    then the question bytes unchanged; then one resource record made of the
    question bytes once more, the TTL as 4 bytes in network order (0 0 0 120
    for the default), the length of the resource data as 2 bytes in network
    order, and the resource data.  The value returned is the length of
    header, question and record together. *)
Theorem answer_reply_layout sizeof_ptr conf_data conf_ttl buf rdata :
  sizeof_ptr = sizeof_dns_prop ->
  wf_buf buf -> 0 <= conf_ttl < 4294967296 ->
  valid_query buf ->
  lookup conf_data buf = Some rdata ->
  (length rdata <= MAX_NAME_LEN + 1)%nat ->
  let h := head_of buf in
  let hr := {| id := id h; flags := Z.lor (flags h) (Z.lor 0x8000 0x0400);
               nquer := 1; nansw := 1; nauth := 0; nadd := 0 |} in
  let rr := question buf ++ be32 conf_ttl
            ++ be16 (Z.of_nat (length rdata)) ++ rdata in
  (exists rest,
      process_packet sizeof_ptr conf_data conf_ttl buf
      = Ok (head_bytes hr ++ (question buf ++ rr) ++ rest,
            Z.of_nat (sizeof_dns_head + length (question buf ++ rr))))
  /\ QR (flags hr) = true /\ AA (flags hr) = true
  /\ RCODE (flags hr) = RCODE (flags h)
  /\ be32 DEFAULT_TTL = [0; 0; 0; 120].
Proof.
  intros -> Hwf Httl Hv Hl Hfit h hr rr.
  split; [|split; [|split; [|split]]].
  - apply replies_explicit.
    apply (pp_record conf_data conf_ttl buf Hwf Httl rdata Hv Hl Hfit).
  - cbn [flags hr]. rewrite QR_lor. apply orb_true_r.
  - cbn [flags hr]. rewrite AA_lor. apply orb_true_r.
  - cbn [flags hr]. rewrite RCODE_lor. apply Z.lor_0_r.
  - reflexivity.
Qed.

Lemma answer_reply_layout_witness :
  exists rest,
    process_packet 4 table1 DEFAULT_TTL query_foo_A
    = Ok ([18; 52; 133; 0; 0; 1; 0; 1; 0; 0; 0; 0]
          ++ ((qn_foo ++ [0; 0; 1; 0; 1])
              ++ (qn_foo ++ [0; 0; 1; 0; 1])
              ++ [0; 0; 0; 120] ++ [0; 4] ++ [10; 0; 0; 1]) ++ rest,
          64).
Proof.
  refine (proj1 (answer_reply_layout 4 table1 DEFAULT_TTL query_foo_A
                   [10; 0; 0; 1] _ _ _ _ _ _)).
  - by_compute.
  - by_compute.
  - by_compute.
  - by_compute.
  - by_compute.
  - by_compute.
Defined.

(** C2 as stated fails: a valid forward query for a name of the table that
    has RCODE bits set in its flags (here 5) is answered with these bits
    still set, not with RCODE 0. *)
Lemma answer_rcode_not_zero :
  wf_buf query_foo_A_rcode5 /\ valid_query query_foo_A_rcode5
  /\ lookup table1 query_foo_A_rcode5 = Some [10; 0; 0; 1]
  /\ exists buf',
       process_packet 4 table1 DEFAULT_TTL query_foo_A_rcode5 = Ok (buf', 64)
       /\ RCODE (flags (head_of buf')) = 5
       /\ RCODE (flags (head_of buf')) <> 0.
Proof.
  split; [by_compute|]. split; [by_compute|]. split; [by_compute|].
  eexists. split; [by_compute|]. split; [by_compute|].
  vm_compute. discriminate.
Qed.

(** C4, as amended.  A query that passes validation and matches no entry of
    the table is answered by header and question alone, no record appended:
    the flags are those of the request or-ed with QR, AA and 3, so QR = 1,
    AA = 1 and RCODE is the RCODE of the request or-ed with 3 (3, name error,
    for a request with RCODE 0); the question count is 1, authority and
    additional counts are 0, and the answer count is left as the request
    had it (0 for a request with answer count 0). *)
Theorem name_error_reply sizeof_ptr conf_data conf_ttl buf :
  wf_buf buf -> valid_query buf ->
  lookup conf_data buf = None ->
  let h := head_of buf in
  let hr := {| id := id h; flags := Z.lor (flags h) (Z.lor (Z.lor 0x8000 0x0400) 3);
               nquer := 1; nansw := nansw h; nauth := 0; nadd := 0 |} in
  (exists rest,
      process_packet sizeof_ptr conf_data conf_ttl buf
      = Ok (head_bytes hr ++ question buf ++ rest,
            Z.of_nat (sizeof_dns_head + length (question buf))))
  /\ QR (flags hr) = true /\ AA (flags hr) = true
  /\ RCODE (flags hr) = Z.lor (RCODE (flags h)) 3
  /\ (RCODE (flags h) = 0 -> RCODE (flags hr) = 3)
  /\ (nansw h = 0 -> nansw hr = 0).
Proof.
  intros Hwf Hv Hl h hr.
  assert (HR : RCODE (flags hr) = Z.lor (RCODE (flags h)) 3)
    by (cbn [flags hr]; apply RCODE_lor).
  split; [|split; [|split; [|split; [|split]]]].
  - apply replies_explicit.
    apply (pp_no_record _ conf_data conf_ttl buf Hwf Hv Hl).
  - cbn [flags hr]. rewrite QR_lor. apply orb_true_r.
  - cbn [flags hr]. rewrite AA_lor. apply orb_true_r.
  - exact HR.
  - intros H0. rewrite HR, H0. reflexivity.
  - intros H0. exact H0.
Qed.

Lemma name_error_reply_witness :
  exists rest,
    process_packet 4 table1 DEFAULT_TTL query_bar_A
    = Ok ([18; 52; 133; 3; 0; 1; 0; 0; 0; 0; 0; 0]
          ++ (qn_bar ++ [0; 0; 1; 0; 1]) ++ rest,
          33).
Proof.
  refine (proj1 (name_error_reply 4 table1 DEFAULT_TTL query_bar_A _ _ _));
    by_compute.
Defined.

(** C4 as stated fails: a valid forward query for a name that is not in the
    table, sent with RCODE bits 4 and an answer count of 1, is answered with
    RCODE 7 and an answer count of 1, not with RCODE 3 and answer count 0. *)
Lemma name_error_keeps_request_bits :
  wf_buf query_bar_A_rcode4_an1 /\ valid_query query_bar_A_rcode4_an1
  /\ lookup table1 query_bar_A_rcode4_an1 = None
  /\ exists buf',
       process_packet 4 table1 DEFAULT_TTL query_bar_A_rcode4_an1
       = Ok (buf', 33)
       /\ RCODE (flags (head_of buf')) = 7
       /\ nansw (head_of buf') = 1
       /\ RCODE (flags (head_of buf')) <> 3
       /\ nansw (head_of buf') <> 0.
Proof.
  split; [by_compute|]. split; [by_compute|]. split; [by_compute|].
  eexists. split; [by_compute|]. split; [by_compute|]. split; [by_compute|].
  split; vm_compute; discriminate.
Qed.

(** C5, as amended.  A query that is not ignored and whose type is neither A
    nor PTR, or whose class is not IN, or whose opcode is not 0, is answered
    without any lookup (the result is the same for every table) by header
    and question alone, no record appended: the flags are those of the
    request or-ed with QR and 4, so QR = 1 and RCODE is the RCODE of the
    request or-ed with 4 (4, not implemented, for a request with RCODE 0);
    the question count is 1, authority and additional counts are 0, and
    the answer count is left as the request had it. *)
Theorem not_implemented_reply sizeof_ptr conf_ttl buf :
  wf_buf buf -> not_ignored buf -> ~ supported buf ->
  let h := head_of buf in
  let hr := {| id := id h; flags := Z.lor (flags h) (Z.lor 0x8000 4);
               nquer := 1; nansw := nansw h; nauth := 0; nadd := 0 |} in
  (exists rest, forall conf_data,
      process_packet sizeof_ptr conf_data conf_ttl buf
      = Ok (head_bytes hr ++ question buf ++ rest,
            Z.of_nat (sizeof_dns_head + length (question buf))))
  /\ QR (flags hr) = true
  /\ RCODE (flags hr) = Z.lor (RCODE (flags h)) 4
  /\ (RCODE (flags h) = 0 -> RCODE (flags hr) = 4)
  /\ (nansw h = 0 -> nansw hr = 0).
Proof.
  intros Hwf Hn Hs h hr.
  assert (HR : RCODE (flags hr) = Z.lor (RCODE (flags h)) 4)
    by (cbn [flags hr]; apply RCODE_lor).
  split; [|split; [|split; [|split]]].
  - destruct (replies_explicit _ _ _ _ _ _
                (pp_unsupported sizeof_ptr [] conf_ttl buf Hwf Hn Hs))
      as (rest & Hr).
    exists rest. intros conf_data.
    rewrite (pp_unsupported_any_table sizeof_ptr conf_ttl buf conf_data []
               Hwf Hn Hs).
    exact Hr.
  - cbn [flags hr]. rewrite QR_lor. apply orb_true_r.
  - exact HR.
  - intros H0. rewrite HR, H0. reflexivity.
  - intros H0. exact H0.
Qed.

Lemma not_implemented_reply_witness :
  exists rest, forall conf_data,
    process_packet 4 conf_data DEFAULT_TTL query_foo_MX
    = Ok ([18; 52; 129; 4; 0; 1; 0; 0; 0; 0; 0; 0]
          ++ (qn_foo ++ [0; 0; 15; 0; 1]) ++ rest,
          33).
Proof.
  refine (proj1 (not_implemented_reply 4 DEFAULT_TTL query_foo_MX _ _ _)).
  - by_compute.
  - by_compute.
  - intros Hs. apply supportedb_spec in Hs. vm_compute in Hs. discriminate.
Defined.

(** C5 as stated fails: an MX query sent with RCODE bits 1 and an answer
    count of 1 is answered with RCODE 5 and an answer count of 1, not with
    RCODE 4 and zero answers. *)
Lemma not_implemented_keeps_request_bits :
  wf_buf query_foo_MX_rcode1_an1 /\ not_ignored query_foo_MX_rcode1_an1
  /\ qtype query_foo_MX_rcode1_an1 = 15
  /\ exists buf',
       process_packet 4 table1 DEFAULT_TTL query_foo_MX_rcode1_an1
       = Ok (buf', 33)
       /\ RCODE (flags (head_of buf')) = 5
       /\ nansw (head_of buf') = 1
       /\ RCODE (flags (head_of buf')) <> 4
       /\ nansw (head_of buf') <> 0.
Proof.
  split; [by_compute|]. split; [by_compute|]. split; [by_compute|].
  eexists. split; [by_compute|]. split; [by_compute|]. split; [by_compute|].
  split; vm_compute; discriminate.
Qed.

(** C6.  A buffer whose header has a question count of zero, and a buffer
    whose QR bit marks a response, make process_packet return -1 and leave
    the buffer as it was; and these are the only cases in which the value
    returned is not positive, whatever the size of a pointer.  Every other
    buffer is answered with a positive length, the table's names fitting
    the answer array and a pointer having the 4 bytes of struct dns_prop. *)
Theorem ignored_packets sizeof_ptr conf_data conf_ttl buf :
  wf_buf buf -> 0 <= conf_ttl < 4294967296 ->
  (nquer (head_of buf) = 0 \/ QR (flags (head_of buf)) = true ->
   process_packet sizeof_ptr conf_data conf_ttl buf = Ok (buf, -1))
  /\ (forall buf' n,
        process_packet sizeof_ptr conf_data conf_ttl buf = Ok (buf', n) ->
        n <= 0 ->
        nquer (head_of buf) = 0 \/ QR (flags (head_of buf)) = true)
  /\ (sizeof_ptr = sizeof_dns_prop ->
      not_ignored buf -> names_fit conf_data ->
      exists buf' n,
        process_packet sizeof_ptr conf_data conf_ttl buf = Ok (buf', n)
        /\ 0 < n).
Proof.
  intros Hwf Httl. split; [|split].
  - apply pp_ignored. assumption.
  - intros buf' n Hp Hle.
    destruct (Z.eq_dec (nquer (head_of buf)) 0) as [|Hnq]; [left; assumption|].
    destruct (QR (flags (head_of buf))) eqn:Hq; [right; reflexivity|].
    exfalso.
    destruct (pp_ok_head sizeof_ptr conf_data conf_ttl buf buf' n Hwf
                (conj Hnq Hq) Hp) as (_ & _ & Hpos).
    lia.
  - intros -> Hn Hf. apply pp_defined; assumption.
Qed.

Lemma ignored_packets_witness :
  process_packet 4 table1 DEFAULT_TTL query_no_question
  = Ok (query_no_question, -1)
  /\ process_packet 4 table1 DEFAULT_TTL query_response
     = Ok (query_response, -1).
Proof.
  split.
  - refine (proj1 (ignored_packets 4 table1 DEFAULT_TTL query_no_question
                     _ _) _);
      [by_compute|by_compute|left; by_compute].
  - refine (proj1 (ignored_packets 4 table1 DEFAULT_TTL query_response
                     _ _) _);
      [by_compute|by_compute|right; by_compute].
Defined.

(** C8.  Whatever counts the request header carries, and whatever the size
    of a pointer, the header of every reply has question count 1, authority
    count 0 and additional count 0, in network byte order; and a packet
    that is not ignored is replied to (the table's names fitting the answer
    array and a pointer having the 4 bytes of struct dns_prop). *)
Theorem reply_counts sizeof_ptr conf_data conf_ttl buf :
  wf_buf buf -> 0 <= conf_ttl < 4294967296 -> not_ignored buf ->
  (sizeof_ptr = sizeof_dns_prop -> names_fit conf_data ->
   exists buf' n,
     process_packet sizeof_ptr conf_data conf_ttl buf = Ok (buf', n)
     /\ 0 < n)
  /\ (forall buf' n,
        process_packet sizeof_ptr conf_data conf_ttl buf = Ok (buf', n) ->
        nquer (head_of buf') = 1 /\ nauth (head_of buf') = 0
        /\ nadd (head_of buf') = 0
        /\ firstn 2 (skipn 4 buf') = [0; 1]
        /\ firstn 4 (skipn 8 buf') = [0; 0; 0; 0]).
Proof.
  intros Hwf Httl Hn. split.
  - intros ->. apply pp_defined; assumption.
  - intros buf' n Hp.
    destruct (pp_ok_head sizeof_ptr conf_data conf_ttl buf buf' n Hwf Hn Hp)
      as (Hh & (X & ->) & _).
    rewrite head_of_head_bytes by assumption.
    split; [reflexivity|]. split; [reflexivity|]. split; [reflexivity|].
    split; reflexivity.
Qed.

Lemma reply_counts_witness :
  exists buf' n,
    process_packet 4 table1 DEFAULT_TTL query_foo_A = Ok (buf', n) /\ 0 < n.
Proof.
  refine (proj1 (reply_counts 4 table1 DEFAULT_TTL query_foo_A _ _ _) _ _);
    by_compute.
Defined.

(** C10.  In every reply, whatever the size of a pointer, the flags word is
    the bitwise or of the flags of the request and the flags process_packet
    computed (QR and 4, QR AA and 3, or QR and AA), so no bit set in the
    request is cleared, and the id is the id of the request; and a packet
    that is not ignored is replied to (the table's names fitting the answer
    array and a pointer having the 4 bytes of struct dns_prop). *)
Theorem reply_flags_and_id sizeof_ptr conf_data conf_ttl buf :
  wf_buf buf -> 0 <= conf_ttl < 4294967296 -> not_ignored buf ->
  (sizeof_ptr = sizeof_dns_prop -> names_fit conf_data ->
   exists buf' n,
     process_packet sizeof_ptr conf_data conf_ttl buf = Ok (buf', n)
     /\ 0 < n)
  /\ (forall buf' n,
        process_packet sizeof_ptr conf_data conf_ttl buf = Ok (buf', n) ->
        flags (head_of buf')
        = Z.lor (flags (head_of buf)) (outr_flags conf_data buf)
        /\ (forall i, Z.testbit (flags (head_of buf)) i = true ->
                      Z.testbit (flags (head_of buf')) i = true)
        /\ id (head_of buf') = id (head_of buf)).
Proof.
  intros Hwf Httl Hn. split.
  - intros ->. apply pp_defined; assumption.
  - intros buf' n Hp.
    destruct (pp_ok_head sizeof_ptr conf_data conf_ttl buf buf' n Hwf Hn Hp)
      as (Hh & (X & ->) & _).
    rewrite head_of_head_bytes by assumption.
    cbn [flags id reply_header]. repeat split.
    intros i. apply lor_keeps_bits.
Qed.

Lemma reply_flags_and_id_witness :
  exists buf' n,
    process_packet 4 table1 DEFAULT_TTL query_foo_A = Ok (buf', n) /\ 0 < n.
Proof.
  refine (proj1 (reply_flags_and_id 4 table1 DEFAULT_TTL query_foo_A _ _ _)
            _ _);
    by_compute.
Defined.

(** ** Names of the table and names of queries *)

Lemma qname_nonzero buf : wf_buf buf -> Forall (fun c => c <> 0) (qname buf).
Proof.
  intros Hwf.
  destruct (wf_buf_layout buf Hwf) as (h & Q & ty & cl & R & -> & Hok).
  pose proof Hok as (Hh & HQ & Hty & Hcl & _).
  rewrite qname_layout by assumption. apply nonzero_byte_nonzero. assumption.
Qed.

Lemma fwd_match_ci e qs :
  Forall (fun c => c <> 0) qs ->
  ci_equal (cstr (name e)) qs -> fwd_match e qs = true.
Proof.
  intros Hq Hc. unfold fwd_match.
  apply (strcasecmp_ci _ _ (cstr_nonzero _) Hq) in Hc.
  rewrite Hc. apply orb_true_r.
Qed.

Lemma rev_match_prefix e qs :
  is_wildcard e = false -> is_prefix (cstr (rip e)) qs ->
  rev_match e qs = true.
Proof.
  intros Hw Hp. unfold rev_match. rewrite Hw.
  apply (strncmp_prefix _ _ (cstr_nonzero _)) in Hp. rewrite Hp. reflexivity.
Qed.

Lemma rev_match_wildcard e qs : is_wildcard e = true -> rev_match e qs = false.
Proof. intros Hw. unfold rev_match. rewrite Hw. reflexivity. Qed.

Lemma fwd_match_wildcard e qs : is_wildcard e = true -> fwd_match e qs = true.
Proof. intros Hw. unfold fwd_match. rewrite Hw. reflexivity. Qed.

Lemma table_lookup_PTR_skip l1 w l2 qs :
  is_wildcard w = true ->
  table_lookup (l1 ++ w :: l2) (htons REQ_PTR) qs
  = table_lookup (l1 ++ l2) (htons REQ_PTR) qs.
Proof.
  intros Hw. induction l1 as [|x l1 IH]; cbn [app].
  - rewrite table_lookup_PTR, rev_match_wildcard by assumption. reflexivity.
  - rewrite !table_lookup_PTR, IH. reflexivity.
Qed.

Section Answers.

Variables (conf_data : list dns_entry) (conf_ttl : Z) (buf : list Z).
Hypothesis Hwf : wf_buf buf.
Hypothesis Httl : 0 <= conf_ttl < 4294967296.
Hypothesis Hv : valid_query buf.

Lemma pp_answer_A l1 e l2 :
  qtype buf = REQ_A ->
  conf_data = l1 ++ e :: l2 ->
  (forall x, In x l1 -> fwd_match x (qname buf) = false) ->
  fwd_match e (qname buf) = true ->
  exists rest,
    process_packet 4 conf_data conf_ttl buf
    = Ok (head_bytes (answer_header (head_of buf))
          ++ (question buf
              ++ question buf ++ be32 conf_ttl ++ [0; 4] ++ le32 (ip e))
          ++ rest,
          Z.of_nat (sizeof_dns_head
                    + (length (question buf) + length (question buf)
                       + 4 + 2 + 4))).
Proof.
  intros Hty -> H1 He.
  assert (Hl : lookup (l1 ++ e :: l2) buf = Some (le32 (ip e))).
  { unfold lookup. rewrite Hty. apply table_lookup_A_first; assumption. }
  assert (Hlen : (length (le32 (ip e)) <= MAX_NAME_LEN + 1)%nat)
    by (unfold le32, MAX_NAME_LEN, IP_STRING_LEN; cbn [length]; lia).
  destruct (replies_explicit _ _ _ _ _ _
              (pp_record (l1 ++ e :: l2) conf_ttl buf Hwf Httl _ Hv Hl Hlen))
    as (rest & Hr).
  exists rest. rewrite Hr. unfold answer_record.
  apply f_equal. apply f_equal2; [reflexivity|]. apply f_equal.
  unfold be32, be16, le32.
  repeat (first [rewrite length_app | progress cbn [length]]). lia.
Qed.

Lemma pp_answer_PTR l1 e l2 :
  qtype buf = REQ_PTR ->
  conf_data = l1 ++ e :: l2 ->
  (forall x, In x l1 -> rev_match x (qname buf) = false) ->
  rev_match e (qname buf) = true ->
  (length (cstr (name e)) <= MAX_NAME_LEN)%nat ->
  exists rest,
    process_packet 4 conf_data conf_ttl buf
    = Ok (head_bytes (answer_header (head_of buf))
          ++ (question buf
              ++ question buf ++ be32 conf_ttl
              ++ be16 (Z.of_nat (length (cstr (name e)) + 1))
              ++ cstr (name e) ++ [0])
          ++ rest,
          Z.of_nat (sizeof_dns_head
                    + (length (question buf) + length (question buf)
                       + 4 + 2 + (length (cstr (name e)) + 1)))).
Proof.
  intros Hty -> H1 He Hfit.
  assert (Hl : lookup (l1 ++ e :: l2) buf = Some (cstr (name e) ++ [0])).
  { unfold lookup. rewrite Hty. apply table_lookup_PTR_first; assumption. }
  assert (Hlen : (length (cstr (name e) ++ [0%Z]) <= MAX_NAME_LEN + 1)%nat)
    by (rewrite length_app; cbn [length]; lia).
  destruct (replies_explicit _ _ _ _ _ _
              (pp_record (l1 ++ e :: l2) conf_ttl buf Hwf Httl _ Hv Hl Hlen))
    as (rest & Hr).
  exists rest. rewrite Hr. unfold answer_record.
  rewrite (length_app (cstr (name e)) [0]). cbn [length].
  apply f_equal. apply f_equal2; [reflexivity|]. apply f_equal.
  unfold be32, be16.
  repeat (first [rewrite length_app | progress cbn [length]]). lia.
Qed.

End Answers.

(** C1, as amended.  On a target where a pointer has the 4 bytes of struct
    dns_prop, let the table be [l1 ++ e :: l2], no entry of [l1] matching
    the query.
    - A valid forward query whose name equals the encoded name of [e] up to
      the case of letters is answered with one record whose resource data
      are the four bytes of the address stored in [e], in network byte order
      as inet_aton left them, with resource data length 4.
    - A valid reverse query whose name begins, byte for byte, with the
      encoded reversed address of [e] is answered with one record whose
      resource data is the label-encoded name of [e] with its final zero,
      provided [e] is not a wildcard entry (its name does not begin with the
      single label "*") and its name fits the answer array.
    In both cases the first matching entry is the one used. *)
Theorem lookup_answers sizeof_ptr conf_data conf_ttl buf l1 e l2 :
  sizeof_ptr = sizeof_dns_prop ->
  wf_buf buf -> 0 <= conf_ttl < 4294967296 -> valid_query buf ->
  conf_data = l1 ++ e :: l2 ->
  (qtype buf = REQ_A ->
   (forall x, In x l1 -> fwd_match x (qname buf) = false) ->
   ci_equal (cstr (name e)) (qname buf) ->
   exists rest,
     process_packet sizeof_ptr conf_data conf_ttl buf
     = Ok (head_bytes (answer_header (head_of buf))
           ++ (question buf
               ++ question buf ++ be32 conf_ttl ++ [0; 4] ++ le32 (ip e))
           ++ rest,
           Z.of_nat (sizeof_dns_head
                     + (length (question buf) + length (question buf)
                        + 4 + 2 + 4))))
  /\ (qtype buf = REQ_PTR ->
      (forall x, In x l1 -> rev_match x (qname buf) = false) ->
      is_prefix (cstr (rip e)) (qname buf) ->
      is_wildcard e = false ->
      (length (cstr (name e)) <= MAX_NAME_LEN)%nat ->
      exists rest,
        process_packet sizeof_ptr conf_data conf_ttl buf
        = Ok (head_bytes (answer_header (head_of buf))
              ++ (question buf
                  ++ question buf ++ be32 conf_ttl
                  ++ be16 (Z.of_nat (length (cstr (name e)) + 1))
                  ++ cstr (name e) ++ [0])
              ++ rest,
              Z.of_nat (sizeof_dns_head
                        + (length (question buf) + length (question buf)
                           + 4 + 2 + (length (cstr (name e)) + 1))))).
Proof.
  intros -> Hwf Httl Hv Ht. split.
  - intros Hty H1 Hci.
    apply (pp_answer_A conf_data conf_ttl buf Hwf Httl Hv l1 e l2 Hty Ht H1).
    apply fwd_match_ci; [apply qname_nonzero|]; assumption.
  - intros Hty H1 Hp Hw Hfit.
    apply (pp_answer_PTR conf_data conf_ttl buf Hwf Httl Hv l1 e l2 Hty Ht H1);
      [|assumption].
    apply rev_match_prefix; assumption.
Qed.

Lemma lookup_answers_witness :
  (exists rest,
      process_packet 4 table_bar_foo DEFAULT_TTL query_foo_A
      = Ok ([18; 52; 133; 0; 0; 1; 0; 1; 0; 0; 0; 0]
            ++ ((qn_foo ++ [0; 0; 1; 0; 1])
                ++ (qn_foo ++ [0; 0; 1; 0; 1])
                ++ [0; 0; 0; 120] ++ [0; 4] ++ [10; 0; 0; 1]) ++ rest,
            64))
  /\ (exists rest,
         process_packet 4 table_bar_foo DEFAULT_TTL query_ptr
         = Ok ([18; 52; 133; 0; 0; 1; 0; 1; 0; 0; 0; 0]
               ++ ((qn_ptr ++ [0; 0; 12; 0; 1])
                   ++ (qn_ptr ++ [0; 0; 12; 0; 1])
                   ++ [0; 0; 0; 120] ++ [0; 17] ++ qn_foo ++ [0]) ++ rest,
               89)).
Proof.
  split.
  - refine (proj1 (lookup_answers 4 table_bar_foo DEFAULT_TTL query_foo_A
                     [conf_entry bar_example_com addr_10_0_0_2]
                     (conf_entry foo_example_com addr_10_0_0_1) []
                     _ _ _ _ _) _ _ _); by_compute.
  - refine (proj2 (lookup_answers 4 table_bar_foo DEFAULT_TTL query_ptr
                     [conf_entry bar_example_com addr_10_0_0_2]
                     (conf_entry foo_example_com addr_10_0_0_1) []
                     _ _ _ _ _) _ _ _ _ _); by_compute.
Defined.

(** C1 as stated fails in its reverse half: with the single entry
    "* 10.0.0.1" in the table, the reverse query for 1.0.0.10.in-addr.arpa
    begins with the encoded reversed address of that entry, yet the reply
    is header and question only, 39 bytes, with RCODE 3 and no record. *)
Lemma reverse_query_wildcard_entry_unanswered :
  wf_buf query_ptr /\ valid_query query_ptr /\ qtype query_ptr = REQ_PTR
  /\ table_star = [conf_entry star addr_10_0_0_1]
  /\ is_prefix (cstr (rip (conf_entry star addr_10_0_0_1))) (qname query_ptr)
  /\ exists buf',
       process_packet 4 table_star DEFAULT_TTL query_ptr = Ok (buf', 39)
       /\ reply_bytes (buf', 39)
          = [18; 52; 133; 3; 0; 1; 0; 0; 0; 0; 0; 0]
            ++ qn_ptr ++ [0; 0; 12; 0; 1].
Proof.
  split; [by_compute|]. split; [by_compute|]. split; [by_compute|].
  split; [by_compute|]. split; [by_compute|].
  eexists. split; by_compute.
Qed.

(** C3, as amended.  For a valid forward query, a table entry whose name
    begins with the single label "*" matches whatever name is asked, and when
    no earlier entry matches the reply carries the address of that entry
    (in the record as C2 lays it out, on a target where a pointer has the
    4 bytes of struct dns_prop).
    For a reverse query there is no such rule: the wildcard test is made on
    the name of the entry, not on its reversed address, and it excludes the
    entry, so a wildcard entry never answers a reverse query; a table of
    wildcard entries answers every valid reverse query as it answers a
    query that matches no entry: header and question, no record, the flags
    of the request or-ed with QR, AA and 3, so that RCODE is the RCODE of
    the request or-ed with 3 (3, name error, for a request with RCODE 0),
    and the answer count as the request had it. *)
Theorem wildcard_entries sizeof_ptr conf_data conf_ttl buf :
  wf_buf buf -> 0 <= conf_ttl < 4294967296 -> valid_query buf ->
  (sizeof_ptr = sizeof_dns_prop ->
   forall l1 w l2,
      qtype buf = REQ_A -> conf_data = l1 ++ w :: l2 ->
      is_wildcard w = true ->
      (forall x, In x l1 -> fwd_match x (qname buf) = false) ->
      fwd_match w (qname buf) = true
      /\ exists rest,
           process_packet sizeof_ptr conf_data conf_ttl buf
           = Ok (head_bytes (answer_header (head_of buf))
                 ++ (question buf
                     ++ question buf ++ be32 conf_ttl ++ [0; 4]
                     ++ le32 (ip w))
                 ++ rest,
                 Z.of_nat (sizeof_dns_head
                           + (length (question buf) + length (question buf)
                              + 4 + 2 + 4))))
  /\ (forall l1 w l2 qs,
         is_wildcard w = true ->
         rev_match w qs = false
         /\ table_lookup (l1 ++ w :: l2) (htons REQ_PTR) qs
            = table_lookup (l1 ++ l2) (htons REQ_PTR) qs)
  /\ (qtype buf = REQ_PTR ->
      (forall e, In e conf_data -> is_wildcard e = true) ->
      let h := head_of buf in
      (exists rest,
          process_packet sizeof_ptr conf_data conf_ttl buf
          = Ok (head_bytes (name_error_header h) ++ question buf ++ rest,
                Z.of_nat (sizeof_dns_head + length (question buf))))
      /\ RCODE (flags (name_error_header h)) = Z.lor (RCODE (flags h)) 3
      /\ (RCODE (flags h) = 0 -> RCODE (flags (name_error_header h)) = 3)
      /\ nansw (name_error_header h) = nansw h)
  /\ (forall s_addr, is_wildcard (conf_entry star s_addr) = true).
Proof.
  intros Hwf Httl Hv. split; [|split; [|split]].
  - intros -> l1 w l2 Hty Ht Hw H1.
    pose proof (fwd_match_wildcard w (qname buf) Hw) as Hm.
    split; [assumption|].
    apply (pp_answer_A conf_data conf_ttl buf Hwf Httl Hv l1 w l2 Hty Ht H1 Hm).
  - intros l1 w l2 qs Hw. split.
    + apply rev_match_wildcard. assumption.
    + apply table_lookup_PTR_skip. assumption.
  - intros Hty Hall h.
    assert (HR : RCODE (flags (name_error_header h))
                 = Z.lor (RCODE (flags h)) 3)
      by (cbn [flags name_error_header]; apply RCODE_lor).
    split; [|split; [|split]].
    + apply replies_explicit.
      apply (pp_no_record sizeof_ptr conf_data conf_ttl buf Hwf Hv).
      unfold lookup. rewrite Hty. apply table_lookup_PTR_none.
      intros x Hx. apply rev_match_wildcard. apply Hall. assumption.
    + exact HR.
    + intros H0. rewrite HR, H0. reflexivity.
    + reflexivity.
  - intros s_addr. reflexivity.
Qed.

Lemma wildcard_entries_witness :
  exists rest,
    process_packet 4 table_bar_star DEFAULT_TTL query_foo_A
    = Ok ([18; 52; 133; 0; 0; 1; 0; 1; 0; 0; 0; 0]
          ++ ((qn_foo ++ [0; 0; 1; 0; 1])
              ++ (qn_foo ++ [0; 0; 1; 0; 1])
              ++ [0; 0; 0; 120] ++ [0; 4] ++ [10; 0; 0; 1]) ++ rest,
          64).
Proof.
  refine (proj2 (proj1 (wildcard_entries 4 table_bar_star DEFAULT_TTL
                          query_foo_A _ _ _) _
                   [conf_entry bar_example_com addr_10_0_0_2]
                   (conf_entry star addr_10_0_0_1) [] _ _ _ _));
    by_compute.
Defined.

(** C3 as stated fails.  Reverse: with the single entry "* 10.0.0.1" the
    reverse query for 1.0.0.10.in-addr.arpa gets a name error and no record,
    though the claim lets the wildcard entry answer it.  Forward: with the
    entries "foo.example.com 10.0.0.1" and "* 10.0.0.2", in this order, the
    query for foo.example.com is answered with 10.0.0.1, not with the
    address of the wildcard entry. *)
Lemma wildcard_entry_not_always_the_answer :
  (is_wildcard (conf_entry star addr_10_0_0_1) = true
   /\ valid_query query_ptr /\ qtype query_ptr = REQ_PTR
   /\ exists buf',
        process_packet 4 table_star DEFAULT_TTL query_ptr = Ok (buf', 39)
        /\ RCODE (flags (head_of buf')) = 3
        /\ nansw (head_of buf') = 0)
  /\ (is_wildcard (conf_entry star addr_10_0_0_2) = true
      /\ valid_query query_foo_A /\ qtype query_foo_A = REQ_A
      /\ le32 (ip (conf_entry star addr_10_0_0_2)) = [10; 0; 0; 2]
      /\ exists buf',
           process_packet 4 table_foo_star DEFAULT_TTL query_foo_A
           = Ok (buf', 64)
           /\ firstn 4 (skipn 60 buf') = [10; 0; 0; 1]).
Proof.
  split.
  - split; [by_compute|]. split; [by_compute|]. split; [by_compute|].
    eexists. repeat split; by_compute.
  - split; [by_compute|]. split; [by_compute|]. split; [by_compute|].
    split; [by_compute|].
    eexists. split; by_compute.
Qed.

(** ** The table keeps the order of the configuration file *)

Section ParseConfProps.

Variable inet_aton : list Z -> option Z.

Lemma parse_conf_file_app ls1 ls2 :
  parse_conf_file inet_aton (ls1 ++ ls2)
  = parse_conf_file inet_aton ls1 ++ parse_conf_file inet_aton ls2.
Proof.
  induction ls1 as [|[t0 t1] ls1 IH]; cbn [app parse_conf_file];
    [reflexivity|].
  destruct (inet_aton t1); cbn [app]; rewrite IH; reflexivity.
Qed.

Lemma parse_conf_file_cons t0 t1 ls s_addr :
  inet_aton t1 = Some s_addr ->
  parse_conf_file inet_aton ((t0, t1) :: ls)
  = conf_entry t0 s_addr :: parse_conf_file inet_aton ls.
Proof. intros H. cbn [parse_conf_file]. rewrite H. reflexivity. Qed.

Lemma parse_conf_file_skip t0 t1 ls :
  inet_aton t1 = None ->
  parse_conf_file inet_aton ((t0, t1) :: ls) = parse_conf_file inet_aton ls.
Proof. intros H. cbn [parse_conf_file]. rewrite H. reflexivity. Qed.

End ParseConfProps.

(** C7.  The table holds the entries of the accepted configuration lines in
    the order of the file, duplicates included; and when two entries of a
    table both match the key of a query, forward or reverse, and no entry
    before the earlier one matches, table_lookup returns the data of the
    earlier one. *)
Theorem first_match_wins inet_aton ls1 n1 a1 ls2 n2 a2 ls3 ip1 ip2 qs :
  inet_aton a1 = Some ip1 -> inet_aton a2 = Some ip2 ->
  let e1 := conf_entry n1 ip1 in
  let e2 := conf_entry n2 ip2 in
  let before := parse_conf_file inet_aton ls1 in
  let conf_data :=
    parse_conf_file inet_aton (ls1 ++ (n1, a1) :: ls2 ++ (n2, a2) :: ls3) in
  conf_data
  = before ++ e1 :: parse_conf_file inet_aton ls2
    ++ e2 :: parse_conf_file inet_aton ls3
  /\ (fwd_match e1 qs = true -> fwd_match e2 qs = true ->
      (forall x, In x before -> fwd_match x qs = false) ->
      table_lookup conf_data (htons REQ_A) qs = Some (le32 ip1))
  /\ (rev_match e1 qs = true -> rev_match e2 qs = true ->
      (forall x, In x before -> rev_match x qs = false) ->
      table_lookup conf_data (htons REQ_PTR) qs = Some (cstr (name e1) ++ [0])).
Proof.
  intros H1 H2 e1 e2 before conf_data.
  assert (Hc : conf_data
               = before ++ e1 :: parse_conf_file inet_aton ls2
                 ++ e2 :: parse_conf_file inet_aton ls3).
  { unfold conf_data, before, e1, e2.
    rewrite parse_conf_file_app, (parse_conf_file_cons _ _ _ _ _ H1).
    rewrite parse_conf_file_app, (parse_conf_file_cons _ _ _ _ _ H2).
    reflexivity. }
  split; [exact Hc|]. rewrite Hc. split.
  - intros Hm1 _ Hb. apply (table_lookup_A_first before e1); assumption.
  - intros Hm1 _ Hb. apply (table_lookup_PTR_first before e1); assumption.
Qed.

Lemma first_match_wins_witness :
  table_lookup (conf_entry bar_example_com addr_10_0_0_2 :: table_foo_foo)
    (htons REQ_A) qn_foo = Some [10; 0; 0; 1]
  /\ table_lookup (conf_entry bar_example_com addr_10_0_0_2 :: table_foo_bar)
       (htons REQ_PTR) qn_ptr = Some (qn_foo ++ [0]).
Proof.
  pose (aton := fun t : list Z =>
                  match t with
                  | [49] => Some addr_10_0_0_1
                  | [50] => Some addr_10_0_0_2
                  | _ => None
                  end).
  split.
  - refine (proj1 (proj2 (first_match_wins aton
                            [(bar_example_com, [50]); (star, [])]
                            foo_example_com [49]
                            [] foo_example_com [50] []
                            addr_10_0_0_1 addr_10_0_0_2 qn_foo _ _)) _ _ _);
      by_compute.
  - refine (proj2 (proj2 (first_match_wins aton
                            [(bar_example_com, [50]); (star, [])]
                            foo_example_com [49]
                            [] bar_example_com [49] []
                            addr_10_0_0_1 addr_10_0_0_1 qn_ptr _ _)) _ _ _);
      by_compute.
Defined.

(** ** The name codec *)

Lemma undot_aux_label lab rest rest' s :
  Forall (fun c => c <> 46) lab ->
  undot_aux rest = (rest', s) ->
  undot_aux (lab ++ rest) = (lab ++ rest', s + Z.of_nat (length lab)).
Proof.
  intros Hl Hr. induction Hl as [|c lab Hc _ IH].
  - cbn [app length]. rewrite Hr. f_equal. cbn. lia.
  - cbn [app undot_aux]. rewrite IH.
    destruct (Z.eqb_spec c 46) as [|_]; [contradiction|].
    f_equal. cbn [length]. lia.
Qed.

Lemma undot_aux_labels labels :
  Forall (Forall (fun c => c <> 46)) labels ->
  undot_aux (concat (map (cons 46) labels))
  = (concat (map (fun l => Z.of_nat (length l) mod 256 :: l) labels), 0).
Proof.
  induction 1 as [|lab labels Hl _ IH]; [reflexivity|].
  cbn [map concat app undot_aux].
  rewrite (undot_aux_label lab _ _ _ Hl IH).
  cbn [Z.eqb Pos.eqb Z.add]. reflexivity.
Qed.

Lemma cstr_id s : Forall (fun c => c <> 0) s -> cstr s = s.
Proof.
  induction 1 as [|c s Hc _ IH]; [reflexivity|].
  cbn [cstr]. destruct (Z.eqb_spec c 0); [contradiction|].
  rewrite IH. reflexivity.
Qed.

Lemma cstr_app_nul X Y : cstr (X ++ 0 :: Y) = cstr X.
Proof.
  induction X as [|c X IH]; [reflexivity|].
  cbn [app cstr]. rewrite IH. reflexivity.
Qed.

Lemma dotted_nonzero l ls :
  Forall label_ok (l :: ls) -> Forall (fun c => c <> 0) (dotted l ls).
Proof.
  unfold dotted. intros H. inversion H as [|? ? [Hl _] Hls]; subst.
  apply Forall_app. split.
  - revert Hl. apply Forall_impl. tauto.
  - clear H Hl. induction Hls as [|lab ls [Hlab _] _ IH];
      cbn [map concat]; [constructor|].
    constructor; [discriminate|]. apply Forall_app. split; [|assumption].
    revert Hlab. apply Forall_impl. tauto.
Qed.

Lemma name_of_dotted l ls s_addr :
  Forall label_ok (l :: ls) ->
  name (conf_entry (dotted l ls) s_addr)
  = concat (map (fun lab => Z.of_nat (length lab) :: lab) (l :: ls)).
Proof.
  intros H. cbn [name conf_entry].
  rewrite (cstr_id _ (dotted_nonzero l ls H)).
  change (46 :: dotted l ls) with (concat (map (cons 46) (l :: ls))).
  unfold undot. rewrite undot_aux_labels.
  - cbn [fst]. f_equal. apply map_ext_in. intros lab Hin.
    rewrite Forall_forall in H. destruct (H lab Hin) as [_ Hlen].
    rewrite Z.mod_small by lia. reflexivity.
  - revert H. apply Forall_impl. intros lab [Hlab _].
    revert Hlab. apply Forall_impl. tauto.
Qed.

(** C9.  A host name of the configuration file, made of labels joined by
    dots, is stored by parse_conf_file as a dot followed by the name, passed
    through undot; the stored name then is, byte for byte, the name a
    forward query carries for the same labels (each label after its length
    octet), so the comparison of table_lookup, which ignores the case of
    letters, finds them equal and the lookup returns the entry's address. *)
Theorem name_round_trip l ls s_addr :
  Forall label_ok (l :: ls) ->
  let e := conf_entry (dotted l ls) s_addr in
  let qs := cstr (wire_name (l :: ls)) in
  name e = undot (46 :: dotted l ls)
  /\ cstr (name e) = qs
  /\ strcasecmp (cstr (name e)) qs = 0
  /\ fwd_match e qs = true
  /\ table_lookup [e] (htons REQ_A) qs = Some (le32 s_addr).
Proof.
  intros H e qs.
  assert (Hn : cstr (name e) = qs).
  { unfold e, qs, wire_name. rewrite name_of_dotted by assumption.
    rewrite cstr_app_nul. reflexivity. }
  assert (Hs : strcasecmp (cstr (name e)) qs = 0)
    by (rewrite Hn; apply strcasecmp_refl).
  assert (Hm : fwd_match e qs = true)
    by (unfold fwd_match; rewrite Hs; apply orb_true_r).
  split; [|split; [|split; [|split]]]; try assumption.
  - unfold e. cbn [name conf_entry].
    rewrite (cstr_id _ (dotted_nonzero l ls H)). reflexivity.
  - rewrite table_lookup_A, Hm. reflexivity.
Qed.

Lemma name_round_trip_witness :
  table_lookup [conf_entry foo_example_com addr_10_0_0_1] (htons REQ_A) qn_foo
  = Some [10; 0; 0; 1].
Proof.
  refine (proj2 (proj2 (proj2 (proj2
            (name_round_trip [102; 111; 111]
               [[101; 120; 97; 109; 112; 108; 101]; [99; 111; 109]]
               addr_10_0_0_1 _))))).
  repeat constructor; by_compute.
Defined.

(** ** dnsd_main hands well-formed buffers to process_packet *)

Lemma wf_buf_intro buf r :
  length buf = BUF_SIZE -> Forall is_byte buf ->
  (12 <= r <= MAX_PACK_LEN)%nat -> nth r buf 1 = 0 ->
  wf_buf buf.
Proof.
  intros Hl Hb Hr Hz. unfold wf_buf, wf_bufb. rewrite !andb_true_iff.
  split; [split|].
  - apply Nat.eqb_eq. assumption.
  - apply forallb_forall. intros x Hx. apply is_byteb_spec.
    rewrite Forall_forall in Hb. auto.
  - apply existsb_exists. exists r. split.
    + apply in_seq. unfold sizeof_dns_head, MAX_PACK_LEN in *. lia.
    + apply Z.eqb_eq. assumption.
Qed.

Lemma received_buffer_wf buf datagram :
  length buf = BUF_SIZE -> Forall is_byte buf -> Forall is_byte datagram ->
  (12 <= length datagram <= MAX_PACK_LEN)%nat ->
  exists buf1 buf2,
    store buf 0 (firstn (MAX_PACK_LEN + 1) datagram) = Ok buf1
    /\ store buf1 (length datagram) [0] = Ok buf2
    /\ wf_buf buf2
    /\ firstn (length datagram) buf2 = datagram.
Proof.
  intros Hl Hb Hd Hr.
  assert (HB : BUF_SIZE = 1061%nat) by reflexivity.
  assert (HM : MAX_PACK_LEN = 512%nat) by reflexivity.
  rewrite firstn_all2 by lia.
  rewrite store_0 by lia.
  set (tl := skipn (length datagram) buf).
  assert (Htl : length tl = (1061 - length datagram)%nat)
    by (unfold tl; rewrite length_skipn; lia).
  destruct tl as [|c tl'] eqn:Etl; [cbn [length] in Htl; lia|].
  exists (datagram ++ c :: tl'), (datagram ++ 0 :: tl').
  split; [reflexivity|]. split.
  - apply (store_at _ datagram [c] tl'); reflexivity.
  - split.
    + apply (wf_buf_intro _ (length datagram)).
      * rewrite length_app. cbn [length] in *. lia.
      * apply Forall_app. split; [assumption|].
        constructor; [unfold is_byte; lia|].
        assert (Ht : Forall is_byte (c :: tl')).
        { rewrite <- Etl. unfold tl.
          rewrite <- (firstn_skipn (length datagram) buf) in Hb.
          apply Forall_app in Hb. apply Hb. }
        inversion Ht. assumption.
      * assumption.
      * rewrite app_nth2, Nat.sub_diag by lia. reflexivity.
    + rewrite firstn_app, Nat.sub_diag, firstn_all. cbn [firstn].
      apply app_nil_r.
Qed.

Lemma dnsd_step_process sizeof_ptr conf_data conf_ttl buf datagram :
  length buf = BUF_SIZE -> Forall is_byte buf -> Forall is_byte datagram ->
  (12 <= length datagram <= MAX_PACK_LEN)%nat ->
  exists buf2,
    wf_buf buf2
    /\ firstn (length datagram) buf2 = datagram
    /\ dnsd_step sizeof_ptr conf_data conf_ttl buf datagram
       = (p <- process_packet sizeof_ptr conf_data conf_ttl buf2 ;;
          if snd p <=? 0 then Ok (fst p, None)
          else Ok (fst p, Some (reply_bytes p))).
Proof.
  intros Hl Hb Hd Hr.
  destruct (received_buffer_wf buf datagram Hl Hb Hd Hr)
    as (buf1 & buf2 & H1 & H2 & Hwf & Hf).
  exists buf2. split; [assumption|]. split; [assumption|].
  unfold dnsd_step. rewrite H1. cbn [bind].
  assert (HM : MAX_PACK_LEN = 512%nat) by reflexivity.
  rewrite firstn_all2 by lia.
  destruct (Nat.ltb_spec (length datagram) 12) as [|_]; [lia|].
  destruct (Nat.ltb_spec MAX_PACK_LEN (length datagram)) as [|_]; [lia|].
  cbn [orb]. rewrite H2. reflexivity.
Qed.

(** * Further properties *)

(** ** undot *)

Lemma undot_aux_pointwise s :
  Forall2 (fun c c' => (c <> 46 -> c' = c) /\ (c = 46 -> is_byte c'))
    s (fst (undot_aux s)).
Proof.
  induction s as [|c s IH]; cbn [undot_aux]; [constructor|].
  destruct (undot_aux s) as [tl' k]. cbn [fst] in IH.
  destruct (Z.eqb_spec c 46) as [->|Hc]; cbn [fst]; constructor;
    try assumption.
  - split; [intros H; contradiction|]. intros _. unfold is_byte.
    apply Z.mod_pos_bound. reflexivity.
  - split; [reflexivity|contradiction].
Qed.

Lemma undot_length s : length (undot s) = length s.
Proof.
  pose proof (undot_aux_pointwise s) as H. fold (undot s) in H.
  symmetry. apply (Forall2_length H).
Qed.

Lemma undot_bytes s : Forall is_byte s -> Forall is_byte (undot s).
Proof.
  pose proof (undot_aux_pointwise s) as H. fold (undot s) in H.
  intros Hb. induction H as [|c c' s s' [H1 H2] _ IH]; [constructor|].
  inversion Hb as [|? ? Hc Hs]; subst. constructor; [|auto].
  destruct (Z.eq_dec c 46) as [He|Hne]; [auto|].
  rewrite (H1 Hne). assumption.
Qed.

(** X1.  undot works in place: the string keeps its length, every character
    that is not a dot stays where it was, and bytes stay bytes. *)
Theorem undot_in_place s :
  length (undot s) = length s
  /\ Forall2 (fun c c' => c <> 46 -> c' = c) s (undot s)
  /\ (Forall is_byte s -> Forall is_byte (undot s)).
Proof.
  split; [apply undot_length|]. split; [|apply undot_bytes].
  pose proof (undot_aux_pointwise s) as H. fold (undot s) in H.
  revert H. apply Forall2_impl. tauto.
Qed.

Lemma undot_app_labels l0 ls :
  Forall (fun c => c <> 46) l0 ->
  Forall (Forall (fun c => c <> 46)) ls ->
  undot (l0 ++ concat (map (cons 46) ls))
  = l0 ++ concat (map (fun l => Z.of_nat (length l) mod 256 :: l) ls).
Proof.
  intros H0 Hs. unfold undot.
  rewrite (undot_aux_label l0 _ _ _ H0 (undot_aux_labels ls Hs)).
  reflexivity.
Qed.

(** X2.  On a string cut by dots into segments, undot writes before every
    segment that follows a dot its number of characters modulo 256, in the
    place of the dot; the characters before the first dot get no length
    octet. *)
Theorem undot_segments l0 ls :
  Forall (fun c => c <> 46) l0 ->
  Forall (Forall (fun c => c <> 46)) ls ->
  undot (l0 ++ concat (map (cons 46) ls))
  = l0 ++ concat (map (fun l => Z.of_nat (length l) mod 256 :: l) ls).
Proof. apply undot_app_labels. Qed.

Lemma undot_segments_witness :
  undot ([102; 111; 111] ++ concat (map (cons 46) [[99; 111; 109]; []]))
  = [102; 111; 111] ++ [3; 99; 111; 109; 0].
Proof.
  refine (undot_segments [102; 111; 111] [[99; 111; 109]; []] _ _);
    repeat constructor; discriminate.
Defined.

(** ** The reversed address of an entry *)

Lemma octet_cases (P : Z -> bool) :
  forallb P (map Z.of_nat (seq 0 256)) = true ->
  forall o, 0 <= o < 256 -> P o = true.
Proof.
  intros H o Ho. rewrite forallb_forall in H. apply H.
  rewrite <- (Z2Nat.id o) by lia. apply in_map. apply in_seq. lia.
Qed.

Lemma utoa_octet o :
  0 <= o < 256 ->
  (1 <= length (utoa o) <= 3)%nat
  /\ Forall (fun c => 48 <= c <= 57) (utoa o)
  /\ atou (utoa o) = o.
Proof.
  intros Ho.
  pose proof (octet_cases
    (fun o => (1 <=? length (utoa o))%nat && (length (utoa o) <=? 3)%nat
              && forallb (fun c => (48 <=? c) && (c <=? 57)) (utoa o)
              && (atou (utoa o) =? o))
    ltac:(vm_compute; reflexivity) o Ho) as H.
  cbv beta in H. rewrite !andb_true_iff in H.
  destruct H as [[[H1 H2] H3] H4].
  apply Nat.leb_le in H1. apply Nat.leb_le in H2. apply Z.eqb_eq in H4.
  split; [lia|]. split; [|assumption].
  apply Forall_forall. intros c Hc. rewrite forallb_forall in H3.
  specialize (H3 c Hc). apply andb_true_iff in H3. lia.
Qed.

Lemma ntohl_octets s_addr :
  0 <= s_addr < 4294967296 ->
  let v32 := ntohl s_addr in
  [v32 mod 256; (v32 / 256) mod 256; (v32 / 65536) mod 256; v32 / 16777216]
  = rev (le32 s_addr).
Proof.
  intros Hs v32. unfold v32, ntohl, htonl, le32. cbn [rev app].
  f_equal; [|f_equal; [|f_equal; [|f_equal]]]; Z.div_mod_to_equations; lia.
Qed.

Lemma le32_bytes v : Forall is_byte (le32 v).
Proof.
  unfold le32, is_byte. repeat constructor; Z.div_mod_to_equations; lia.
Qed.

Lemma decimal_labels_length os :
  Forall (fun o => 0 <= o < 256) os ->
  (2 * length os <= length (concat (map label (map utoa os)))
   <= 4 * length os)%nat.
Proof.
  induction 1 as [|o os Ho _ IH]; cbn [map concat length]; [lia|].
  destruct (utoa_octet o Ho) as (Hl & _).
  rewrite length_app.
  change (length (label (utoa o))) with (S (length (utoa o))). lia.
Qed.

Lemma rip_labels token0 s_addr :
  0 <= s_addr < 4294967296 ->
  let octets := rev (le32 s_addr) in
  rip (conf_entry token0 s_addr) = concat (map label (map utoa octets))
  /\ map atou (map utoa octets) = octets
  /\ (8 <= length (rip (conf_entry token0 s_addr)) < IP_STRING_LEN)%nat
  /\ Forall (fun c => c <> 0) (rip (conf_entry token0 s_addr)).
Proof.
  intros Hs octets.
  assert (Ho : Forall (fun o => 0 <= o < 256) octets).
  { unfold octets. apply Forall_rev. apply le32_bytes. }
  assert (Hr : rip (conf_entry token0 s_addr)
               = concat (map label (map utoa octets))).
  { cbn [rip conf_entry].
    pose proof (ntohl_octets s_addr Hs) as Hn. cbv zeta in Hn.
    fold octets in Hn.
    destruct octets as [|o3 [|o2 [|o1 [|o0 [|]]]]]; try discriminate Hn.
    injection Hn as -> -> -> ->.
    inversion Ho as [|? ? H3 Ho']; subst.
    inversion Ho' as [|? ? H2 Ho'']; subst.
    inversion Ho'' as [|? ? H1 Ho''']; subst.
    inversion Ho''' as [|? ? H0 _]; subst.
    replace ([46] ++ utoa o3 ++ [46] ++ utoa o2 ++ [46] ++ utoa o1
             ++ [46] ++ utoa o0)
      with ([] ++ concat (map (cons 46)
                            [utoa o3; utoa o2; utoa o1; utoa o0]))
      by (cbn [app map concat]; rewrite app_nil_r; reflexivity).
    destruct (utoa_octet _ H3) as (L3 & D3 & _).
    destruct (utoa_octet _ H2) as (L2 & D2 & _).
    destruct (utoa_octet _ H1) as (L1 & D1 & _).
    destruct (utoa_octet _ H0) as (L0 & D0 & _).
    assert (Hd : forall l, Forall (fun c => 48 <= c <= 57) l ->
                           Forall (fun c => c <> 46) l)
      by (intros l; apply Forall_impl; intros; lia).
    rewrite undot_app_labels by (repeat constructor; auto).
    cbn [app map concat label].
    rewrite !Z.mod_small by lia. rewrite !app_nil_r. reflexivity. }
  split; [exact Hr|]. split; [|split].
  - clear Hr. induction Ho as [|o os Ho _ IH]; [reflexivity|].
    cbn [map]. rewrite IH. f_equal. apply utoa_octet. assumption.
  - rewrite Hr. pose proof (decimal_labels_length octets Ho) as Hl.
    assert (H4 : length octets = 4%nat) by reflexivity.
    unfold IP_STRING_LEN. lia.
  - rewrite Hr. clear Hr.
    induction Ho as [|o os Ho _ IH]; cbn [map concat]; [constructor|].
    destruct (utoa_octet o Ho) as (Hl & Hd & _).
    apply Forall_app. split; [|assumption]. unfold label.
    constructor; [lia|]. revert Hd. apply Forall_impl. intros; lia.
Qed.

(** X3.  For every address, the field rip of the entry parse_conf_file
    builds is the four octets of the address taken from the last to the
    first, each written in decimal after its number of digits; the digits
    of each label denote the octet; rip holds between 8 and 16 characters,
    so that with its NUL it fits the array rip[IP_STRING_LEN], and none of
    them is a NUL. *)
Theorem rip_of_address token0 s_addr :
  0 <= s_addr < 4294967296 ->
  let octets := rev (le32 s_addr) in
  rip (conf_entry token0 s_addr) = concat (map label (map utoa octets))
  /\ map atou (map utoa octets) = octets
  /\ (8 <= length (rip (conf_entry token0 s_addr)) < IP_STRING_LEN)%nat
  /\ Forall (fun c => c <> 0) (rip (conf_entry token0 s_addr)).
Proof. apply rip_labels. Qed.

Lemma rip_of_address_witness :
  rip (conf_entry foo_example_com addr_10_0_0_1)
  = [1; 49; 1; 48; 1; 48; 2; 49; 48].
Proof.
  refine (proj1 (rip_of_address foo_example_com addr_10_0_0_1 _)).
  unfold addr_10_0_0_1. lia.
Defined.

(** X4.  Reverse round trip: an entry that is not a wildcard entry answers,
    with its encoded name and a NUL, every reverse query whose name starts
    with the entry's own reversed address, whatever follows it: that the
    name goes on with in-addr.arpa is assumed, not checked. *)
Theorem reverse_round_trip token0 s_addr suffix :
  0 <= s_addr < 4294967296 ->
  let e := conf_entry token0 s_addr in
  is_wildcard e = false ->
  rev_match e (rip e ++ suffix) = true
  /\ table_lookup [e] (htons REQ_PTR) (rip e ++ suffix)
     = Some (cstr (name e) ++ [0]).
Proof.
  intros Hs e Hw.
  destruct (rip_labels token0 s_addr Hs) as (_ & _ & _ & Hnz).
  fold e in Hnz.
  assert (Hm : rev_match e (rip e ++ suffix) = true).
  { apply rev_match_prefix; [assumption|].
    unfold is_prefix. rewrite (cstr_id _ Hnz).
    rewrite firstn_app, Nat.sub_diag, firstn_all. cbn [firstn].
    apply app_nil_r. }
  split; [assumption|]. rewrite table_lookup_PTR, Hm. reflexivity.
Qed.

Lemma reverse_round_trip_witness :
  table_lookup [conf_entry foo_example_com addr_10_0_0_1] (htons REQ_PTR)
    qn_ptr
  = Some (qn_foo ++ [0]).
Proof.
  refine (proj2 (reverse_round_trip foo_example_com addr_10_0_0_1
                   [7; 105; 110; 45; 97; 100; 100; 114; 4; 97; 114; 112; 97]
                   _ _)).
  - unfold addr_10_0_0_1. lia.
  - by_compute.
Defined.

(** ** table_lookup read as a search *)

(** X5.  table_lookup returns -1 exactly when no entry of the table matches
    the query, for a forward and for a reverse query alike; in particular
    on the empty table. *)
Theorem lookup_miss d qs :
  (table_lookup d (htons REQ_A) qs = None
   <-> forall e, In e d -> fwd_match e qs = false)
  /\ (table_lookup d (htons REQ_PTR) qs = None
      <-> forall e, In e d -> rev_match e qs = false).
Proof.
  split; (split; [|apply table_lookup_A_none || apply table_lookup_PTR_none]).
  - induction d as [|x d IH]; intros H e He; [destruct He|].
    rewrite table_lookup_A in H.
    destruct (fwd_match x qs) eqn:Hx; [discriminate|].
    destruct He as [<-|He]; [assumption|]. apply IH; assumption.
  - induction d as [|x d IH]; intros H e He; [destruct He|].
    rewrite table_lookup_PTR in H.
    destruct (rev_match x qs) eqn:Hx; [discriminate|].
    destruct He as [<-|He]; [assumption|]. apply IH; assumption.
Qed.

(** X6.  What table_lookup writes is the data of the first entry that
    matches: when it returns 0 the table splits at an entry that matches the
    query, no entry before it matches, and the bytes written are the four
    bytes of that entry's address for a forward query, that entry's name and
    a NUL for a reverse query. *)
Theorem lookup_hit d qs w :
  (table_lookup d (htons REQ_A) qs = Some w ->
   exists l1 e l2,
     d = l1 ++ e :: l2
     /\ (forall x, In x l1 -> fwd_match x qs = false)
     /\ fwd_match e qs = true /\ w = le32 (ip e))
  /\ (table_lookup d (htons REQ_PTR) qs = Some w ->
      exists l1 e l2,
        d = l1 ++ e :: l2
        /\ (forall x, In x l1 -> rev_match x qs = false)
        /\ rev_match e qs = true /\ w = cstr (name e) ++ [0]).
Proof.
  split.
  - induction d as [|x d IH]; [discriminate|].
    rewrite table_lookup_A. destruct (fwd_match x qs) eqn:Hx.
    + intros [= <-]. exists [], x, d. repeat split; auto. intros y [].
    + intros H. destruct (IH H) as (l1 & e & l2 & -> & H1 & He & Hw).
      exists (x :: l1), e, l2. repeat split; auto.
      intros y [<-|Hy]; auto.
  - induction d as [|x d IH]; [discriminate|].
    rewrite table_lookup_PTR. destruct (rev_match x qs) eqn:Hx.
    + intros [= <-]. exists [], x, d. repeat split; auto. intros y [].
    + intros H. destruct (IH H) as (l1 & e & l2 & -> & H1 & He & Hw).
      exists (x :: l1), e, l2. repeat split; auto.
      intros y [<-|Hy]; auto.
Qed.

Lemma lookup_hit_witness :
  exists l1 e l2,
    table_bar_foo = l1 ++ e :: l2
    /\ (forall x, In x l1 -> fwd_match x qn_foo = false)
    /\ fwd_match e qn_foo = true /\ [10; 0; 0; 1] = le32 (ip e).
Proof.
  refine (proj1 (lookup_hit table_bar_foo qn_foo [10; 0; 0; 1]) _).
  by_compute.
Defined.

Lemma fwd_match_ci_compat e qs qs' :
  Forall (fun c => c <> 0) qs -> Forall (fun c => c <> 0) qs' ->
  ci_equal qs qs' -> fwd_match e qs = fwd_match e qs'.
Proof.
  intros H H' Hc. unfold fwd_match. f_equal.
  pose proof (strcasecmp_ci (cstr (name e)) qs (cstr_nonzero _) H) as I.
  pose proof (strcasecmp_ci (cstr (name e)) qs' (cstr_nonzero _) H') as I'.
  unfold ci_equal in *.
  destruct (Z.eqb_spec (strcasecmp (cstr (name e)) qs) 0) as [E|E];
    destruct (Z.eqb_spec (strcasecmp (cstr (name e)) qs') 0) as [E'|E'];
    try reflexivity; exfalso.
  - apply E', I'. rewrite <- Hc. apply I. assumption.
  - apply E, I. rewrite Hc. apply I'. assumption.
Qed.

(** X7.  A forward lookup does not see the case of letters in the query:
    two query names that are equal up to the case of the letters A-Z get
    the same result from table_lookup, on every table. *)
Theorem forward_lookup_ignores_case d qs qs' :
  Forall (fun c => c <> 0) qs -> Forall (fun c => c <> 0) qs' ->
  ci_equal qs qs' ->
  table_lookup d (htons REQ_A) qs = table_lookup d (htons REQ_A) qs'.
Proof.
  intros H H' Hc. induction d as [|e d IH]; [reflexivity|].
  rewrite !table_lookup_A, IH, (fwd_match_ci_compat e qs qs' H H' Hc).
  reflexivity.
Qed.

Lemma forward_lookup_ignores_case_witness :
  table_lookup table1 (htons REQ_A)
    [3; 70; 79; 79; 7; 69; 120; 97; 109; 112; 108; 101; 3; 67; 79; 77]
  = Some [10; 0; 0; 1].
Proof.
  rewrite <- (forward_lookup_ignores_case table1 qn_foo
                [3; 70; 79; 79; 7; 69; 120; 97; 109; 112; 108; 101;
                 3; 67; 79; 77]).
  - by_compute.
  - repeat constructor; discriminate.
  - repeat constructor; discriminate.
  - by_compute.
Defined.

(** X8.  A host name of the configuration file that begins with "*." makes
    a wildcard entry just as the name "*" does: whatever follows the first
    label, the entry answers every forward query that reaches it with its
    address. *)
Theorem star_dot_name_is_wildcard rest s_addr d qs :
  let e := conf_entry (42 :: 46 :: rest) s_addr in
  is_wildcard e = true
  /\ table_lookup (e :: d) (htons REQ_A) qs = Some (le32 s_addr).
Proof.
  intros e.
  assert (Hw : is_wildcard e = true).
  { unfold e, is_wildcard, name_at. cbn [name conf_entry cstr Z.eqb].
    unfold undot. cbn [undot_aux].
    destruct (undot_aux (cstr rest)) as [tl' k].
    destruct (46 =? 46) eqn:E; [|discriminate E].
    cbn [Z.eqb Pos.eqb fst nth]. reflexivity. }
  split; [assumption|].
  rewrite table_lookup_A, (fwd_match_wildcard e qs Hw). reflexivity.
Qed.

(** ** Tables read from a configuration file *)

Section ParseConfMore.

Variable inet_aton : list Z -> option Z.

Lemma parse_conf_file_In lines e :
  In e (parse_conf_file inet_aton lines)
  <-> exists t0 t1 s_addr,
        In (t0, t1) lines /\ inet_aton t1 = Some s_addr
        /\ e = conf_entry t0 s_addr.
Proof.
  revert e. induction lines as [|[t0 t1] lines IH]; intros e.
  - split; [intros []|intros (? & ? & ? & [] & _)].
  - cbn [parse_conf_file]. destruct (inet_aton t1) as [a|] eqn:Ea.
    + split.
      * intros [<-|He].
        -- exists t0, t1, a. split; [left; reflexivity|auto].
        -- apply IH in He. destruct He as (u0 & u1 & b & Hin & Hb & ->).
           exists u0, u1, b. split; [right; assumption|auto].
      * intros (u0 & u1 & b & [Heq|Hin] & Hb & ->).
        -- injection Heq as <- <-. rewrite Ea in Hb.
           injection Hb as <-. left. reflexivity.
        -- right. apply IH. exists u0, u1, b. auto.
    + rewrite IH. split.
      * intros (u0 & u1 & b & Hin & Hb & ->).
        exists u0, u1, b. split; [right; assumption|auto].
      * intros (u0 & u1 & b & [Heq|Hin] & Hb & ->).
        -- injection Heq as <- <-. congruence.
        -- exists u0, u1, b. auto.
Qed.

(** X9.  A line whose address inet_aton rejects is skipped and nothing
    else: the table is the same as if the line were not in the file, and the
    entries of the table are exactly the entries of the accepted lines. *)
Theorem bad_line_skipped ls1 token0 token1 ls2 :
  inet_aton token1 = None ->
  parse_conf_file inet_aton (ls1 ++ (token0, token1) :: ls2)
  = parse_conf_file inet_aton (ls1 ++ ls2)
  /\ forall lines e,
       In e (parse_conf_file inet_aton lines)
       <-> exists t0 t1 s_addr,
             In (t0, t1) lines /\ inet_aton t1 = Some s_addr
             /\ e = conf_entry t0 s_addr.
Proof.
  intros Hbad. split.
  - rewrite !parse_conf_file_app, (parse_conf_file_skip _ _ _ _ Hbad).
    reflexivity.
  - intros lines e. apply parse_conf_file_In.
Qed.

(** X10.  When every host name of the file has at most 29 characters, every
    name of the table fits the array answstr of process_packet with its
    NUL; and when the host names are made of bytes, so are the names of
    the table. *)
Theorem short_names_fit lines :
  (forall t0 t1, In (t0, t1) lines -> (length (cstr t0) <= 29)%nat) ->
  names_fit (parse_conf_file inet_aton lines)
  /\ ((forall t0 t1, In (t0, t1) lines -> Forall is_byte t0) ->
      table_bytes (parse_conf_file inet_aton lines)).
Proof.
  intros Hshort. split.
  - unfold names_fit, names_fitb. apply forallb_forall. intros e He.
    apply parse_conf_file_In in He.
    destruct He as (t0 & t1 & a & Hin & _ & ->).
    apply Nat.leb_le. cbn [name conf_entry].
    pose proof (cstr_length (undot (46 :: cstr t0))) as H1.
    pose proof (undot_length (46 :: cstr t0)) as H2.
    specialize (Hshort t0 t1 Hin).
    change MAX_NAME_LEN with 30%nat. cbn [length] in H2. lia.
  - intros Hb. unfold table_bytes. apply Forall_forall. intros e He.
    apply parse_conf_file_In in He.
    destruct He as (t0 & t1 & a & Hin & _ & ->).
    cbn [name conf_entry]. apply undot_bytes.
    constructor; [unfold is_byte; lia|].
    specialize (Hb t0 t1 Hin). clear - Hb.
    induction Hb as [|c l Hc _ IH]; cbn [cstr]; [constructor|].
    destruct (c =? 0); constructor; assumption.
Qed.

End ParseConfMore.

Lemma bad_line_skipped_witness :
  parse_conf_file inet_aton_example
    ([(foo_example_com, [49])] ++ (bar_example_com, []) :: [(star, [50])])
  = parse_conf_file inet_aton_example
      ([(foo_example_com, [49])] ++ [(star, [50])]).
Proof.
  refine (proj1 (bad_line_skipped inet_aton_example [(foo_example_com, [49])]
                   bar_example_com [] [(star, [50])] _)).
  reflexivity.
Defined.

Lemma short_names_fit_witness :
  names_fit (parse_conf_file inet_aton_example
               [(foo_example_com, [49]); (bar_example_com, [50])]).
Proof.
  refine (proj1 (short_names_fit inet_aton_example
                   [(foo_example_com, [49]); (bar_example_com, [50])] _)).
  intros t0 t1 [H|[H|[]]]; injection H as <- _; apply Nat.leb_le;
    vm_compute; reflexivity.
Defined.

(** ** What process_packet does to the buffer *)

Lemma Forall_split_at (P : Z -> Prop) n l :
  Forall P l -> Forall P (firstn n l) /\ Forall P (skipn n l).
Proof.
  intros H. rewrite <- (firstn_skipn n l) in H. apply Forall_app in H.
  exact H.
Qed.

Lemma store_inv m i bs m' :
  store m i bs = Ok m' ->
  length m' = length m
  /\ (Forall is_byte m -> Forall is_byte bs -> Forall is_byte m').
Proof.
  unfold store.
  destruct (Nat.leb_spec (i + length bs) (length m)) as [Hle|]; [|discriminate].
  intros [= <-]. split.
  - rewrite !length_app, length_firstn, length_skipn. lia.
  - intros Hm Hb. apply Forall_app.
    split; [apply (Forall_split_at _ i m Hm)|].
    apply Forall_app.
    split; [assumption|apply (Forall_split_at _ (i + length bs) m Hm)].
Qed.

Lemma load_bytes_inv m i n bs :
  load_bytes m i n = Ok bs -> Forall is_byte m -> Forall is_byte bs.
Proof.
  unfold load_bytes. destruct (_ <=? _)%nat; [|discriminate].
  intros [= <-] Hm. apply Forall_split_at. apply (Forall_split_at _ i m Hm).
Qed.

Lemma le16_bytes v : Forall is_byte (le16 v).
Proof.
  unfold le16, is_byte. repeat constructor; Z.div_mod_to_equations; lia.
Qed.

Lemma cstr_bytes l : Forall is_byte l -> Forall is_byte (cstr l).
Proof.
  induction 1 as [|c l Hc _ IH]; cbn [cstr]; [constructor|].
  destruct (c =? 0); constructor; assumption.
Qed.

Lemma table_lookup_bytes d ty qs w :
  table_bytes d -> table_lookup d ty qs = Some w -> Forall is_byte w.
Proof.
  intros Hd Hl. destruct (table_lookup_written _ _ _ _ Hl) as (e & He & ->).
  destruct (ty =? htons REQ_A); [apply le32_bytes|].
  apply Forall_app. split.
  - apply cstr_bytes. unfold table_bytes in Hd. rewrite Forall_forall in Hd.
    auto.
  - constructor; [unfold is_byte; lia|constructor].
Qed.

Lemma same_shape_refl m : same_shape m m.
Proof. split; auto. Qed.

Lemma same_shape_trans m1 m2 m3 :
  same_shape m1 m2 -> same_shape m2 m3 -> same_shape m1 m3.
Proof. intros [L1 B1] [L2 B2]. split; [congruence|auto]. Qed.

Lemma store_shape m i bs m' :
  Forall is_byte bs -> store m i bs = Ok m' -> same_shape m m'.
Proof.
  intros Hb H. destruct (store_inv _ _ _ _ H) as [L B]. split; auto.
Qed.

Lemma empty_packet_shape buf f a buf' n :
  empty_packet buf f a = Ok (buf', n) -> same_shape buf buf'.
Proof.
  unfold empty_packet, store16. intros H.
  destruct (load16 buf 2) as [fl|]; [cbn [bind] in H|discriminate].
  destruct (store buf 2 _) as [b1|] eqn:E1; [cbn [bind] in H|discriminate].
  destruct (store b1 10 _) as [b2|] eqn:E2; [cbn [bind] in H|discriminate].
  destruct (store b2 8 _) as [b3|] eqn:E3; [cbn [bind] in H|discriminate].
  destruct (store b3 4 _) as [b4|] eqn:E4; [cbn [bind] in H|discriminate].
  injection H as <- _.
  apply (store_shape _ _ _ _ (le16_bytes _)) in E1, E2, E3, E4.
  eauto using same_shape_trans.
Qed.

Lemma process_packet_shape sizeof_ptr conf_data conf_ttl buf buf' n :
  table_bytes conf_data ->
  process_packet sizeof_ptr conf_data conf_ttl buf = Ok (buf', n) ->
  same_shape buf buf'.
Proof.
  intros Hd. unfold process_packet, move_from_unaligned16,
    move_to_unaligned32, store16.
  intros H.
  destruct (load16 buf 4) as [nq|]; [cbn [bind] in H|discriminate].
  destruct (nq =? 0); [injection H as <- _; apply same_shape_refl|].
  destruct (load16 buf 2) as [fl|]; [cbn [bind] in H|discriminate].
  destruct (negb _); [injection H as <- _; apply same_shape_refl|].
  destruct (strlen buf sizeof_dns_head) as [k|]; [cbn [bind] in H|discriminate].
  destruct (load16 buf _) as [ty|]; [cbn [bind] in H|discriminate].
  destruct (_ && _); [apply (empty_packet_shape _ _ _ _ _ H)|].
  destruct (load16 buf _) as [cl|]; [cbn [bind] in H|discriminate].
  destruct (negb _); [apply (empty_packet_shape _ _ _ _ _ H)|].
  destruct (negb _); [apply (empty_packet_shape _ _ _ _ _ H)|].
  destruct (load_bytes buf sizeof_dns_head k) as [qs|];
    [cbn [bind] in H|discriminate].
  destruct (table_lookup conf_data ty qs) as [w|] eqn:El;
    [|apply (empty_packet_shape _ _ _ _ _ H)].
  pose proof (table_lookup_bytes _ _ _ _ Hd El) as Hw.
  destruct (store (0 :: repeat 0 MAX_NAME_LEN) 0 w) as [answstr|] eqn:Ea;
    [cbn [bind] in H|discriminate].
  assert (Has : Forall is_byte answstr).
  { apply (store_inv _ _ _ _ Ea); [|assumption].
    constructor; [unfold is_byte; lia|].
    apply Forall_forall. intros x Hx. apply repeat_spec in Hx. subst.
    unfold is_byte. lia. }
  destruct (if ty =? htons REQ_PTR then _ else _) as [rl|];
    [cbn [bind] in H|discriminate].
  destruct (store buf 6 _) as [b1|] eqn:E1; [cbn [bind] in H|discriminate].
  apply (store_shape _ _ _ _ (le16_bytes _)) in E1.
  destruct (load_bytes b1 _ _) as [q|] eqn:Eq; [cbn [bind] in H|discriminate].
  destruct (store b1 _ q) as [b2|] eqn:E2; [cbn [bind] in H|discriminate].
  destruct (store b2 _ (le32 _)) as [b3|] eqn:E3;
    [cbn [bind] in H|discriminate].
  destruct (store b3 _ (le32 _)) as [b4|] eqn:E4;
    [cbn [bind] in H|discriminate].
  destruct (load_bytes answstr 0 _) as [r|] eqn:Er;
    [cbn [bind] in H|discriminate].
  destruct (store b4 _ r) as [b5|] eqn:E5; [cbn [bind] in H|discriminate].
  apply (store_shape _ _ _ _ (le32_bytes _)) in E3, E4.
  apply (store_shape _ _ _ _ (load_bytes_inv _ _ _ _ Er Has)) in E5.
  apply empty_packet_shape in H.
  assert (S2 : same_shape b1 b2).
  { destruct (store_inv _ _ _ _ E2) as [L B]. split; [assumption|].
    intros Hb. apply B; [assumption|].
    apply (load_bytes_inv _ _ _ _ Eq Hb). }
  eauto 10 using same_shape_trans.
Qed.

Lemma table_bytes_forallb d :
  forallb (fun e => forallb is_byteb (name e)) d = true -> table_bytes d.
Proof.
  intros H. rewrite forallb_forall in H. apply Forall_forall. intros e He.
  specialize (H e He). rewrite forallb_forall in H. apply Forall_forall.
  intros c Hc. apply is_byteb_spec. auto.
Qed.

Lemma question_length buf :
  wf_buf buf ->
  length (question buf) = (qlen buf + 5)%nat /\ (qlen buf <= 500)%nat.
Proof.
  intros Hwf.
  destruct (wf_buf_layout buf Hwf) as (h & Q & ty & cl & R & -> & Hok).
  pose proof Hok as (Hh & HQ & Hty & Hcl & _).
  destruct (layout_ok_lengths _ _ _ _ _ Hok) as (HlQ & _).
  rewrite question_layout, qlen_layout by assumption.
  rewrite length_app. unfold be16. cbn [length app]. lia.
Qed.

(** X12.  On a target where a pointer has the 4 bytes of struct dns_prop,
    the value process_packet returns on a buffer of dnsd_main is -1 or a
    length between 17 and 1059, two bytes less than the size of the buffer:
    send_to_from is never asked for bytes beyond the array, though a reply
    may be longer than the MAX_PACK_LEN bytes of a datagram. *)
Theorem reply_length_bound sizeof_ptr conf_data conf_ttl buf buf' n :
  sizeof_ptr = sizeof_dns_prop ->
  wf_buf buf -> 0 <= conf_ttl < 4294967296 ->
  process_packet sizeof_ptr conf_data conf_ttl buf = Ok (buf', n) ->
  n = -1 \/ 17 <= n <= Z.of_nat BUF_SIZE - 2.
Proof.
  intros -> Hwf Httl Hp.
  destruct (Z.eq_dec (nquer (head_of buf)) 0) as [Hz|Hnq].
  { left. rewrite (pp_ignored _ conf_data conf_ttl buf Hwf (or_introl Hz)) in Hp.
    injection Hp as _ <-. reflexivity. }
  destruct (QR (flags (head_of buf))) eqn:Hq.
  { left. rewrite (pp_ignored _ conf_data conf_ttl buf Hwf (or_intror Hq)) in Hp.
    injection Hp as _ <-. reflexivity. }
  right.
  destruct (pp_ok_inv conf_data conf_ttl buf Hwf Httl (conj Hnq Hq) _ _ Hp)
    as (_ & -> & _).
  destruct (question_length buf Hwf) as (Hql & Hq500).
  unfold reply_body. rewrite length_app, Hql.
  change BUF_SIZE with 1061%nat. unfold sizeof_dns_head.
  destruct (supportedb buf) eqn:Es; [|cbn [length]; lia].
  destruct (lookup conf_data buf) as [rdata|] eqn:El; [|cbn [length]; lia].
  destruct (le_lt_dec (length rdata) (MAX_NAME_LEN + 1)) as [Hle|Hgt].
  - unfold answer_record, be32, be16.
    repeat (first [rewrite length_app | progress cbn [length]]).
    rewrite Hql. change (MAX_NAME_LEN + 1)%nat with 31%nat in Hle. lia.
  - exfalso.
    rewrite (pp_overrun _ conf_data conf_ttl buf Hwf rdata) in Hp;
      [discriminate| |exact El|exact Hgt].
    split; [split; assumption|apply supportedb_spec; assumption].
Qed.

Lemma reply_length_bound_witness :
  exists buf' n,
    process_packet 4 table1 DEFAULT_TTL query_foo_A = Ok (buf', n)
    /\ (n = -1 \/ 17 <= n <= Z.of_nat BUF_SIZE - 2).
Proof.
  destruct (process_packet 4 table1 DEFAULT_TTL query_foo_A) as [[buf' n]|]
    eqn:H; [|vm_compute in H; discriminate H].
  exists buf', n. split; [reflexivity|].
  refine (reply_length_bound 4 table1 DEFAULT_TTL query_foo_A buf' n
            _ _ _ H);
    by_compute.
Defined.

(** X13.  The strcpy of table_lookup is not bounded: when the first entry
    that matches a valid reverse query has an encoded name of more than
    MAX_NAME_LEN characters, the copy runs past the end of answstr and
    process_packet has no defined result, whatever the size of a pointer. *)
Theorem long_name_overruns_answstr sizeof_ptr conf_data conf_ttl buf l1 e l2 :
  wf_buf buf -> valid_query buf -> qtype buf = REQ_PTR ->
  conf_data = l1 ++ e :: l2 ->
  (forall x, In x l1 -> rev_match x (qname buf) = false) ->
  rev_match e (qname buf) = true ->
  (MAX_NAME_LEN < length (cstr (name e)))%nat ->
  process_packet sizeof_ptr conf_data conf_ttl buf = Fault.
Proof.
  intros Hwf Hv Hty -> H1 He Hlong.
  apply (pp_overrun sizeof_ptr _ conf_ttl buf Hwf (cstr (name e) ++ [0]) Hv).
  - rewrite Hty. apply table_lookup_PTR_first; assumption.
  - rewrite length_app. cbn [length]. lia.
Qed.

Lemma long_name_overruns_answstr_witness :
  process_packet 4 table_long_name DEFAULT_TTL query_ptr = Fault.
Proof.
  refine (long_name_overruns_answstr 4 table_long_name DEFAULT_TTL query_ptr
            [] (conf_entry (repeat 97 31) addr_10_0_0_1) []
            _ _ _ _ _ _ _).
  - by_compute.
  - by_compute.
  - by_compute.
  - by_compute.
  - by_compute.
  - by_compute.
  - apply Nat.ltb_lt. vm_compute. reflexivity.
Defined.

(** X14.  With an empty table every valid query, forward or reverse, gets
    the reply of a query that matches no entry, whatever the size of a
    pointer: header and question, no record, the flags of the request or-ed
    with QR, AA and 3, so that RCODE is the RCODE of the request or-ed with
    3 (3, name error, for a request with RCODE 0), and the answer count as
    the request had it. *)
Theorem empty_table_name_error sizeof_ptr conf_ttl buf :
  wf_buf buf -> valid_query buf ->
  let h := head_of buf in
  (exists rest,
      process_packet sizeof_ptr [] conf_ttl buf
      = Ok (head_bytes (name_error_header h) ++ question buf ++ rest,
            Z.of_nat (sizeof_dns_head + length (question buf))))
  /\ RCODE (flags (name_error_header h)) = Z.lor (RCODE (flags h)) 3
  /\ (RCODE (flags h) = 0 -> RCODE (flags (name_error_header h)) = 3)
  /\ nansw (name_error_header h) = nansw h.
Proof.
  intros Hwf Hv h.
  assert (HR : RCODE (flags (name_error_header h))
               = Z.lor (RCODE (flags h)) 3)
    by (cbn [flags name_error_header]; apply RCODE_lor).
  split; [|split; [|split]].
  - apply replies_explicit.
    apply (pp_no_record sizeof_ptr [] conf_ttl buf Hwf Hv). reflexivity.
  - exact HR.
  - intros H0. rewrite HR, H0. reflexivity.
  - reflexivity.
Qed.

Lemma empty_table_name_error_witness :
  exists rest,
    process_packet 4 [] DEFAULT_TTL query_ptr
    = Ok ([18; 52; 133; 3; 0; 1; 0; 0; 0; 0; 0; 0]
          ++ (qn_ptr ++ [0; 0; 12; 0; 1]) ++ rest,
          39).
Proof.
  refine (proj1 (empty_table_name_error 4 DEFAULT_TTL query_ptr _ _));
    by_compute.
Defined.

(** ** One turn of the loop, and the loop *)

Lemma step_outcome conf_data conf_ttl buf :
  wf_buf buf -> 0 <= conf_ttl < 4294967296 ->
  sent (p <- process_packet 4 conf_data conf_ttl buf ;;
        if snd p <=? 0 then Ok (fst p, None)
        else Ok (fst p, Some (reply_bytes p)))
  = turn_outcome conf_data conf_ttl buf.
Proof.
  intros Hwf Httl. unfold turn_outcome.
  destruct (not_ignoredb buf) eqn:En.
  - apply not_ignoredb_spec in En.
    assert (Hrep : answer_fits conf_data buf ->
      sent (p <- process_packet 4 conf_data conf_ttl buf ;;
            if snd p <=? 0 then Ok (fst p, None)
            else Ok (fst p, Some (reply_bytes p)))
      = Some (Some (head_bytes (reply_header conf_data buf)
                    ++ reply_body conf_data conf_ttl buf))).
    { intros Hfit.
      pose proof (process_packet_reply conf_data conf_ttl buf Hwf Httl En Hfit)
        as Hr.
      destruct (replies_elim _ _ _ _ _ _ Hr) as (b & n & Hp & _ & Hn & Hb).
      rewrite Hp. cbn [bind fst snd].
      unfold sizeof_dns_head in Hn.
      destruct (Z.leb_spec n 0) as [Hle|_]; [lia|].
      cbn [sent]. rewrite Hb. reflexivity. }
    destruct (supportedb buf) eqn:Es.
    + destruct (lookup conf_data buf) as [rdata|] eqn:El.
      * destruct (Nat.leb_spec (length rdata) (MAX_NAME_LEN + 1)) as [Hle|Hgt].
        -- apply Hrep. intros r _ Hr. rewrite El in Hr.
           injection Hr as <-. assumption.
        -- rewrite (pp_overrun _ conf_data conf_ttl buf Hwf rdata);
             [reflexivity| |exact El|exact Hgt].
           split; [assumption|apply supportedb_spec; assumption].
      * apply Hrep. intros r _ Hr. rewrite El in Hr. discriminate.
    + apply Hrep. intros r Hs. congruence.
  - rewrite (pp_ignored _ conf_data conf_ttl buf Hwf); [reflexivity|].
    unfold not_ignoredb in En. apply andb_false_iff in En.
    rewrite !negb_false_iff in En. rewrite Z.eqb_eq in En. exact En.
Qed.

Lemma turn_outcome_layout conf_data conf_ttl h Q ty cl X1 X2 :
  head_ok h -> Forall nonzero_byte Q -> is_u16 ty -> is_u16 cl ->
  turn_outcome conf_data conf_ttl (layout h Q ty cl X1)
  = turn_outcome conf_data conf_ttl (layout h Q ty cl X2).
Proof.
  intros Hh HQ Hty Hcl.
  unfold turn_outcome, not_ignoredb, supportedb, lookup, reply_header,
    reply_body, outr_flags, supportedb, lookup, answer_record.
  rewrite !head_of_layout, !qtype_layout, !qclass_layout, !qname_layout,
    !question_layout by assumption.
  reflexivity.
Qed.

Lemma layout_bytes h Q ty cl X :
  Forall nonzero_byte Q -> Forall is_byte X ->
  Forall is_byte (layout h Q ty cl X).
Proof.
  intros HQ HX. unfold layout, head_bytes.
  repeat (apply Forall_app; split; try apply be16_bytes).
  - revert HQ. apply Forall_impl. intros c [H _]. exact H.
  - constructor; [unfold is_byte; lia|].
    repeat (apply Forall_app; split; try apply be16_bytes). assumption.
Qed.

Lemma received_layout buf h Q ty cl extra :
  length buf = BUF_SIZE -> Forall is_byte buf ->
  Forall nonzero_byte Q -> Forall is_byte extra ->
  (length (layout h Q ty cl extra) <= MAX_PACK_LEN)%nat ->
  forall sizeof_ptr conf_data conf_ttl,
  exists tl,
    wf_buf (layout h Q ty cl (extra ++ tl))
    /\ dnsd_step sizeof_ptr conf_data conf_ttl buf (layout h Q ty cl extra)
       = (p <- process_packet sizeof_ptr conf_data conf_ttl
                 (layout h Q ty cl (extra ++ tl)) ;;
          if snd p <=? 0 then Ok (fst p, None)
          else Ok (fst p, Some (reply_bytes p))).
Proof.
  intros Hl Hb HQ He Hlen sizeof_ptr conf_data conf_ttl.
  assert (H12 : (12 <= length (layout h Q ty cl extra))%nat)
    by (rewrite layout_length; lia).
  destruct (dnsd_step_process sizeof_ptr conf_data conf_ttl buf
              (layout h Q ty cl extra) Hl Hb (layout_bytes _ _ _ _ _ HQ He)
              (conj H12 Hlen)) as (b2 & Hwf & Hf & Hs).
  exists (skipn (length (layout h Q ty cl extra)) b2).
  assert (Hb2 : b2 = layout h Q ty cl
                       (extra ++ skipn (length (layout h Q ty cl extra)) b2)).
  { rewrite <- (firstn_skipn (length (layout h Q ty cl extra)) b2) at 1.
    rewrite Hf. unfold layout. rewrite <- !app_assoc. cbn [app].
    rewrite <- !app_assoc. reflexivity. }
  rewrite <- Hb2. split; assumption.
Qed.

(** X15.  On a target where a pointer has the 4 bytes of struct dns_prop, a
    datagram that holds its question whole (header, name with its NUL, type
    and class) gets a reply that does not depend on what the buffer held
    before: whatever earlier datagrams left in the buffer, the turn of the
    loop sends the same packet, or sends nothing, or has no defined result,
    alike. *)
Theorem reply_independent_of_old_buffer sizeof_ptr conf_data conf_ttl
    buf1 buf2 h Q ty cl extra :
  sizeof_ptr = sizeof_dns_prop ->
  0 <= conf_ttl < 4294967296 ->
  length buf1 = BUF_SIZE -> Forall is_byte buf1 ->
  length buf2 = BUF_SIZE -> Forall is_byte buf2 ->
  head_ok h -> Forall nonzero_byte Q -> is_u16 ty -> is_u16 cl ->
  Forall is_byte extra ->
  (length (layout h Q ty cl extra) <= MAX_PACK_LEN)%nat ->
  sent (dnsd_step sizeof_ptr conf_data conf_ttl buf1
          (layout h Q ty cl extra))
  = sent (dnsd_step sizeof_ptr conf_data conf_ttl buf2
            (layout h Q ty cl extra)).
Proof.
  intros -> Httl L1 B1 L2 B2 Hh HQ Hty Hcl He Hlen.
  change sizeof_dns_prop with 4%nat.
  destruct (received_layout buf1 h Q ty cl extra L1 B1 HQ He Hlen
              4%nat conf_data conf_ttl) as (t1 & W1 & S1).
  destruct (received_layout buf2 h Q ty cl extra L2 B2 HQ He Hlen
              4%nat conf_data conf_ttl) as (t2 & W2 & S2).
  rewrite S1, S2, !step_outcome by assumption.
  apply turn_outcome_layout; assumption.
Qed.

Lemma reply_independent_of_old_buffer_witness :
  sent (dnsd_step 4 table1 DEFAULT_TTL query_ptr
          (layout (query_head 256 1 0) qn_foo 1 1 []))
  = sent (dnsd_step 4 table1 DEFAULT_TTL query_foo_MX
            (layout (query_head 256 1 0) qn_foo 1 1 [])).
Proof.
  refine (reply_independent_of_old_buffer 4 table1 DEFAULT_TTL
            query_ptr query_foo_MX (query_head 256 1 0) qn_foo 1 1 []
            _ _ _ _ _ _ _ _ _ _ _ _).
  - by_compute.
  - by_compute.
  - by_compute.
  - apply Forall_forall. intros x Hx. apply is_byteb_spec.
    revert x Hx. apply forallb_forall. vm_compute. reflexivity.
  - by_compute.
  - apply Forall_forall. intros x Hx. apply is_byteb_spec.
    revert x Hx. apply forallb_forall. vm_compute. reflexivity.
  - unfold head_ok, is_u16, query_head. cbn [id flags nquer nansw nauth nadd].
    lia.
  - unfold qn_foo, nonzero_byte, is_byte. repeat constructor; lia.
  - unfold is_u16. lia.
  - unfold is_u16. lia.
  - constructor.
  - apply Nat.leb_le. vm_compute. reflexivity.
Defined.

Lemma wf_buf_shape buf :
  wf_buf buf -> length buf = BUF_SIZE /\ Forall is_byte buf.
Proof.
  unfold wf_buf, wf_bufb. rewrite !andb_true_iff. intros [[Hl Hb] _].
  split; [apply Nat.eqb_eq; assumption|].
  apply Forall_forall. intros x Hx. apply is_byteb_spec.
  rewrite forallb_forall in Hb. auto.
Qed.

Lemma nth_firstn_lt (l : list Z) k i d :
  (i < k)%nat -> nth i (firstn k l) d = nth i l d.
Proof.
  revert k i. induction l as [|x l IH]; intros k i Hi.
  - rewrite firstn_nil. reflexivity.
  - destruct k as [|k]; [lia|]. destruct i as [|i]; [reflexivity|].
    cbn [firstn nth]. apply IH. lia.
Qed.

Lemma head_of_prefix buf datagram :
  firstn (length datagram) buf = datagram -> (12 <= length datagram)%nat ->
  head_of buf = head_of datagram.
Proof.
  intros Hf Hl.
  assert (Hn : forall i, (i < 12)%nat -> nth i buf 0 = nth i datagram 0).
  { intros i Hi. rewrite <- (nth_firstn_lt buf (length datagram) i 0) by lia.
    rewrite Hf. reflexivity. }
  unfold head_of, net16. rewrite !Hn by lia. reflexivity.
Qed.

Lemma dnsd_step_size sizeof_ptr conf_data conf_ttl buf datagram :
  length buf = BUF_SIZE -> Forall is_byte buf -> Forall is_byte datagram ->
  (length datagram < 12 \/ MAX_PACK_LEN < length datagram)%nat ->
  exists buf',
    dnsd_step sizeof_ptr conf_data conf_ttl buf datagram = Ok (buf', None)
    /\ length buf' = BUF_SIZE /\ Forall is_byte buf'.
Proof.
  intros Hl Hb Hd Hs. change BUF_SIZE with 1061%nat in *.
  change MAX_PACK_LEN with 512%nat in Hs.
  unfold dnsd_step. change (MAX_PACK_LEN + 1)%nat with 513%nat.
  set (received := firstn 513 datagram).
  assert (Hr : (length received = Nat.min 513 (length datagram))%nat)
    by apply length_firstn.
  rewrite store_0 by lia. cbn [bind].
  replace ((length received <? 12)%nat
           || (MAX_PACK_LEN <? length received)%nat) with true.
  - eexists. split; [reflexivity|]. split.
    + rewrite length_app, length_skipn. lia.
    + apply Forall_app. split.
      * apply (Forall_split_at _ 513 datagram Hd).
      * apply (Forall_split_at _ (length received) buf Hb).
  - symmetry. apply orb_true_iff. change MAX_PACK_LEN with 512%nat.
    rewrite !Nat.ltb_lt. lia.
Qed.

Lemma fits_of_names_fit conf_data buf :
  names_fit conf_data ->
  match (if supportedb buf then lookup conf_data buf else None) with
  | Some rdata => (length rdata <=? MAX_NAME_LEN + 1)%nat
  | None => true
  end = true.
Proof.
  intros Hf. destruct (supportedb buf); [|reflexivity].
  destruct (lookup conf_data buf) as [rdata|] eqn:El; [|reflexivity].
  apply Nat.leb_le. apply (table_lookup_fits _ _ _ _ Hf El).
Qed.

(** X16.  When the server replies.  Whatever the size of a pointer, a turn
    of the loop sends nothing for a datagram of fewer than 12 or more than
    MAX_PACK_LEN bytes, whatever it holds, and nothing for a datagram of a
    size between these that has a question count of zero or the QR bit set.
    To every other datagram it sends a packet of at least 17 bytes, the
    names of the table fitting the answer array and a pointer having the
    4 bytes of struct dns_prop. *)
Theorem when_dnsd_replies sizeof_ptr conf_data conf_ttl buf datagram :
  0 <= conf_ttl < 4294967296 ->
  length buf = BUF_SIZE -> Forall is_byte buf -> Forall is_byte datagram ->
  ((length datagram < 12 \/ MAX_PACK_LEN < length datagram)%nat ->
   sent (dnsd_step sizeof_ptr conf_data conf_ttl buf datagram) = Some None)
  /\ ((12 <= length datagram <= MAX_PACK_LEN)%nat ->
      nquer (head_of datagram) = 0 \/ QR (flags (head_of datagram)) = true ->
      sent (dnsd_step sizeof_ptr conf_data conf_ttl buf datagram) = Some None)
  /\ (sizeof_ptr = sizeof_dns_prop -> names_fit conf_data ->
      (12 <= length datagram <= MAX_PACK_LEN)%nat ->
      not_ignored datagram ->
      exists packet,
        sent (dnsd_step sizeof_ptr conf_data conf_ttl buf datagram)
        = Some (Some packet)
        /\ (17 <= length packet)%nat).
Proof.
  intros Httl Hl Hb Hd. split; [|split].
  - intros Hs.
    destruct (dnsd_step_size sizeof_ptr conf_data conf_ttl buf datagram
                Hl Hb Hd Hs) as (b & -> & _).
    reflexivity.
  - intros Hr Hi.
    destruct (dnsd_step_process sizeof_ptr conf_data conf_ttl buf datagram
                Hl Hb Hd Hr) as (b2 & Hwf & Hf & ->).
    rewrite (pp_ignored sizeof_ptr conf_data conf_ttl b2 Hwf); [reflexivity|].
    rewrite (head_of_prefix b2 datagram Hf) by lia. exact Hi.
  - intros -> Hfit Hr Hn. change sizeof_dns_prop with 4%nat.
    destruct (dnsd_step_process 4 conf_data conf_ttl buf datagram Hl Hb Hd Hr)
      as (b2 & Hwf & Hf & ->).
    rewrite step_outcome by assumption. unfold turn_outcome.
    assert (En : not_ignoredb b2 = true).
    { unfold not_ignoredb. rewrite (head_of_prefix b2 datagram Hf) by lia.
      apply not_ignoredb_spec. assumption. }
    rewrite En, fits_of_names_fit by assumption.
    eexists. split; [reflexivity|].
    rewrite length_app, head_bytes_length. unfold reply_body.
    rewrite length_app. destruct (question_length b2 Hwf) as (-> & _). lia.
Qed.

Lemma when_dnsd_replies_witness :
  sent (dnsd_step 4 table1 DEFAULT_TTL query_ptr [18; 52; 1; 0; 0; 1])
  = Some None
  /\ exists packet,
       sent (dnsd_step 4 table1 DEFAULT_TTL query_ptr (firstn 33 query_foo_A))
       = Some (Some packet)
       /\ (17 <= length packet)%nat.
Proof.
  assert (Hbytes : forall l, forallb is_byteb l = true -> Forall is_byte l).
  { intros l H. apply Forall_forall. intros x Hx. apply is_byteb_spec.
    revert x Hx. apply forallb_forall. assumption. }
  split.
  - refine (proj1 (when_dnsd_replies 4 table1 DEFAULT_TTL query_ptr
                     [18; 52; 1; 0; 0; 1] _ _ _ _) _).
    + by_compute.
    + by_compute.
    + apply Hbytes. vm_compute. reflexivity.
    + apply Hbytes. vm_compute. reflexivity.
    + left. cbn [length]. lia.
  - refine (proj2 (proj2 (when_dnsd_replies 4 table1 DEFAULT_TTL query_ptr
                            (firstn 33 query_foo_A) _ _ _ _)) _ _ _ _).
    + by_compute.
    + by_compute.
    + apply Hbytes. vm_compute. reflexivity.
    + apply Hbytes. vm_compute. reflexivity.
    + by_compute.
    + by_compute.
    + split; apply Nat.leb_le; vm_compute; reflexivity.
    + by_compute.
Defined.

Lemma dnsd_step_defined conf_data conf_ttl buf datagram :
  names_fit conf_data -> table_bytes conf_data ->
  0 <= conf_ttl < 4294967296 ->
  length buf = BUF_SIZE -> Forall is_byte buf -> Forall is_byte datagram ->
  exists buf' o,
    dnsd_step 4 conf_data conf_ttl buf datagram = Ok (buf', o)
    /\ length buf' = BUF_SIZE /\ Forall is_byte buf'.
Proof.
  intros Hfit Htb Httl Hl Hb Hd.
  destruct (le_lt_dec 12 (length datagram)) as [H12|Hlt];
    [destruct (le_lt_dec (length datagram) MAX_PACK_LEN) as [H512|Hgt]|].
  - destruct (dnsd_step_process 4 conf_data conf_ttl buf datagram Hl Hb Hd
                (conj H12 H512)) as (b2 & Hwf & Hf & ->).
    destruct (wf_buf_shape b2 Hwf) as (L2 & B2).
    assert (Hp : exists b' n, process_packet 4 conf_data conf_ttl b2 = Ok (b', n)).
    { destruct (not_ignoredb b2) eqn:En.
      - apply not_ignoredb_spec in En.
        destruct (pp_defined conf_data conf_ttl b2 Hwf Httl En Hfit)
          as (b' & n & Hp & _). eauto.
      - exists b2, (-1). apply pp_ignored; [assumption|].
        unfold not_ignoredb in En. apply andb_false_iff in En.
        rewrite !negb_false_iff in En. rewrite Z.eqb_eq in En. exact En. }
    destruct Hp as (b' & n & Hp). rewrite Hp. cbn [bind fst snd].
    destruct (process_packet_shape _ _ _ _ _ _ Htb Hp) as (L' & B').
    destruct (n <=? 0); eexists; eexists;
      (split; [reflexivity|split; [congruence|auto]]).
  - destruct (dnsd_step_size 4 conf_data conf_ttl buf datagram Hl Hb Hd
                (or_intror Hgt)) as (b & Hs & L & B). eauto.
  - destruct (dnsd_step_size 4 conf_data conf_ttl buf datagram Hl Hb Hd
                (or_introl Hlt)) as (b & Hs & L & B). eauto.
Qed.

(** X17.  The loop never leaves the buffer, on a target where a pointer has
    the 4 bytes of struct dns_prop: when the names of the table fit the
    answer array, for every sequence of datagrams, of any sizes and
    contents, every turn has a defined result, one outcome is recorded for
    each datagram, and the buffer is still the array of BUF_SIZE bytes
    afterwards. *)
Theorem dnsd_run_defined sizeof_ptr conf_data conf_ttl datagrams :
  sizeof_ptr = sizeof_dns_prop ->
  names_fit conf_data -> table_bytes conf_data ->
  0 <= conf_ttl < 4294967296 ->
  Forall (Forall is_byte) datagrams ->
  forall buf,
    length buf = BUF_SIZE -> Forall is_byte buf ->
    exists buf' outs,
      dnsd_run sizeof_ptr conf_data conf_ttl buf datagrams = Ok (buf', outs)
      /\ length outs = length datagrams
      /\ length buf' = BUF_SIZE /\ Forall is_byte buf'.
Proof.
  intros -> Hfit Htb Httl Hd. change sizeof_dns_prop with 4%nat.
  induction Hd as [|dg dgs Hdg _ IH]; intros buf Hl Hb.
  - exists buf, []. cbn [dnsd_run length]. auto.
  - destruct (dnsd_step_defined conf_data conf_ttl buf dg Hfit Htb Httl Hl Hb
                Hdg) as (b1 & o & Hs & L1 & B1).
    destruct (IH b1 L1 B1) as (b2 & outs & Hr & Ho & L2 & B2).
    exists b2, (o :: outs). cbn [dnsd_run]. rewrite Hs. cbn [bind fst snd].
    rewrite Hr. cbn [bind fst snd length]. auto.
Qed.

Lemma dnsd_run_defined_witness :
  exists buf' outs,
    dnsd_run 4 table1 DEFAULT_TTL query_ptr
      [[18; 52; 1; 0; 0; 1]; firstn 33 query_foo_A; firstn 33 query_response]
    = Ok (buf', outs)
    /\ length outs = 3%nat
    /\ length buf' = BUF_SIZE /\ Forall is_byte buf'.
Proof.
  assert (Hbytes : forall l, forallb is_byteb l = true -> Forall is_byte l).
  { intros l H. apply Forall_forall. intros x Hx. apply is_byteb_spec.
    revert x Hx. apply forallb_forall. assumption. }
  refine (dnsd_run_defined 4 table1 DEFAULT_TTL
            [[18; 52; 1; 0; 0; 1]; firstn 33 query_foo_A;
             firstn 33 query_response] _ _ _ _ _ query_ptr _ _).
  - by_compute.
  - by_compute.
  - apply table_bytes_forallb. vm_compute. reflexivity.
  - by_compute.
  - repeat (apply Forall_cons; [apply Hbytes; vm_compute; reflexivity|]).
    apply Forall_nil.
  - by_compute.
  - apply Hbytes. vm_compute. reflexivity.
Defined.

(** ** The size of a pointer *)





(** With a pointer of 8 bytes the reply does depend on what the buffer held
    before: to the same query for foo.example.com, one turn of the loop on
    a buffer of zeros and one on a buffer of bytes 85 send packets that
    differ in the bytes between the copy of the question and the TTL; the
    second carries three bytes of the old buffer. *)
Lemma old_buffer_sent_with_pointers_of_8_bytes :
  exists p1 p2,
    sent (dnsd_step 8 table1 DEFAULT_TTL (repeat 0 BUF_SIZE)
            (firstn 33 query_foo_A)) = Some (Some p1)
    /\ sent (dnsd_step 8 table1 DEFAULT_TTL (repeat 85 BUF_SIZE)
               (firstn 33 query_foo_A)) = Some (Some p2)
    /\ firstn 4 (skipn 54 p1) = [0; 0; 0; 0]
    /\ firstn 4 (skipn 54 p2) = [0; 85; 85; 85]
    /\ firstn 4 (skipn 58 p2) = [0; 0; 0; 120].
Proof.
  eexists. eexists.
  split; [vm_compute; reflexivity|].
  split; [vm_compute; reflexivity|].
  split; [vm_compute; reflexivity|].
  split; vm_compute; reflexivity.
Qed.

(** With a pointer of 8 bytes the loop can leave the buffer: a datagram of
    512 bytes whose name is not closed within it, on a buffer that holds
    type PTR and class IN behind the NUL of dnsd_main, matches an entry
    whose name fills the answer array, and the reply needs 1063 of the 1061
    bytes of the buffer.  With a pointer of 4 bytes the same turn sends a
    reply of 1059 bytes. *)
Lemma buffer_overrun_with_pointers_of_8_bytes :
  names_fit table_name_29
  /\ length (firstn 512 query_ptr_500) = MAX_PACK_LEN
  /\ dnsd_step 8 table_name_29 DEFAULT_TTL query_ptr_500
       (firstn 512 query_ptr_500) = Fault
  /\ exists packet,
       sent (dnsd_step 4 table_name_29 DEFAULT_TTL query_ptr_500
               (firstn 512 query_ptr_500)) = Some (Some packet)
       /\ length packet = 1059%nat.
Proof.
  split; [vm_compute; reflexivity|].
  split; [vm_compute; reflexivity|].
  split; [vm_compute; reflexivity|].
  eexists. split; vm_compute; reflexivity.
Qed.
